(** * XCCDF policy evaluation core (src/XCCDF_POLICY/xccdf_policy.c)

    A shallow embedding of the policy layer of the XCCDF engine: the
    result algebra used to reduce complex checks, the selection resolver
    run at policy construction, the check chooser, the check evaluator,
    the rule runner, the TestResult assembly and item tailoring.

    C integers are modelled as [Z], C strings as [string], nullable C
    strings as [option string], linked lists ([oscap_list]) as [list],
    and heap objects reached through pointers as entries of a finite map
    from addresses where a property depends on sharing. *)

From Stdlib Require Import ZArith List String Ascii Bool Lia.
From stdpp Require Import base option list gmap strings.
Import ListNotations.

Local Open Scope string_scope.
Local Open Scope list_scope.
Local Open Scope Z_scope.

(** ** Result algebra *)

Module ResultAlgebra.

(** [xccdf_test_result_type_t], with the numbering the tables of
    [_resolve_operation] are indexed by. *)
Definition XCCDF_RESULT_PASS : Z := 1.
Definition XCCDF_RESULT_FAIL : Z := 2.
Definition XCCDF_RESULT_ERROR : Z := 3.
Definition XCCDF_RESULT_UNKNOWN : Z := 4.
Definition XCCDF_RESULT_NOT_APPLICABLE : Z := 5.
Definition XCCDF_RESULT_NOT_CHECKED : Z := 6.
Definition XCCDF_RESULT_NOT_SELECTED : Z := 7.
Definition XCCDF_RESULT_INFORMATIONAL : Z := 8.
Definition XCCDF_RESULT_FIXED : Z := 9.

(** [xccdf_bool_operator_t]: the two operators of a complex check; the
    third constructor stands for any other value stored in the C enum. *)
Inductive xccdf_bool_operator_t :=
| XCCDF_OPERATOR_AND
| XCCDF_OPERATOR_OR
| XCCDF_OPERATOR_OTHER.

#[global] Instance xccdf_bool_operator_eq_dec : EqDecision xccdf_bool_operator_t.
Proof. solve_decision. Defined.

Definition RESULT_TABLE_AND : list (list Z) :=
  [ [0; 0; 0; 0; 0; 0; 0; 0; 0];
    [0; 1; 2; 3; 4; 1; 1; 1; 1];   (* P (pass) *)
    [0; 2; 2; 2; 2; 2; 2; 2; 2];   (* F (fail) *)
    [0; 4; 2; 4; 4; 4; 4; 4; 4];   (* E (error) *)
    [0; 3; 2; 3; 4; 3; 3; 3; 3];   (* U (unknown) *)
    [0; 1; 2; 3; 4; 5; 5; 5; 5];   (* N (notapplicable) *)
    [0; 1; 2; 3; 4; 5; 6; 6; 6];   (* K (notchecked) *)
    [0; 1; 2; 3; 4; 5; 6; 7; 7];   (* S (notselected) *)
    [0; 1; 2; 3; 4; 5; 6; 7; 8] ]. (* I (informational) *)

Definition RESULT_TABLE_OR : list (list Z) :=
  [ [0; 0; 0; 0; 0; 0; 0; 0; 0];
    [0; 1; 1; 1; 1; 1; 1; 1; 1];   (* P (pass) *)
    [0; 1; 2; 3; 4; 2; 2; 2; 2];   (* F (fail) *)
    [0; 1; 4; 4; 4; 4; 4; 4; 4];   (* E (error) *)
    [0; 1; 3; 3; 4; 3; 3; 3; 3];   (* U (unknown) *)
    [0; 1; 2; 3; 4; 5; 5; 5; 5];   (* N (notapplicable) *)
    [0; 1; 2; 3; 4; 5; 6; 6; 6];   (* K (notchecked) *)
    [0; 1; 2; 3; 4; 5; 6; 7; 7];   (* S (notselected) *)
    [0; 1; 2; 3; 4; 5; 6; 7; 8] ]. (* I (informational) *)

(** Reading [t[A][B]] from a [9][9] array.  [None] is a read outside the
    array, which C leaves undefined. *)
Definition table_read (t : list (list Z)) (A B : Z) : option Z :=
  if (A <? 0) || (B <? 0) || (8 <? B) then None
  else row ← t !! Z.to_nat A; row !! Z.to_nat B.

(** [_resolve_operation].  [Some v] is a returned value, [None] an
    out-of-bounds table read. *)
Definition _resolve_operation (A B : Z) (oper : xccdf_bool_operator_t) : option Z :=
  if (A =? 0) || (B =? 0)
     || (A >? XCCDF_RESULT_INFORMATIONAL) || (B >? XCCDF_RESULT_INFORMATIONAL)
  then Some 0
  else match oper with
       | XCCDF_OPERATOR_AND => table_read RESULT_TABLE_AND A B
       | XCCDF_OPERATOR_OR => table_read RESULT_TABLE_OR A B
       | XCCDF_OPERATOR_OTHER => Some 0
       end.

(** [xccdf_test_result_resolve_and_operation]. *)
Definition xccdf_test_result_resolve_and_operation (A B : Z) : option Z :=
  _resolve_operation A B XCCDF_OPERATOR_AND.

(** [_resolve_negate], on the value of the check's negate flag. *)
Definition _resolve_negate (value : Z) (negate : bool) : Z :=
  if negate then
    if value =? XCCDF_RESULT_PASS then XCCDF_RESULT_FAIL
    else if value =? XCCDF_RESULT_FAIL then XCCDF_RESULT_PASS
    else value
  else value.

(** The table given in the comment above [_resolve_operation], with
    N standing for every kind from not-applicable upwards:
<<
      AND  P  F  U  E  N    OR  P  F  U  E  N
        P  P  F  U  E  P     P  P  P  P  P  P
        F  F  F  F  F  F     F  P  F  U  E  F
        U  U  F  U  U  U     U  P  U  U  U  U
        E  E  F  U  E  E     E  P  E  U  E  E
        N  P  F  U  E  N     N  P  F  U  E  N
>>
    restricted to the four determinate kinds. *)
Definition documented_and (x y : Z) : Z :=
  if (x =? XCCDF_RESULT_FAIL) || (y =? XCCDF_RESULT_FAIL) then XCCDF_RESULT_FAIL
  else if (x =? XCCDF_RESULT_UNKNOWN) || (y =? XCCDF_RESULT_UNKNOWN) then XCCDF_RESULT_UNKNOWN
  else if (x =? XCCDF_RESULT_ERROR) || (y =? XCCDF_RESULT_ERROR) then XCCDF_RESULT_ERROR
  else XCCDF_RESULT_PASS.

Definition documented_or (x y : Z) : Z :=
  if (x =? XCCDF_RESULT_PASS) || (y =? XCCDF_RESULT_PASS) then XCCDF_RESULT_PASS
  else if (x =? XCCDF_RESULT_UNKNOWN) || (y =? XCCDF_RESULT_UNKNOWN) then XCCDF_RESULT_UNKNOWN
  else if (x =? XCCDF_RESULT_ERROR) || (y =? XCCDF_RESULT_ERROR) then XCCDF_RESULT_ERROR
  else XCCDF_RESULT_FAIL.

(** The eight result kinds the tables are defined over. *)
Definition result_kinds : list Z := [1; 2; 3; 4; 5; 6; 7; 8].

Definition is_result_kind (x : Z) : Prop := 1 <= x <= 8.

End ResultAlgebra.

(** ** Data model *)

Module Model.
Import ResultAlgebra.

(** [float] fields (weights) are only copied by the functions embedded
    here; they are carried as the integer holding their bit pattern. *)
Definition xccdf_numeric := Z.

(** [oscap_strcmp] (common/util.h): [strcmp] in which a NULL string
    stands for the empty string. *)
Definition oscap_strcmp_eq (s1 s2 : option string) : bool :=
  bool_decide (default "" s1 = default "" s2).

(** [strcmp (a, b) == 0] on non-NULL strings. *)
Definition streq (a b : string) : bool := bool_decide (a = b).

Record xccdf_check_content_ref := {
  content_ref_href : string;
  content_ref_name : option string }.

Record xccdf_check_export := {
  check_export_value : string;   (* id of the exported Value *)
  check_export_name : string }.  (* name of the variable in the engine *)

Record xccdf_check_import := {
  check_import_name : string;
  check_import_content : option string }.

(** [struct xccdf_check]: a simple check, or a complex check with an
    operator and children.  The induction principles of the two nested
    types are stated by hand further down. *)
#[local] Unset Elimination Schemes.
Inductive xccdf_check := Check {
  check_complex : bool;
  check_oper : xccdf_bool_operator_t;
  check_negate : bool;
  check_multicheck : bool;
  check_system : option string;
  check_selector : option string;
  check_content_refs : list xccdf_check_content_ref;
  check_exports : list xccdf_check_export;
  check_imports : list xccdf_check_import;
  check_children : list xccdf_check }.
#[local] Set Elimination Schemes.

Record xccdf_value_instance := {
  value_instance_selector : option string;
  value_instance_value : option string;
  value_instance_defval : option string }.

Record xccdf_value := {
  value_id : string;
  value_type : Z;
  value_oper : Z;
  value_instances : list xccdf_value_instance }.

Record xccdf_rule := {
  rule_id : string;
  rule_selected : bool;
  rule_weight : xccdf_numeric;
  rule_version : option string;
  rule_severity : Z;
  rule_role : Z;
  rule_platforms : list string;
  rule_fixes : list string;
  rule_idents : list string;
  rule_checks : list xccdf_check;
  rule_complex_checks : list xccdf_check }.

(** The fields of a Group other than its content. *)
Record xccdf_group := {
  group_id : string;
  group_selected : bool;
  group_weight : xccdf_numeric;
  group_platforms : list string }.

(** [struct xccdf_item], restricted to the variants that occur as
    Benchmark content. *)
#[local] Unset Elimination Schemes.
Inductive xccdf_item :=
| XCCDF_RULE (r : xccdf_rule)
| XCCDF_GROUP (g : xccdf_group) (content : list xccdf_item)
| XCCDF_VALUE (v : xccdf_value).
#[local] Set Elimination Schemes.

Definition xccdf_item_get_id (item : xccdf_item) : string :=
  match item with
  | XCCDF_RULE r => rule_id r
  | XCCDF_GROUP g _ => group_id g
  | XCCDF_VALUE v => value_id v
  end.

Definition xccdf_item_get_platforms (item : xccdf_item) : list string :=
  match item with
  | XCCDF_RULE r => rule_platforms r
  | XCCDF_GROUP g _ => group_platforms g
  | XCCDF_VALUE _ => []
  end.

Record xccdf_select := {
  select_item : string;
  select_selected : bool }.

Record xccdf_setvalue := {
  setvalue_item : string;
  setvalue_value : string }.

Record xccdf_refine_rule := {
  refine_rule_item : string;
  refine_rule_selector : option string;
  refine_rule_weight : xccdf_numeric;
  refine_rule_weight_defined : bool;
  refine_rule_role : Z;
  refine_rule_severity : Z }.

Record xccdf_refine_value := {
  refine_value_item : string;
  refine_value_selector : option string;
  refine_value_oper : Z }.

Record xccdf_profile := {
  profile_id : option string;
  profile_selects : list xccdf_select;
  profile_setvalues : list xccdf_setvalue;
  profile_refine_rules : list xccdf_refine_rule;
  profile_refine_values : list xccdf_refine_value }.

(** CPE dictionaries and language models are external collaborators.
    A language model is carried as the answer of
    [cpe_platform_applicable_lang_model] for a platform id, a dictionary
    as the answer of [cpe_name_applicable_dict] for a CPE name. *)
Definition cpe_lang_model := string -> bool.
Definition cpe_dict_model := string -> bool.

Record xccdf_benchmark := {
  benchmark_content : list xccdf_item;
  benchmark_schema_version : string;
  benchmark_platforms : list string;
  benchmark_cpe_list : option cpe_dict_model;
  benchmark_cpe_lang_model : option cpe_lang_model;
  benchmark_profiles : list xccdf_profile }.

(** [struct xccdf_value_binding]. *)
Record xccdf_value_binding := {
  binding_name : string;
  binding_type : Z;
  binding_value : option string;
  binding_setvalue : option string;
  binding_operator : Z }.

(** [struct xccdf_rule_result] (the timestamp is left out). *)
Record xccdf_rule_result := {
  rule_result_idref : string;
  rule_result_result : Z;
  rule_result_weight : xccdf_numeric;
  rule_result_version : option string;
  rule_result_severity : Z;
  rule_result_role : Z;
  rule_result_fixes : list string;
  rule_result_idents : list string;
  rule_result_check : option xccdf_check;
  rule_result_message : option string }.

(** [struct xccdf_result] (start and end time are left out). *)
Record xccdf_result := {
  result_id : option string;
  result_rule_results : list xccdf_rule_result }.

(** What a registered callback is called with.  [callback_t] and
    [callback_out_t] share the list of callbacks and are told apart by
    their system name only, so one function type receives either the
    arguments of a checking engine or the object a reporter is given. *)
Inductive callback_args :=
| EngineArgs (rule_id : option string) (content : option string) (href : string)
             (bindings : list xccdf_value_binding) (imports : list xccdf_check_import)
| StartArgs (rule : xccdf_rule)
| OutputArgs (rule_result : option xccdf_rule_result).

(** [callback_t]; a reporter is registered without a query function. *)
Record callback := {
  callback_system : option string;
  callback_callback : callback_args -> Z;
  callback_query_fn : option (string -> option (list string)) }.

(** [struct xccdf_policy_model], without the list of policies (a policy
    refers to its model, not the other way round, in this embedding) and
    with the CPE name syntax check [cpe_name_check] as a field. *)
Record xccdf_policy_model := {
  model_benchmark : xccdf_benchmark;
  model_callbacks : list callback;
  model_cpe_dicts : list cpe_dict_model;
  model_cpe_lang_models : list cpe_lang_model;
  model_cpe_name_check : string -> bool }.

(** [struct xccdf_policy].  [policy_ht_selects] maps an item id to the
    position in [policy_selects] of the select object the hash table
    points to; [None] is the NULL table. *)
Record xccdf_policy := {
  policy_model : xccdf_policy_model;
  policy_profile : option xccdf_profile;
  policy_selects : list xccdf_select;
  policy_results : list xccdf_result;
  policy_ht_selects : option (gmap string nat) }.

(** One call of a registered callback: its system name and arguments. *)
Definition call_log := list (option string * callback_args).

(** The result of C code that may run into undefined behaviour. *)
Inductive outcome (A : Type) :=
| Returns (a : A)
| Undefined.
Arguments Returns {A} a.
Arguments Undefined {A}.

#[global] Instance outcome_ret : MRet outcome := fun _ a => Returns a.
#[global] Instance outcome_bind : MBind outcome := fun _ _ f m =>
  match m with Returns a => f a | Undefined => Undefined end.

Definition outcome_of_option {A} (o : option A) : outcome A :=
  match o with Some a => Returns a | None => Undefined end.

End Model.

(** ** Selection resolver (policy construction) *)

Module Selection.
Import ResultAlgebra Model.

(** [xccdf_policy_has_select]: a linear scan of the policy's selects. *)
Fixpoint has_select_in (selects : list xccdf_select) (item_id : string) : bool :=
  match selects with
  | [] => false
  | sel :: rest =>
      if streq (select_item sel) item_id then true else has_select_in rest item_id
  end.

Definition xccdf_policy_has_select (policy : xccdf_policy) (item_id : string) : bool :=
  has_select_in (policy_selects policy) item_id.

(** The linear scan of [xccdf_policy_get_select_by_id]: the position of
    the first select whose item is [item_id]. *)
Fixpoint scan_select (selects : list xccdf_select) (item_id : string) (pos : nat)
  : option nat :=
  match selects with
  | [] => None
  | sel :: rest =>
      if streq (select_item sel) item_id then Some pos
      else scan_select rest item_id (S pos)
  end.

(** [xccdf_policy_get_select_by_id]: the select object (as its position
    in the list of selects) found through the hash table when there is
    one and it has the id, through the list otherwise; [None] is NULL. *)
Definition xccdf_policy_get_select_by_id (policy : xccdf_policy) (item_id : string)
  : option nat :=
  let sel := match policy_ht_selects policy with
             | Some ht => ht !! item_id
             | None => None
             end in
  match sel with
  | None => scan_select (policy_selects policy) item_id 0
  | Some s => Some s
  end.

(** [xccdf_select_get_selected] of the select object at a position. *)
Definition select_selected_at (policy : xccdf_policy) (pos : nat) : option bool :=
  select_selected <$> policy_selects policy !! pos.

(** [xccdf_select_set_selected] on the select object at a position. *)
Definition set_selected_at (policy : xccdf_policy) (pos : nat) (b : bool) : xccdf_policy :=
  {| policy_model := policy_model policy;
     policy_profile := policy_profile policy;
     policy_selects :=
       alter (fun sel => {| select_item := select_item sel; select_selected := b |})
             pos (policy_selects policy);
     policy_results := policy_results policy;
     policy_ht_selects := policy_ht_selects policy |}.

(** [oscap_list_add (policy->selects, sel)]: append at the end. *)
Definition add_select (policy : xccdf_policy) (sel : xccdf_select) : xccdf_policy :=
  {| policy_model := policy_model policy;
     policy_profile := policy_profile policy;
     policy_selects := policy_selects policy ++ [sel];
     policy_results := policy_results policy;
     policy_ht_selects := policy_ht_selects policy |}.

(** The Rule case of [xccdf_policy_resolve_item]. *)
Definition resolve_rule (policy : xccdf_policy) (r : xccdf_rule) (selected : bool)
  : xccdf_policy :=
  if negb (xccdf_policy_has_select policy (rule_id r)) then
    add_select policy
      {| select_item := rule_id r; select_selected := selected && rule_selected r |}
  else
    match xccdf_policy_get_select_by_id policy (rule_id r) with
    | Some pos =>
        match select_selected_at policy pos with
        | Some b => set_selected_at policy pos (selected && b)
        | None => policy
        end
    | None => policy
    end.

(** The value [selected] takes in the Group case before the children
    are visited. *)
Definition resolve_group_selected (policy : xccdf_policy) (g : xccdf_group)
  (selected : bool) : bool :=
  if selected then
    if xccdf_policy_has_select policy (group_id g) then
      match xccdf_policy_get_select_by_id policy (group_id g) with
      | Some pos => default false (select_selected_at policy pos)
      | None => false
      end
    else if group_selected g then true
    else false
  else selected.

(** The loop over the content of a Group, or of the Benchmark, given how
    one item is resolved. *)
Section resolve_children.
Variable resolve : xccdf_policy -> xccdf_item -> xccdf_policy.

Fixpoint resolve_children (policy : xccdf_policy) (child_it : list xccdf_item)
  : xccdf_policy :=
  match child_it with
  | [] => policy
  | child :: rest => resolve_children (resolve policy child) rest
  end.
End resolve_children.

(** [xccdf_policy_resolve_item]. *)
Fixpoint xccdf_policy_resolve_item (policy : xccdf_policy) (item : xccdf_item)
  (selected : bool) {struct item} : xccdf_policy :=
  match item with
  | XCCDF_RULE r => resolve_rule policy r selected
  | XCCDF_GROUP g content =>
      let selected := resolve_group_selected policy g selected in
      resolve_children (fun policy child => xccdf_policy_resolve_item policy child selected)
                       policy content
  | XCCDF_VALUE _ => policy
  end.

(** The loop of [xccdf_policy_new] over the Benchmark content. *)
Definition resolve_items (policy : xccdf_policy) (items : list xccdf_item)
  (selected : bool) : xccdf_policy :=
  resolve_children (fun policy item => xccdf_policy_resolve_item policy item selected)
                   policy items.

(** [oscap_htable_add] (common/list.c) keeps the entry a key already
    has.  The table of [xccdf_policy_new] is filled from the selects in
    list order. *)
Fixpoint htable_fill (ht : gmap string nat) (selects : list xccdf_select) (pos : nat)
  : gmap string nat :=
  match selects with
  | [] => ht
  | sel :: rest =>
      let ht' := match ht !! select_item sel with
                 | Some _ => ht
                 | None => <[select_item sel := pos]> ht
                 end in
      htable_fill ht' rest (S pos)
  end.

(** [xccdf_policy_new]: the selects of the Profile are cloned into the
    policy in Profile order, the Benchmark content is resolved with
    [selected = true], and the hash table is built.  For a NULL Profile
    the source hands a NULL iterator to [xccdf_select_iterator_has_more],
    which is defined outside this file; it is taken here as an iterator
    without elements, so that the policy starts without selects.  Every
    policy [xccdf_policy_model_new] makes has a Profile. *)
Definition xccdf_policy_new (model : xccdf_policy_model) (profile : option xccdf_profile)
  : xccdf_policy :=
  let policy0 :=
    {| policy_model := model;
       policy_profile := profile;
       policy_selects := match profile with
                         | Some p => profile_selects p
                         | None => []
                         end;
       policy_results := [];
       policy_ht_selects := None |} in
  let policy1 := resolve_items policy0 (benchmark_content (model_benchmark model)) true in
  {| policy_model := policy_model policy1;
     policy_profile := policy_profile policy1;
     policy_selects := policy_selects policy1;
     policy_results := policy_results policy1;
     policy_ht_selects := Some (htable_fill ∅ (policy_selects policy1) 0) |}.

(** [_xccdf_policy_is_rule_selected].  Reading the flag through a NULL
    select is undefined. *)
Definition _xccdf_policy_is_rule_selected (policy : xccdf_policy) (r : xccdf_rule)
  : outcome bool :=
  match xccdf_policy_get_select_by_id policy (rule_id r) with
  | Some pos => outcome_of_option (select_selected_at policy pos)
  | None => Undefined
  end.

End Selection.

(** ** Check chooser *)

Module Chooser.
Import ResultAlgebra Model.

(** The loop of [xccdf_policy_get_refine_rules_by_rule]: it stops at the
    first refine-rule whose item is the given id. *)
Fixpoint refine_rule_scan (r_rule_it : list xccdf_refine_rule) (id : string)
  : option xccdf_refine_rule :=
  match r_rule_it with
  | [] => None
  | r_rule :: rest =>
      if streq (refine_rule_item r_rule) id then Some r_rule
      else refine_rule_scan rest id
  end.

(** [xccdf_policy_get_refine_rules_by_rule], on the id of the item. *)
Definition xccdf_policy_get_refine_rules_by_rule (policy : xccdf_policy) (id : string)
  : option xccdf_refine_rule :=
  match policy_profile policy with
  | None => None
  | Some profile => refine_rule_scan (profile_refine_rules profile) id
  end.

(** Modelled from the spec: [xccdf_rule_get_checks_filtered] (declared
    in item.h, defined outside this file) enumerates, in declaration
    order, the simple checks of the Rule whose selector equals the given
    selector; a NULL selector selects the checks with no selector. *)
Definition xccdf_rule_get_checks_filtered (rule : xccdf_rule) (selector : option string)
  : list xccdf_check :=
  List.filter (fun check => bool_decide (check_selector check = selector))
              (rule_checks rule).

(** [_xccdf_policy_filter_callback]. *)
Definition _xccdf_policy_filter_callback (cb : callback) (sysname : option string) : bool :=
  oscap_strcmp_eq (callback_system cb) sysname.

(** [_xccdf_policy_is_engine_registered]: [oscap_list_contains] over the
    model's callbacks. *)
Definition _xccdf_policy_is_engine_registered (policy : xccdf_policy)
  (sysname : option string) : bool :=
  existsb (fun cb => _xccdf_policy_filter_callback cb sysname)
          (model_callbacks (policy_model policy)).

(** The loop "Check.System" of [_xccdf_policy_rule_get_applicable_check]:
    [result] is overwritten by every candidate with a registered engine. *)
Fixpoint check_system_loop (policy : xccdf_policy) (candidate_it : list xccdf_check)
  (result : option xccdf_check) : option xccdf_check :=
  match candidate_it with
  | [] => result
  | check :: rest =>
      if _xccdf_policy_is_engine_registered policy (check_system check)
      then check_system_loop policy rest (Some check)
      else check_system_loop policy rest result
  end.

(** [_xccdf_policy_rule_get_applicable_check]. *)
Definition _xccdf_policy_rule_get_applicable_check (policy : xccdf_policy)
  (rule : xccdf_rule) : option xccdf_check :=
  let result := match rule_complex_checks rule with
                | check :: _ => Some check
                | [] => None
                end in
  match result with
  | Some _ => result
  | None =>
      let r_rule := xccdf_policy_get_refine_rules_by_rule policy (rule_id rule) in
      let selector := match r_rule with
                      | None => None
                      | Some rr => refine_rule_selector rr
                      end in
      let candidate_it := xccdf_rule_get_checks_filtered rule selector in
      let candidate_it :=
        if bool_decide (selector <> None) && bool_decide (candidate_it = [])
        then xccdf_rule_get_checks_filtered rule None
        else candidate_it in
      check_system_loop policy candidate_it result
  end.

End Chooser.

(** ** Check evaluator *)

Module Evaluator.
Import ResultAlgebra Model Chooser.

(** Modelled from the spec: [xccdf_benchmark_get_item] (defined outside
    this file) finds the item with a given id; ids are unique, the
    search below is in Benchmark pre-order. *)
Section first_found.
Context {A : Type}.
Variable search : xccdf_item -> option A.

(** The first item of a list the search succeeds on. *)
Fixpoint first_found (items : list xccdf_item) : option A :=
  match items with
  | [] => None
  | item :: rest =>
      match search item with
      | Some found => Some found
      | None => first_found rest
      end
  end.
End first_found.

Fixpoint item_get_item (id : string) (item : xccdf_item) {struct item} : option xccdf_item :=
  if streq (xccdf_item_get_id item) id then Some item
  else match item with
       | XCCDF_GROUP _ content => first_found (item_get_item id) content
       | _ => None
       end.

Definition items_get_item (items : list xccdf_item) (id : string) : option xccdf_item :=
  first_found (item_get_item id) items.

Definition xccdf_benchmark_get_item (benchmark : xccdf_benchmark) (id : string)
  : option xccdf_item :=
  items_get_item (benchmark_content benchmark) id.

(** The loop of [xccdf_policy_get_setvalue]: the last setvalue of the
    Profile for the id. *)
Fixpoint setvalue_scan (s_value_it : list xccdf_setvalue) (id : string)
  (final : option xccdf_setvalue) : option xccdf_setvalue :=
  match s_value_it with
  | [] => final
  | s_value :: rest =>
      if streq id (setvalue_item s_value) then setvalue_scan rest id (Some s_value)
      else setvalue_scan rest id final
  end.

Definition xccdf_policy_get_setvalue (policy : xccdf_policy) (id : string)
  : option xccdf_setvalue :=
  match policy_profile policy with
  | None => None
  | Some profile => setvalue_scan (profile_setvalues profile) id None
  end.

(** The loop of [xccdf_policy_get_refine_value]: the last refine-value
    of the Profile for the id. *)
Fixpoint refine_value_scan (r_value_it : list xccdf_refine_value) (id : string)
  (final : option xccdf_refine_value) : option xccdf_refine_value :=
  match r_value_it with
  | [] => final
  | r_value :: rest =>
      if streq id (refine_value_item r_value) then refine_value_scan rest id (Some r_value)
      else refine_value_scan rest id final
  end.

Definition xccdf_policy_get_refine_value (policy : xccdf_policy) (id : string)
  : option xccdf_refine_value :=
  match policy_profile policy with
  | None => None
  | Some profile => refine_value_scan (profile_refine_values profile) id None
  end.

(** Modelled from the spec: [xccdf_value_get_instance_by_selector]
    (defined outside this file) resolves the instance of a Value by
    selector; [None] when no instance matches. *)
Definition xccdf_value_get_instance_by_selector (value : xccdf_value)
  (selector : option string) : option xccdf_value_instance :=
  List.find (fun inst => oscap_strcmp_eq (value_instance_selector inst) selector)
            (value_instances value).

(** [xccdf_policy_check_get_value_bindings].  [Returns None] is the NULL
    list of a failure.  The export's id is looked up among all items and
    used as a Value; an item of another type there is outside what C
    defines.  [isnan] of the integer operator of a refine-value is never
    true, so the operator of a matching refine-value is always taken. *)
Fixpoint xccdf_policy_check_get_value_bindings (policy : xccdf_policy)
  (check_it : list xccdf_check_export) (bindings : list xccdf_value_binding)
  : outcome (option (list xccdf_value_binding)) :=
  match check_it with
  | [] => Returns (Some bindings)
  | check :: rest =>
      match xccdf_benchmark_get_item (model_benchmark (policy_model policy))
                                     (check_export_value check) with
      | None => Returns None
      | Some (XCCDF_VALUE value) =>
          let s_value := xccdf_policy_get_setvalue policy (value_id value) in
          let r_value := xccdf_policy_get_refine_value policy (value_id value) in
          let selector := match r_value with
                          | Some rv => refine_value_selector rv
                          | None => None
                          end in
          let operator := match r_value with
                          | Some rv => refine_value_oper rv
                          | None => value_oper value
                          end in
          match xccdf_value_get_instance_by_selector value selector with
          | None => Returns None
          | Some val =>
              xccdf_policy_check_get_value_bindings policy rest
                (bindings ++ [ {| binding_name := check_export_name check;
                              binding_type := value_type value;
                              binding_value := value_instance_value val;
                              binding_setvalue := setvalue_value <$> s_value;
                              binding_operator := operator |} ])
          end
      | Some _ => Undefined
      end
  end.

(** [_xccdf_policy_get_callbacks_by_sysname]: the callbacks registered
    for a system name, in registration order. *)
Definition _xccdf_policy_get_callbacks_by_sysname (policy : xccdf_policy)
  (sysname : option string) : list callback :=
  List.filter (fun cb => _xccdf_policy_filter_callback cb sysname)
              (model_callbacks (policy_model policy)).

(** The loop of [xccdf_policy_evaluate_cb]; every call of a callback is
    appended to the log. *)
Fixpoint evaluate_cb_loop (cb_it : list callback) (sysname : option string)
  (args : callback_args) (retval : Z) (log : call_log) : Z * call_log :=
  match cb_it with
  | [] => (retval, log)
  | cb :: rest =>
      let retval := callback_callback cb args in
      let log := log ++ [(sysname, args)] in
      if negb (retval =? XCCDF_RESULT_NOT_CHECKED) then (retval, log)
      else evaluate_cb_loop rest sysname args retval log
  end.

(** [xccdf_policy_evaluate_cb]. *)
Definition xccdf_policy_evaluate_cb (policy : xccdf_policy) (sysname : option string)
  (content : option string) (href : string) (rule_id : option string)
  (bindings : list xccdf_value_binding) (check_import_it : list xccdf_check_import)
  (log : call_log) : Z * call_log :=
  evaluate_cb_loop (_xccdf_policy_get_callbacks_by_sysname policy sysname) sysname
    (EngineArgs rule_id content href bindings check_import_it)
    XCCDF_RESULT_NOT_CHECKED log.

Definition check_set_content_refs (check : xccdf_check)
  (refs : list xccdf_check_content_ref) : xccdf_check :=
  Check (check_complex check) (check_oper check) (check_negate check)
        (check_multicheck check) (check_system check) (check_selector check)
        refs (check_exports check) (check_imports check) (check_children check).

Definition check_set_children (check : xccdf_check) (children : list xccdf_check)
  : xccdf_check :=
  Check (check_complex check) (check_oper check) (check_negate check)
        (check_multicheck check) (check_system check) (check_selector check)
        (check_content_refs check) (check_exports check) (check_imports check) children.

(** Modelled from the spec: [xccdf_check_inject_content_ref] (defined
    outside this file) pins a content-ref inside a check: the check's
    content-refs become that one content-ref, under the given name when
    one is given. *)
Definition xccdf_check_inject_content_ref (check : xccdf_check)
  (content : xccdf_check_content_ref) (name : option string) : xccdf_check :=
  check_set_content_refs check
    [ {| content_ref_href := content_ref_href content;
         content_ref_name := match name with
                             | Some n => Some n
                             | None => content_ref_name content
                             end |} ].

(** The loop over the content-refs of a simple check in
    [xccdf_policy_check_evaluate]. *)
Fixpoint content_ref_loop (policy : xccdf_policy) (check : xccdf_check)
  (rule_id : option string) (bindings : list xccdf_value_binding)
  (content_it : list xccdf_check_content_ref) (ret : Z) (log : call_log)
  : Z * xccdf_check * call_log :=
  match content_it with
  | [] => (ret, check, log)
  | content :: rest =>
      let '(ret, log) :=
        xccdf_policy_evaluate_cb policy (check_system check) (content_ref_name content)
          (content_ref_href content) rule_id bindings (check_imports check) log in
      if negb (ret =? XCCDF_RESULT_NOT_CHECKED)
      then (ret, xccdf_check_inject_content_ref check content None, log)
      else content_ref_loop policy check rule_id bindings rest ret log
  end.

(** The state of the loop over the children of a complex check: whether
    a child returned -1 (the function then returns -1 at once), the
    accumulated [ret], the children as the evaluation left them, and
    the log. *)
Record children_state := {
  children_aborted : bool;
  children_ret : Z;
  children_checks : list xccdf_check;
  children_log : call_log }.

(** The loop over the children of a complex check, given how one child
    is evaluated. *)
Section children_loop.
Variable evaluate : xccdf_check -> call_log -> outcome (Z * xccdf_check * call_log).
Variable oper : xccdf_bool_operator_t.

Fixpoint children_loop (child_it : list xccdf_check) (ret : Z) (log : call_log)
  : outcome children_state :=
  match child_it with
  | [] => Returns {| children_aborted := false; children_ret := ret;
                     children_checks := []; children_log := log |}
  | child :: rest =>
      '(ret2, child', log) ← evaluate child log;
      if ret2 =? -1 then
        Returns {| children_aborted := true; children_ret := -1;
                   children_checks := child' :: rest; children_log := log |}
      else
        ret ← (if ret =? 0 then Returns ret2
               else outcome_of_option (_resolve_operation ret ret2 oper));
        st ← children_loop rest ret log;
        Returns {| children_aborted := children_aborted st;
                   children_ret := children_ret st;
                   children_checks := child' :: children_checks st;
                   children_log := children_log st |}
  end.
End children_loop.

(** [xccdf_policy_check_evaluate]: the returned value, the check as the
    evaluation left it (content-refs pinned), and the log. *)
Fixpoint xccdf_policy_check_evaluate (policy : xccdf_policy) (check : xccdf_check)
  (rule_id : option string) (log : call_log) {struct check}
  : outcome (Z * xccdf_check * call_log) :=
  if check_complex check then
    st ← children_loop
           (fun child log => xccdf_policy_check_evaluate policy child rule_id log)
           (check_oper check) (check_children check) 0 log;
    let check' := check_set_children check (children_checks st) in
    if children_aborted st then Returns (-1, check', children_log st)
    else Returns (_resolve_negate (children_ret st) (check_negate check),
                  check', children_log st)
  else
    bindings ← xccdf_policy_check_get_value_bindings policy (check_exports check) [];
    match bindings with
    | None => Returns (XCCDF_RESULT_UNKNOWN, check, log)
    | Some bindings =>
        let '(ret, check', log) :=
          content_ref_loop policy check rule_id bindings (check_content_refs check) 0 log in
        Returns (_resolve_negate ret (check_negate check), check', log)
    end.

End Evaluator.

(** ** CPE applicability *)

Module Applicability.
Import ResultAlgebra Model Evaluator.

(** The search for the parent chain of an item ([xccdf_item_get_parent]
    followed up to the Benchmark): the Groups enclosing the item with
    the given id, outermost first. *)
Fixpoint item_ancestors (id : string) (item : xccdf_item) {struct item}
  : option (list xccdf_item) :=
  if streq (xccdf_item_get_id item) id then Some []
  else match item with
       | XCCDF_GROUP _ content =>
           cons item <$> first_found (item_ancestors id) content
       | _ => None
       end.

Definition items_ancestors (items : list xccdf_item) (id : string)
  : option (list xccdf_item) :=
  first_found (item_ancestors id) items.

(** The platform id a language model is asked about: a leading '#' is
    skipped. *)
Definition platform_shifted (platform : string) : string :=
  match platform with
  | String "#" rest => rest
  | _ => platform
  end.

(** [xccdf_policy_model_item_is_applicable_lang_model]. *)
Definition xccdf_policy_model_item_is_applicable_lang_model
  (lang_model : cpe_lang_model) (platforms : list string) : bool :=
  existsb (fun platform => lang_model (platform_shifted platform)) platforms.

(** [xccdf_policy_model_item_is_applicable_dict]. *)
Definition xccdf_policy_model_item_is_applicable_dict (model : xccdf_policy_model)
  (dict : cpe_dict_model) (platforms : list string) : bool :=
  existsb (fun platform => model_cpe_name_check model platform && dict platform) platforms.

(** The body of [xccdf_policy_model_item_is_applicable] once the parent
    is known to be applicable: no platform at all, or a platform matched
    in one of the four places. *)
Definition platforms_applicable (model : xccdf_policy_model) (platforms : list string)
  : bool :=
  match platforms with
  | [] => true
  | _ =>
      let benchmark := model_benchmark model in
      let ret := match benchmark_cpe_lang_model benchmark with
                 | Some lm => xccdf_policy_model_item_is_applicable_lang_model lm platforms
                 | None => false
                 end in
      if ret then true else
      let ret := existsb (fun lm => xccdf_policy_model_item_is_applicable_lang_model lm platforms)
                         (model_cpe_lang_models model) in
      if ret then true else
      let ret := match benchmark_cpe_list benchmark with
                 | Some dict => xccdf_policy_model_item_is_applicable_dict model dict platforms
                 | None => false
                 end in
      if ret then true else
      existsb (fun dict => xccdf_policy_model_item_is_applicable_dict model dict platforms)
              (model_cpe_dicts model)
  end.

(** [xccdf_policy_model_item_is_applicable] for a Rule of the Benchmark:
    the Benchmark, every enclosing Group and the Rule must be applicable. *)
Definition xccdf_policy_model_item_is_applicable (model : xccdf_policy_model)
  (rule : xccdf_rule) : bool :=
  let benchmark := model_benchmark model in
  let groups := default [] (items_ancestors (benchmark_content benchmark) (rule_id rule)) in
  forallb (platforms_applicable model)
          (benchmark_platforms benchmark :: map xccdf_item_get_platforms groups
             ++ [rule_platforms rule]).

End Applicability.

(** ** Rule runner and policy evaluation *)

Module Runner.
Import ResultAlgebra Model Selection Chooser Evaluator Applicability.

(** What the rule runner threads through: the TestResult under
    construction (NULL allowed by [_xccdf_policy_report_rule_result])
    and the log of callback calls. *)
Record run_state := {
  run_result : option xccdf_result;
  run_log : call_log }.

(** [_xccdf_rule_result_new_from_rule]. *)
Definition _xccdf_rule_result_new_from_rule (rule : xccdf_rule)
  (check : option xccdf_check) (eval_result : Z) (message : option string)
  : xccdf_rule_result :=
  {| rule_result_idref := rule_id rule;
     rule_result_result := eval_result;
     rule_result_weight := rule_weight rule;
     rule_result_version := rule_version rule;
     rule_result_severity := rule_severity rule;
     rule_result_role := rule_role rule;
     rule_result_fixes := rule_fixes rule;
     rule_result_idents := rule_idents rule;
     rule_result_check := check;
     rule_result_message := message |}.

(** [xccdf_result_add_rule_result]. *)
Definition xccdf_result_add_rule_result (result : xccdf_result)
  (rule_result : xccdf_rule_result) : xccdf_result :=
  {| result_id := result_id result;
     result_rule_results := result_rule_results result ++ [rule_result] |}.

(** The loop of [xccdf_policy_report_cb]. *)
Fixpoint report_cb_loop (cb_it : list callback) (sysname : option string)
  (args : callback_args) (retval : Z) (log : call_log) : Z * call_log :=
  match cb_it with
  | [] => (retval, log)
  | cb :: rest =>
      let retval := callback_callback cb args in
      let log := log ++ [(sysname, args)] in
      if negb (retval =? 0) then (retval, log)
      else report_cb_loop rest sysname args retval log
  end.

(** [xccdf_policy_report_cb]. *)
Definition xccdf_policy_report_cb (policy : xccdf_policy) (sysname : string)
  (args : callback_args) (log : call_log) : Z * call_log :=
  report_cb_loop (_xccdf_policy_get_callbacks_by_sysname policy (Some sysname))
                 (Some sysname) args 0 log.

(** [_xccdf_policy_report_rule_result]. *)
Definition _xccdf_policy_report_rule_result (policy : xccdf_policy) (st : run_state)
  (rule : xccdf_rule) (check : option xccdf_check) (res : Z) (message : option string)
  : Z * run_state :=
  if res =? -1 then (res, st)
  else
    let rule_result :=
      match run_result st with
      | Some _ => Some (_xccdf_rule_result_new_from_rule rule check res message)
      | None => None
      end in
    let result' :=
      match run_result st, rule_result with
      | Some result, Some rr => Some (xccdf_result_add_rule_result result rr)
      | other, _ => other
      end in
    let '(ret, log) :=
      xccdf_policy_report_cb policy "urn:xccdf:system:callback:output"
                             (OutputArgs rule_result) (run_log st) in
    (ret, {| run_result := result'; run_log := log |}).

(** [_xccdf_policy_get_namesfor_href]: the first non-NULL answer of a
    query function registered for the system. *)
Fixpoint namesfor_href_loop (cb_it : list callback) (href : string)
  : option (list string) :=
  match cb_it with
  | [] => None
  | cb :: rest =>
      match callback_query_fn cb with
      | None => namesfor_href_loop rest href
      | Some query_fn =>
          match query_fn href with
          | Some names => Some names
          | None => namesfor_href_loop rest href
          end
      end
  end.

Definition _xccdf_policy_get_namesfor_href (policy : xccdf_policy)
  (sysname : option string) (href : string) : option (list string) :=
  namesfor_href_loop (_xccdf_policy_get_callbacks_by_sysname policy sysname) href.

(** The loop over the names of a multi-check in
    [_xccdf_policy_rule_evaluate]; [report] is what the function
    returns when the loop is left. *)
Fixpoint multicheck_loop (policy : xccdf_policy) (rule : xccdf_rule)
  (check : xccdf_check) (content : xccdf_check_content_ref) (name_it : list string)
  (report : Z) (st : run_state) : outcome (Z * run_state) :=
  match name_it with
  | [] => Returns (report, st)
  | name :: rest =>
      let cloned_check := xccdf_check_inject_content_ref check content (Some name) in
      '(inner_ret, cloned_check, log) ←
        xccdf_policy_check_evaluate policy cloned_check None (run_log st);
      let st := {| run_result := run_result st; run_log := log |} in
      if inner_ret =? -1 then Returns (inner_ret, st)
      else
        let '(report, st) :=
          _xccdf_policy_report_rule_result policy st rule (Some cloned_check)
                                           inner_ret None in
        if negb (report =? 0) then Returns (report, st)
        else
          match rest with
          | [] => Returns (report, st)
          | _ =>
              let '(report, log) :=
                xccdf_policy_report_cb policy "urn:xccdf:system:callback:start"
                                       (StartArgs rule) (run_log st) in
              let st := {| run_result := run_result st; run_log := log |} in
              if negb (report =? 0) then Returns (report, st)
              else multicheck_loop policy rule check content rest report st
          end
  end.

(** How the loop over the content-refs of the Rule's check is left:
    by a [return] inside the multi-check branch, or at its end with the
    local variables [ret] ([None]: never assigned) and [message]. *)
Inductive rule_loop_exit :=
| LoopReturned (report : Z) (st : run_state)
| LoopDone (ret : option Z) (message : option string) (check : xccdf_check)
           (st : run_state).

(** The loop over the content-refs in [_xccdf_policy_rule_evaluate]. *)
Fixpoint rule_content_ref_loop (policy : xccdf_policy) (rule : xccdf_rule)
  (check : xccdf_check) (bindings : list xccdf_value_binding)
  (content_it : list xccdf_check_content_ref) (ret : option Z)
  (message : option string) (st : run_state) : outcome rule_loop_exit :=
  match content_it with
  | [] => Returns (LoopDone ret message check st)
  | content :: rest =>
      let evaluate (message : option string) :=
        let '(ret, log) :=
          xccdf_policy_evaluate_cb policy (check_system check) (content_ref_name content)
            (content_ref_href content) None bindings (check_imports check) (run_log st) in
        let st := {| run_result := run_result st; run_log := log |} in
        if negb (ret =? XCCDF_RESULT_NOT_CHECKED)
        then Returns (LoopDone (Some ret) message
                               (xccdf_check_inject_content_ref check content None) st)
        else rule_content_ref_loop policy rule check bindings rest (Some ret) message st in
      if bool_decide (content_ref_name content = None) && check_multicheck check then
        match _xccdf_policy_get_namesfor_href policy (check_system check)
                                              (content_ref_href content) with
        | Some [] =>
            let '(report, st) :=
              _xccdf_policy_report_rule_result policy st rule (Some check)
                XCCDF_RESULT_UNKNOWN (Some "No definitions found for @multi-check.") in
            Returns (LoopReturned report st)
        | Some names =>
            '(report, st) ← multicheck_loop policy rule check content names 0 st;
            Returns (LoopReturned report st)
        | None =>
            evaluate (Some "Checking engine does not support multi-check; falling back to multi-check='false'")
        end
      else evaluate None
  end.

(** [_xccdf_policy_rule_evaluate]. *)
Definition _xccdf_policy_rule_evaluate (policy : xccdf_policy) (rule : xccdf_rule)
  (st : run_state) : outcome (Z * run_state) :=
  is_selected ← _xccdf_policy_is_rule_selected policy rule;
  let '(report, log) :=
    xccdf_policy_report_cb policy "urn:xccdf:system:callback:start"
                           (StartArgs rule) (run_log st) in
  let st := {| run_result := run_result st; run_log := log |} in
  if negb (report =? 0) then Returns (report, st)
  else if negb is_selected then
    Returns (_xccdf_policy_report_rule_result policy st rule None
               XCCDF_RESULT_NOT_SELECTED None)
  else if negb (xccdf_policy_model_item_is_applicable (policy_model policy) rule) then
    Returns (_xccdf_policy_report_rule_result policy st rule None
               XCCDF_RESULT_NOT_APPLICABLE None)
  else
    match _xccdf_policy_rule_get_applicable_check policy rule with
    | None =>
        Returns (_xccdf_policy_report_rule_result policy st rule None
                   XCCDF_RESULT_NOT_CHECKED
                   (Some "No candidate or applicable check found."))
    | Some check =>
        if check_complex check then
          '(res, check, log) ← xccdf_policy_check_evaluate policy check None (run_log st);
          Returns (_xccdf_policy_report_rule_result policy
                     {| run_result := run_result st; run_log := log |}
                     rule (Some check) res None)
        else
          bindings ← xccdf_policy_check_get_value_bindings policy (check_exports check) [];
          match bindings with
          | None =>
              Returns (_xccdf_policy_report_rule_result policy st rule (Some check)
                         XCCDF_RESULT_UNKNOWN (Some "Value bindings not found."))
          | Some bindings =>
              exit ← rule_content_ref_loop policy rule check bindings
                       (check_content_refs check) None None st;
              match exit with
              | LoopReturned report st => Returns (report, st)
              | LoopDone None _ _ _ => Undefined
              | LoopDone (Some ret) message check st =>
                  let message :=
                    if ret =? XCCDF_RESULT_NOT_CHECKED
                    then Some "None of the check-content-ref elements was resolvable."
                    else message in
                  Returns (_xccdf_policy_report_rule_result policy st rule (Some check)
                             (_resolve_negate ret (check_negate check)) message)
              end
          end
    end.

(** The loop over the content of a Group in
    [xccdf_policy_item_evaluate]: it is left with -1 when a child
    evaluates to -1, and at the first child that evaluates to 0. *)
Section group_loop.
Variable evaluate : xccdf_item -> run_state -> outcome (Z * run_state).

Fixpoint group_loop (child_it : list xccdf_item) (st : run_state)
  : outcome (Z * run_state) :=
  match child_it with
  | [] => Returns (0, st)
  | child :: rest =>
      '(ret, st) ← evaluate child st;
      if ret =? -1 then Returns (-1, st)
      else if ret =? 0 then Returns (0, st)
      else group_loop rest st
  end.
End group_loop.

(** [xccdf_policy_item_evaluate]. *)
Fixpoint xccdf_policy_item_evaluate (policy : xccdf_policy) (item : xccdf_item)
  (st : run_state) {struct item} : outcome (Z * run_state) :=
  match item with
  | XCCDF_RULE rule => _xccdf_policy_rule_evaluate policy rule st
  | XCCDF_GROUP _ content =>
      group_loop (fun child st => xccdf_policy_item_evaluate policy child st) content st
  | XCCDF_VALUE _ => Returns (0, st)
  end.

End Runner.

(** ** TestResult assembly *)

Module Evaluate.
Import ResultAlgebra Model Selection Chooser Evaluator Applicability Runner.

(** *** [strverscmp]

    The comparison [xccdf_policy_evaluate] applies to the schema version
    is the C library's [strverscmp] (GNU), which is not part of this
    repository.  It is modelled after the glibc implementation: a state
    machine over the two strings read as NUL-terminated byte sequences. *)

Definition bytes_of_string (s : string) : list Z :=
  map (fun a => Z.of_N (N_of_ascii a)) (list_ascii_of_string s).

Definition isdigit (c : Z) : bool := (48 <=? c) && (c <=? 57).

(** [(c == '0') + (isdigit (c) != 0)]. *)
Definition digit_class (c : Z) : Z :=
  (if c =? 48 then 1 else 0) + (if isdigit c then 1 else 0).

Definition S_N : Z := 0.
Definition S_I : Z := 3.
Definition S_F : Z := 6.
Definition S_Z : Z := 9.
Definition CMP : Z := 2.
Definition LEN : Z := 3.

Definition next_state : list Z :=
  [ S_N; S_I; S_Z;
    S_N; S_I; S_I;
    S_N; S_F; S_F;
    S_N; S_F; S_Z ].

Definition result_type : list Z :=
  [ CMP; CMP; CMP; CMP; LEN; CMP; CMP; CMP; CMP;
    CMP; -1; -1; 1; LEN; LEN; 1; LEN; LEN;
    CMP; CMP; CMP; CMP; CMP; CMP; CMP; CMP; CMP;
    CMP; 1; 1; -1; CMP; CMP; -1; CMP; CMP ].

(** The [LEN] case: the longer run of digits wins. *)
Fixpoint strverscmp_len (p1 p2 : list Z) (diff : Z) : Z :=
  match p1 with
  | [] => if isdigit (hd 0 p2) then -1 else diff
  | c :: p1' =>
      if isdigit c then
        if negb (isdigit (hd 0 p2)) then 1 else strverscmp_len p1' (tl p2) diff
      else if isdigit (hd 0 p2) then -1 else diff
  end.

Definition strverscmp_finish (state c1 c2 : Z) (p1 p2 : list Z) : Z :=
  let diff := c1 - c2 in
  let state := nth (Z.to_nat (state * 3 + digit_class c2)) result_type CMP in
  if state =? CMP then diff
  else if state =? LEN then strverscmp_len p1 p2 diff
  else state.

(** The main loop; [state] is the state before the class of the current
    byte of the first string is added. *)
Fixpoint strverscmp_loop (s1 s2 : list Z) (state : Z) : Z :=
  match s1 with
  | [] => if hd 0 s2 =? 0 then 0
          else strverscmp_finish (state + digit_class 0) 0 (hd 0 s2) [] (tl s2)
  | c1 :: p1 =>
      let c2 := hd 0 s2 in
      let state := state + digit_class c1 in
      if c1 - c2 =? 0 then
        if c1 =? 0 then 0
        else strverscmp_loop p1 (tl s2) (nth (Z.to_nat state) next_state S_N)
      else strverscmp_finish state c1 c2 p1 (tl s2)
  end.

Definition strverscmp (s1 s2 : string) : Z :=
  strverscmp_loop (bytes_of_string s1) (bytes_of_string s2) S_N.

(** *** TestResult id *)

(** [strlen]. *)
Definition strlen (s : string) : Z := Z.of_nat (String.length s).

(** [sprintf] of an already formatted string into a buffer of [size]
    bytes: the string and its terminating NUL must fit. *)
Definition sprintf_into (size : Z) (s : string) : outcome string :=
  if strlen s + 1 <=? size then Returns s else Undefined.

(** The id of the TestResult in [xccdf_policy_evaluate]. *)
Definition testresult_id (policy : xccdf_policy) : outcome string :=
  let id := match policy_profile policy with
            | Some profile =>
                match profile_id profile with
                | Some pid => pid
                | None => "default-profile"
                end
            | None => "default-profile"
            end in
  let doc_version := benchmark_schema_version (model_benchmark (policy_model policy)) in
  if strverscmp "1.2" doc_version >=? 0 then
    sprintf_into (32 + strlen id) ("xccdf_org.open-scap_testresult_" ++ id)%string
  else
    sprintf_into (11 + strlen id) ("OSCAP-Test-" ++ id)%string.

(** *** Evaluation of a policy *)

(** The loop of [xccdf_policy_evaluate] over the policy's selects.  The
    boolean tells whether the loop was left by the [return NULL] taken
    when an item evaluates to -1 (the TestResult is then freed). *)
Fixpoint evaluate_selects (policy : xccdf_policy) (sel_it : list xccdf_select)
  (st : run_state) : outcome (bool * run_state) :=
  match sel_it with
  | [] => Returns (false, st)
  | sel :: rest =>
      match xccdf_benchmark_get_item (model_benchmark (policy_model policy))
                                     (select_item sel) with
      | None => evaluate_selects policy rest st
      | Some (XCCDF_GROUP _ _) => evaluate_selects policy rest st
      | Some item =>
          '(ret, st) ← xccdf_policy_item_evaluate policy item st;
          if ret =? -1 then Returns (true, st)
          else if negb (ret =? 0) then Returns (false, st)
          else evaluate_selects policy rest st
      end
  end.

(** [xccdf_policy_add_result]. *)
Definition xccdf_policy_add_result (policy : xccdf_policy) (result : xccdf_result)
  : xccdf_policy :=
  {| policy_model := policy_model policy;
     policy_profile := policy_profile policy;
     policy_selects := policy_selects policy;
     policy_results := policy_results policy ++ [result];
     policy_ht_selects := policy_ht_selects policy |}.

(** [xccdf_policy_evaluate]: the returned TestResult ([None] is NULL),
    the policy afterwards and the log of callback calls. *)
Definition xccdf_policy_evaluate (policy : xccdf_policy)
  : outcome (option xccdf_result * xccdf_policy * call_log) :=
  rid ← testresult_id policy;
  let result := {| result_id := Some rid; result_rule_results := [] |} in
  '(failed, st) ← evaluate_selects policy (policy_selects policy)
                    {| run_result := Some result; run_log := [] |};
  if (failed : bool) then Returns (None, policy, run_log st)
  else
    match run_result st with
    | Some result => Returns (Some result, xccdf_policy_add_result policy result, run_log st)
    | None => Returns (None, policy, run_log st)
    end.

End Evaluate.

(** ** Tailoring *)

Module Tailoring.
Import ResultAlgebra Model Chooser Evaluator.

(** Items live on the heap: a store maps the address of an item to its
    contents.  [struct xccdf_item *] is an address, NULL is [None]. *)
Abbreviation addr := nat.
Abbreviation store := (gmap nat xccdf_item).


(** The loop of [xccdf_policy_get_value_of_item] over the setvalues: it
    stops at the first setvalue for the id. *)
Fixpoint setvalue_first (s_value_it : list xccdf_setvalue) (id : string)
  : option xccdf_setvalue :=
  match s_value_it with
  | [] => None
  | s_value :: rest =>
      if streq (setvalue_item s_value) id then Some s_value else setvalue_first rest id
  end.

(** The loop over the refine-values in [xccdf_policy_get_value_of_item]
    and [xccdf_policy_get_refine_value_oper]: it stops at the first
    refine-value for the id. *)
Fixpoint refine_value_first (r_value_it : list xccdf_refine_value) (id : string)
  : option xccdf_refine_value :=
  match r_value_it with
  | [] => None
  | r_value :: rest =>
      if streq (refine_value_item r_value) id then Some r_value
      else refine_value_first rest id
  end.

(** [xccdf_policy_get_value_of_item].  Reading the value of the NULL
    instance a selector may resolve to is undefined. *)
Definition xccdf_policy_get_value_of_item (policy : xccdf_policy) (item : xccdf_value)
  : outcome (option string) :=
  match policy_profile policy with
  | None => Returns None
  | Some profile =>
      match setvalue_first (profile_setvalues profile) (value_id item) with
      | Some s_value => Returns (Some (setvalue_value s_value))
      | None =>
          match refine_value_first (profile_refine_values profile) (value_id item) with
          | Some r_value =>
              match xccdf_value_get_instance_by_selector item
                      (refine_value_selector r_value) with
              | Some instance => Returns (value_instance_value instance)
              | None => Undefined
              end
          | None => Returns None
          end
      end
  end.












End Tailoring.

(** ** Reference definitions

    What the properties below compare the embedded code with. *)

Module Reference.
Import ResultAlgebra Model Selection Chooser Evaluator Applicability Runner Evaluate.

(** *** Result algebra *)

(** A table with the rows of Error and Unknown exchanged. *)
Definition exchange_error_unknown (t : list (list Z)) : list (list Z) :=
  match t with
  | r0 :: r1 :: r2 :: r3 :: r4 :: rest => r0 :: r1 :: r2 :: r4 :: r3 :: rest
  | _ => t
  end.

(** *** Engine dispatch *)

(** The value the dispatch of one content-ref to the engines of a system
    yields: the first result other than NotChecked, NotChecked when there
    is none. *)
Definition dispatch_value (policy : xccdf_policy) (sysname : option string)
  (args : callback_args) : Z :=
  default XCCDF_RESULT_NOT_CHECKED
    (head (List.filter (fun r => negb (r =? XCCDF_RESULT_NOT_CHECKED))
             (map (fun cb => callback_callback cb args)
                  (_xccdf_policy_get_callbacks_by_sysname policy sysname)))).

(** The calls the dispatch of one content-ref makes: the engines of the
    system in registration order, up to the first one whose result is
    not NotChecked. *)
Fixpoint dispatch_calls_of (cb_it : list callback) (sysname : option string)
  (args : callback_args) : call_log :=
  match cb_it with
  | [] => []
  | cb :: rest =>
      (sysname, args) ::
      (if callback_callback cb args =? XCCDF_RESULT_NOT_CHECKED
       then dispatch_calls_of rest sysname args else [])
  end.

Definition dispatch_calls (policy : xccdf_policy) (sysname : option string)
  (args : callback_args) : call_log :=
  dispatch_calls_of (_xccdf_policy_get_callbacks_by_sysname policy sysname) sysname args.

(** The arguments the engines get for a content-ref of a check. *)
Definition content_ref_args (check : xccdf_check) (rule_id : option string)
  (bindings : list xccdf_value_binding) (content : xccdf_check_content_ref)
  : callback_args :=
  EngineArgs rule_id (content_ref_name content) (content_ref_href content)
             bindings (check_imports check).

Definition content_ref_value (policy : xccdf_policy) (check : xccdf_check)
  (rule_id : option string) (bindings : list xccdf_value_binding)
  (content : xccdf_check_content_ref) : Z :=
  dispatch_value policy (check_system check)
                 (content_ref_args check rule_id bindings content).

Definition content_ref_calls (policy : xccdf_policy) (check : xccdf_check)
  (rule_id : option string) (bindings : list xccdf_value_binding)
  (content : xccdf_check_content_ref) : call_log :=
  dispatch_calls policy (check_system check)
                 (content_ref_args check rule_id bindings content).

(** The calls made for a sequence of content-refs tried one after the
    other. *)
Definition content_refs_calls (policy : xccdf_policy) (check : xccdf_check)
  (rule_id : option string) (bindings : list xccdf_value_binding)
  (refs : list xccdf_check_content_ref) : call_log :=
  concat (map (content_ref_calls policy check rule_id bindings) refs).

(** *** Value of a check, by where negation applies *)

(** The value of a simple check before negation: Unknown when the value
    bindings fail, else the value of the first content-ref that is not
    NotChecked; with none, NotChecked, or 0 when the check has no
    content-ref at all. *)
Definition simple_check_value (policy : xccdf_policy) (check : xccdf_check)
  (rule_id : option string) : outcome Z :=
  bindings ← xccdf_policy_check_get_value_bindings policy (check_exports check) [];
  match bindings with
  | None => Returns XCCDF_RESULT_UNKNOWN
  | Some bindings =>
      match List.filter (fun v => negb (v =? XCCDF_RESULT_NOT_CHECKED))
              (map (content_ref_value policy check rule_id bindings)
                   (check_content_refs check)) with
      | v :: _ => Returns v
      | [] => Returns (match check_content_refs check with
                       | [] => 0
                       | _ => XCCDF_RESULT_NOT_CHECKED
                       end)
      end
  end.

(** The value of a check tree when the negate flag of the check at depth
    [d] below the evaluated root is applied exactly if [applies d]: at
    the root only for [fun d => Nat.eqb d 0], at every check of the tree
    for [fun _ => true].  Children are combined left to right; a child
    evaluating to -1 makes the whole evaluation -1. *)
Section children_value.
Variable value : xccdf_check -> outcome Z.
Variable oper : xccdf_bool_operator_t.

Fixpoint children_value (child_it : list xccdf_check) (ret : Z) : outcome Z :=
  match child_it with
  | [] => Returns ret
  | child :: rest =>
      ret2 ← value child;
      if ret2 =? -1 then Returns (-1)
      else
        ret ← (if ret =? 0 then Returns ret2
               else outcome_of_option (_resolve_operation ret ret2 oper));
        children_value rest ret
  end.
End children_value.

Fixpoint check_value (applies : nat -> bool) (depth : nat) (policy : xccdf_policy)
  (check : xccdf_check) (rule_id : option string) {struct check} : outcome Z :=
  v ← (if check_complex check then
         children_value (fun child => check_value applies (S depth) policy child rule_id)
                        (check_oper check) (check_children check) 0
       else simple_check_value policy check rule_id);
  Returns (if applies depth then _resolve_negate v (check_negate check) else v).

Definition negate_at_root_only (d : nat) : bool := Nat.eqb d 0.
Definition negate_at_every_check (d : nat) : bool := true.

(** The value component of an evaluation. *)
Definition returned_value {A B} (o : outcome (Z * A * B)) : outcome Z :=
  '(v, _, _) ← o; Returns v.

(** *** Reporters *)

(** The start and output reporters share the list of callbacks with the
    engines, under these two system names. *)
Definition start_system : string := "urn:xccdf:system:callback:start".
Definition output_system : string := "urn:xccdf:system:callback:output".

(** The reporters registered under a system name, in registration
    order. *)
Definition reporters (policy : xccdf_policy) (sysname : string) : list callback :=
  List.filter (fun cb => bool_decide (default "" (callback_system cb) = sysname))
              (model_callbacks (policy_model policy)).

(** The value that stops a report: the value of the first reporter that
    does not return 0; none when every reporter returns 0. *)
Definition reporters_stop (cbs : list callback) (args : callback_args) : option Z :=
  head (List.filter (fun ret => negb (ret =? 0))
                    (map (fun cb => callback_callback cb args) cbs)).

(** How many reporters a report calls: all of them up to and with the
    first that does not return 0. *)
Fixpoint reporters_asked (cbs : list callback) (args : callback_args) : nat :=
  match cbs with
  | [] => 0
  | cb :: rest =>
      S (if callback_callback cb args =? 0 then reporters_asked rest args else 0)
  end.

(** The value a report to the reporters of a system returns, and the
    calls it makes. *)
Definition report_value (policy : xccdf_policy) (sysname : string) (args : callback_args)
  : Z :=
  default 0 (reporters_stop (reporters policy sysname) args).

Definition report_calls (policy : xccdf_policy) (sysname : string) (args : callback_args)
  : call_log :=
  replicate (reporters_asked (reporters policy sysname) args) (Some sysname, args).

(** The rule runner gets as far as evaluating [check] for [rule]: the
    Rule is selected and applicable, [check] is the check chosen for it,
    no start reporter stops the evaluation, and there is a TestResult,
    [result], to add to. *)
Definition runs_check (policy : xccdf_policy) (rule : xccdf_rule) (check : xccdf_check)
  (st : run_state) (result : xccdf_result) : Prop :=
  _xccdf_policy_is_rule_selected policy rule = Returns true /\
  xccdf_policy_model_item_is_applicable (policy_model policy) rule = true /\
  _xccdf_policy_rule_get_applicable_check policy rule = Some check /\
  reporters_stop (reporters policy start_system) (StartArgs rule) = None /\
  run_result st = Some result.

(** *** Check chooser *)

(** The Profile's refine-rule for an item id: of the refine-rules of
    the policy's Profile, in Profile order, the first one whose item is
    the id; none when the policy has no Profile or the Profile no
    refine-rule for the id. *)
Definition profile_refine_rule (policy : xccdf_policy) (id : string)
  : option xccdf_refine_rule :=
  profile ← policy_profile policy;
  head (List.filter (fun r_rule => bool_decide (refine_rule_item r_rule = id))
                    (profile_refine_rules profile)).

(** The selector of the Profile's refine-rule for a Rule. *)
Definition refined_selector (policy : xccdf_policy) (rule : xccdf_rule) : option string :=
  profile_refine_rule policy (rule_id rule) ≫= refine_rule_selector.

(** The candidates: the simple checks whose selector equals the refined
    selector; the checks with no selector when a non-null refined
    selector matches no check. *)
Definition under_selector (selector : option string) (check : xccdf_check) : bool :=
  bool_decide (check_selector check = selector).

Definition check_candidates (policy : xccdf_policy) (rule : xccdf_rule)
  : list xccdf_check :=
  let selector := refined_selector policy rule in
  let matching := List.filter (under_selector selector) (rule_checks rule) in
  match selector, matching with
  | Some _, [] => List.filter (under_selector None) (rule_checks rule)
  | _, _ => matching
  end.

(** A check whose system URI has a registered engine. *)
Definition engine_registered (policy : xccdf_policy) (check : xccdf_check) : bool :=
  existsb (fun cb => oscap_strcmp_eq (callback_system cb) (check_system check))
          (model_callbacks (policy_model policy)).

(** *** Selection *)

(** The flag of the first select for an item id in a list of selects. *)
Definition select_lookup (selects : list xccdf_select) (id : string) : option bool :=
  select_selected <$> List.find (fun sel => streq (select_item sel) id) selects.

(** The Profile's select for an item id, when present. *)
Definition profile_select (profile : option xccdf_profile) (id : string) : option bool :=
  match profile with
  | Some p => select_lookup (profile_selects p) id
  | None => None
  end.

(** The Profile's select for the item if present, else the item's
    default selected flag. *)
Definition own_selected (profile : option xccdf_profile) (item : xccdf_item) : bool :=
  match item with
  | XCCDF_RULE r => default (rule_selected r) (profile_select profile (rule_id r))
  | XCCDF_GROUP g _ => default (group_selected g) (profile_select profile (group_id g))
  | XCCDF_VALUE _ => true
  end.

(** The effective selection of an item under its chain of enclosing
    Groups, starting from [parent_selected = true]. *)
Definition effective_selected (profile : option xccdf_profile)
  (groups : list xccdf_item) (item : xccdf_item) : bool :=
  forallb (own_selected profile) groups && own_selected profile item.

(** The ids of all items of a subtree, in pre-order. *)
Fixpoint item_ids (item : xccdf_item) : list string :=
  xccdf_item_get_id item ::
  match item with
  | XCCDF_GROUP _ content => concat (map item_ids content)
  | _ => []
  end.

Definition items_ids (items : list xccdf_item) : list string :=
  concat (map item_ids items).

(** The Rules of a subtree, each with the chain of Groups that enclose
    it inside the subtree, outermost first. *)
Fixpoint item_rule_chains (item : xccdf_item) : list (list xccdf_item * xccdf_rule) :=
  match item with
  | XCCDF_RULE r => [([], r)]
  | XCCDF_GROUP _ content =>
      map (fun chain => (item :: chain.1, chain.2))
          (concat (map item_rule_chains content))
  | XCCDF_VALUE _ => []
  end.

Definition items_rule_chains (items : list xccdf_item)
  : list (list xccdf_item * xccdf_rule) :=
  concat (map item_rule_chains items).

(** What resolving a subtree with the given ids and Rule chains does to
    the selects of a policy, from [policy] to [policy']: no hash table
    appears, the first select of every id outside the subtree is as
    before, and, when the ids of the subtree are distinct and their
    first selects are still those of the Profile, the first select of
    each Rule of the subtree is its effective selection under
    [selected]. *)
Definition resolve_invariant (profile : option xccdf_profile)
  (policy policy' : xccdf_policy) (selected : bool) (ids : list string)
  (chains : list (list xccdf_item * xccdf_rule)) : Prop :=
  policy_ht_selects policy' = None /\
  (forall id, id ∉ ids ->
     select_lookup (policy_selects policy') id = select_lookup (policy_selects policy) id) /\
  (NoDup ids ->
   (forall id, id ∈ ids ->
      select_lookup (policy_selects policy) id = profile_select profile id) ->
   forall path r, (path, r) ∈ chains ->
     select_lookup (policy_selects policy') (rule_id r)
       = Some (selected && effective_selected profile path (XCCDF_RULE r))).

(** *** TestResult id *)

(** The profile id, or "default-profile" when the Policy has none. *)
Definition profile_or_default (policy : xccdf_policy) : string :=
  match policy_profile policy with
  | Some profile => default "default-profile" (profile_id profile)
  | None => "default-profile"
  end.

(** *** Tailoring *)









(** *** Order of the rule results *)

(** The Rules of a subtree, in pre-order. *)
Fixpoint item_rules (item : xccdf_item) : list xccdf_rule :=
  match item with
  | XCCDF_RULE r => [r]
  | XCCDF_GROUP _ content => concat (map item_rules content)
  | XCCDF_VALUE _ => []
  end.

(** The ids of the Rules of the Benchmark in Benchmark pre-order. *)
Definition benchmark_rule_ids (benchmark : xccdf_benchmark) : list string :=
  map rule_id (concat (map item_rules (benchmark_content benchmark))).

(** The Rule ids of the rule results of a TestResult, in order. *)
Definition result_rule_ids (result : xccdf_result) : list string :=
  map rule_result_idref (result_rule_results result).

End Reference.

(** ** Concrete inputs *)

Module Examples.
Import ResultAlgebra Model Selection Chooser Evaluator Applicability Runner Evaluate
       Tailoring Reference.

Definition simple_check (system : string) (negate : bool)
  (refs : list xccdf_check_content_ref) (exports : list xccdf_check_export)
  : xccdf_check :=
  Check false XCCDF_OPERATOR_AND negate false (Some system) None refs exports [] [].

Definition complex_check (oper : xccdf_bool_operator_t) (negate : bool)
  (children : list xccdf_check) : xccdf_check :=
  Check true oper negate false None None [] [] [] children.

Definition ref_A : xccdf_check_content_ref :=
  {| content_ref_href := "a.xml"; content_ref_name := Some "def-a" |}.
Definition ref_B : xccdf_check_content_ref :=
  {| content_ref_href := "b.xml"; content_ref_name := Some "def-b" |}.

Definition rule_with (id : string) (selected : bool) (checks : list xccdf_check)
  : xccdf_rule :=
  {| rule_id := id; rule_selected := selected; rule_weight := 1;
     rule_version := None; rule_severity := 0; rule_role := 0;
     rule_platforms := []; rule_fixes := []; rule_idents := [];
     rule_checks := checks; rule_complex_checks := [] |}.

Definition group_with (id : string) (selected : bool) : xccdf_group :=
  {| group_id := id; group_selected := selected; group_weight := 1;
     group_platforms := [] |}.

Definition benchmark_of (version : string) (content : list xccdf_item)
  : xccdf_benchmark :=
  {| benchmark_content := content; benchmark_schema_version := version;
     benchmark_platforms := []; benchmark_cpe_list := None;
     benchmark_cpe_lang_model := None; benchmark_profiles := [] |}.

(** An engine answering by the href of the content-ref: NotChecked for
    "a.xml", Fail for "b.xml", Pass otherwise. *)
Definition engine_by_href (args : callback_args) : Z :=
  match args with
  | EngineArgs _ _ href _ _ =>
      if streq href "a.xml" then XCCDF_RESULT_NOT_CHECKED
      else if streq href "b.xml" then XCCDF_RESULT_FAIL
      else XCCDF_RESULT_PASS
  | _ => 0
  end.

Definition engine_pass (args : callback_args) : Z :=
  match args with
  | EngineArgs _ _ _ _ _ => XCCDF_RESULT_PASS
  | _ => 0
  end.

Definition model_of (benchmark : xccdf_benchmark) (engine : callback_args -> Z)
  : xccdf_policy_model :=
  {| model_benchmark := benchmark;
     model_callbacks := [ {| callback_system := Some "s1";
                             callback_callback := engine;
                             callback_query_fn := None |} ];
     model_cpe_dicts := []; model_cpe_lang_models := [];
     model_cpe_name_check := fun _ => true |}.

Definition profile_of (id : string) (selects : list xccdf_select) : xccdf_profile :=
  {| profile_id := Some id; profile_selects := selects; profile_setvalues := [];
     profile_refine_rules := []; profile_refine_values := [] |}.

(** Two Rules r1, r2 in this order, each with one check of system s1. *)
Definition two_rules : list xccdf_item :=
  [ XCCDF_RULE (rule_with "r1" true [simple_check "s1" false [ref_B] []]);
    XCCDF_RULE (rule_with "r2" true [simple_check "s1" false [ref_B] []]) ].

(** A Profile selecting r2 before r1. *)
Definition profile_r2_r1 : xccdf_profile :=
  profile_of "p" [ {| select_item := "r2"; select_selected := true |};
                   {| select_item := "r1"; select_selected := true |} ].

Definition policy_r2_r1 : xccdf_policy :=
  xccdf_policy_new (model_of (benchmark_of "1.2" two_rules) engine_pass)
                   (Some profile_r2_r1).

(** A policy over an empty Benchmark of a given schema version. *)
Definition policy_of_version (version : string) (profile : option xccdf_profile)
  : xccdf_policy :=
  xccdf_policy_new (model_of (benchmark_of version []) engine_pass) profile.

(** A policy with the engine [engine_by_href] and no Profile. *)
Definition policy_by_href : xccdf_policy :=
  xccdf_policy_new (model_of (benchmark_of "1.2" []) engine_by_href) None.

(** A complex check And (c) whose only child has its negate flag set. *)
Definition and_of_negated_child : xccdf_check :=
  complex_check XCCDF_OPERATOR_AND false
    [ simple_check "s1" true
        [ {| content_ref_href := "c.xml"; content_ref_name := None |} ] [] ].

(** Simple checks of system s1: three content-refs A, B, A; no
    content-ref at all; one content-ref and an export of a Value the
    Benchmark does not have. *)
Definition check_A_B_A : xccdf_check := simple_check "s1" true [ref_A; ref_B; ref_A] [].
Definition check_only_A : xccdf_check := simple_check "s1" true [ref_A; ref_A] [].
Definition check_no_refs : xccdf_check := simple_check "s1" false [] [].
Definition check_missing_value : xccdf_check :=
  simple_check "s1" false [ref_B]
    [ {| check_export_value := "v-missing"; check_export_name := "var" |} ].

(** A Rule with four simple checks: one without selector, then three
    under the selector "strict", the second of which is for a system
    without engine; and a Profile refining the Rule to "strict", or to a
    selector no check has. *)
Definition selected_check (selector : option string) (system href : string)
  : xccdf_check :=
  Check false XCCDF_OPERATOR_AND false false (Some system) selector
        [ {| content_ref_href := href; content_ref_name := None |} ] [] [] [].

Definition rule_four_checks : xccdf_rule :=
  rule_with "r1" true
    [ selected_check None "s1" "plain.xml";
      selected_check (Some "strict") "s1" "strict-1.xml";
      selected_check (Some "strict") "s2" "strict-2.xml";
      selected_check (Some "strict") "s1" "strict-3.xml" ].

Definition rule_with_complex_check : xccdf_rule :=
  {| rule_id := "r1"; rule_selected := true; rule_weight := 1;
     rule_version := None; rule_severity := 0; rule_role := 0;
     rule_platforms := []; rule_fixes := []; rule_idents := [];
     rule_checks := [ selected_check None "s1" "plain.xml" ];
     rule_complex_checks :=
       [ complex_check XCCDF_OPERATOR_OR false [ selected_check None "s1" "x.xml" ];
         complex_check XCCDF_OPERATOR_AND false [] ] |}.

Definition refine_selector (rule selector : string) : xccdf_refine_rule :=
  {| refine_rule_item := rule; refine_rule_selector := Some selector;
     refine_rule_weight := 0; refine_rule_weight_defined := false;
     refine_rule_role := 0; refine_rule_severity := 0 |}.

(** The Profile has a refine-rule for another item first, then two for
    r1: the one with the given selector, and a later one. *)
Definition policy_refining (selector : string) : xccdf_policy :=
  xccdf_policy_new (model_of (benchmark_of "1.2" [XCCDF_RULE rule_four_checks]) engine_pass)
    (Some {| profile_id := Some "p"; profile_selects := []; profile_setvalues := [];
             profile_refine_rules := [ refine_selector "r0" "other";
                                       refine_selector "r1" selector;
                                       refine_selector "r1" "later" ];
             profile_refine_values := [] |}).

(** The same Rule when every check is for a system without engine. *)
Definition rule_unregistered_checks : xccdf_rule :=
  rule_with "r1" true
    [ selected_check None "s2" "plain.xml";
      selected_check (Some "strict") "s3" "strict-1.xml" ].

(** A store with a Rule at address 0 and a Value at address 1, and a
    Profile with a refine-value for the Value that selects its "high"
    instance and carries the operator 5. *)
Definition value_v1 : xccdf_value :=
  {| value_id := "v1"; value_type := 1; value_oper := 0;
     value_instances :=
       [ {| value_instance_selector := None; value_instance_value := Some "low";
            value_instance_defval := None |};
         {| value_instance_selector := Some "high"; value_instance_value := Some "max";
            value_instance_defval := None |} ] |}.




(** A Group g1, selected by default, that holds the Rule r2, selected
    by default, next to a Rule r1; and a Profile that deselects g1 and
    selects r2. *)
Definition rule_r2 : xccdf_rule := rule_with "r2" true [simple_check "s1" false [ref_B] []].
Definition group_g1 : xccdf_item := XCCDF_GROUP (group_with "g1" true) [XCCDF_RULE rule_r2].

Definition model_group_rule : xccdf_policy_model :=
  model_of (benchmark_of "1.2" [XCCDF_RULE (rule_with "r1" true []); group_g1]) engine_pass.

Definition profile_deselects_g1 : xccdf_profile :=
  profile_of "p1" [ {| select_item := "r2"; select_selected := true |};
                    {| select_item := "g1"; select_selected := false |} ].

(** An engine that answers -2, and a complex check And of two simple
    checks of its system. *)
Definition engine_minus_two (args : callback_args) : Z :=
  match args with
  | EngineArgs _ _ _ _ _ => -2
  | _ => 0
  end.

Definition policy_minus_two : xccdf_policy :=
  xccdf_policy_new (model_of (benchmark_of "1.2" []) engine_minus_two) None.

Definition and_of_two : xccdf_check :=
  complex_check XCCDF_OPERATOR_AND false
    [ simple_check "s1" false [ref_A] []; simple_check "s1" false [ref_B] [] ].

(** A policy over a Benchmark whose only Rule has a simple check
    without content-ref. *)
Definition rule_no_refs : xccdf_rule := rule_with "r1" true [check_no_refs].

Definition policy_rule_no_refs : xccdf_policy :=
  xccdf_policy_new (model_of (benchmark_of "1.2" [XCCDF_RULE rule_no_refs]) engine_pass)
                   None.

Definition empty_run_state : Runner.run_state :=
  {| Runner.run_result := None; Runner.run_log := [] |}.

End Examples.

(** ** Engine registry *)

Module Registry.
Import ResultAlgebra Model Chooser Evaluator.

(** [oscap_list_add (model->callbacks, cb)]: the callback goes to the
    end of the list. *)
Definition add_callback (model : xccdf_policy_model) (cb : callback)
  : xccdf_policy_model :=
  {| model_benchmark := model_benchmark model;
     model_callbacks := model_callbacks model ++ [cb];
     model_cpe_dicts := model_cpe_dicts model;
     model_cpe_lang_models := model_cpe_lang_models model;
     model_cpe_name_check := model_cpe_name_check model |}.

(** [xccdf_policy_model_register_engine_and_query_callback]; the user
    data [usr] is part of the function in this embedding. *)
Definition xccdf_policy_model_register_engine_and_query_callback
  (model : xccdf_policy_model) (sys : option string) (func : callback_args -> Z)
  (query_fn : option (string -> option (list string))) : xccdf_policy_model :=
  add_callback model {| callback_system := sys; callback_callback := func;
                        callback_query_fn := query_fn |}.

(** [xccdf_policy_model_register_engine_callback]. *)
Definition xccdf_policy_model_register_engine_callback (model : xccdf_policy_model)
  (sys : option string) (func : callback_args -> Z) : xccdf_policy_model :=
  xccdf_policy_model_register_engine_and_query_callback model sys func None.

(** [xccdf_policy_model_register_start_callback]. *)
Definition xccdf_policy_model_register_start_callback (model : xccdf_policy_model)
  (func : callback_args -> Z) : xccdf_policy_model :=
  add_callback model {| callback_system := Some "urn:xccdf:system:callback:start";
                        callback_callback := func; callback_query_fn := None |}.

(** [xccdf_policy_model_register_output_callback]. *)
Definition xccdf_policy_model_register_output_callback (model : xccdf_policy_model)
  (func : callback_args -> Z) : xccdf_policy_model :=
  add_callback model {| callback_system := Some "urn:xccdf:system:callback:output";
                        callback_callback := func; callback_query_fn := None |}.

(** A policy holds a pointer to its model: after the model has changed,
    the policy is the same policy over the model as it is now. *)
Definition policy_over (policy : xccdf_policy) (model : xccdf_policy_model)
  : xccdf_policy :=
  {| policy_model := model;
     policy_profile := policy_profile policy;
     policy_selects := policy_selects policy;
     policy_results := policy_results policy;
     policy_ht_selects := policy_ht_selects policy |}.

End Registry.

(** ** Policies of a model *)

Module Policies.
Import ResultAlgebra Model Selection Evaluator.

(** [xccdf_policy_get_id]. *)
Definition xccdf_policy_get_id (policy : xccdf_policy) : option string :=
  match policy_profile policy with
  | Some profile => profile_id profile
  | None => None
  end.

(** The loop of [xccdf_policy_model_get_policy_by_id] for a NULL id: the
    first policy whose id is NULL. *)
Fixpoint policy_scan_null (policy_it : list xccdf_policy) : option xccdf_policy :=
  match policy_it with
  | [] => None
  | policy :: rest =>
      match xccdf_policy_get_id policy with
      | None => Some policy
      | Some _ => policy_scan_null rest
      end
  end.

(** The loop for an id: policies without id are passed over, the first
    policy with the id is returned. *)
Fixpoint policy_scan_id (policy_it : list xccdf_policy) (id : string)
  : option xccdf_policy :=
  match policy_it with
  | [] => None
  | policy :: rest =>
      match xccdf_policy_get_id policy with
      | None => policy_scan_id rest id
      | Some pid => if streq pid id then Some policy else policy_scan_id rest id
      end
  end.

(** [xccdf_policy_model_get_policy_by_id], on the model's list of
    policies. *)
Definition xccdf_policy_model_get_policy_by_id (policies : list xccdf_policy)
  (id : option string) : option xccdf_policy :=
  match id with
  | None => policy_scan_null policies
  | Some id => policy_scan_id policies id
  end.

(** The profile [xccdf_policy_model_new] makes for the policy without
    profile: its id is NULL. *)
Definition default_profile : xccdf_profile :=
  {| profile_id := None; profile_selects := []; profile_setvalues := [];
     profile_refine_rules := []; profile_refine_values := [] |}.

(** [xccdf_policy_model_new]: the model over the Benchmark and its list
    of policies, the policy without profile first, then one policy per
    Profile in Benchmark order.  The Benchmark is taken as
    [xccdf_benchmark_resolve] (defined outside this file) left it. *)
Definition xccdf_policy_model_new (benchmark : xccdf_benchmark)
  (cpe_name_check : string -> bool) : xccdf_policy_model * list xccdf_policy :=
  let model := {| model_benchmark := benchmark; model_callbacks := [];
                  model_cpe_dicts := []; model_cpe_lang_models := [];
                  model_cpe_name_check := cpe_name_check |} in
  (model,
   xccdf_policy_new model (Some default_profile)
   :: map (fun profile => xccdf_policy_new model (Some profile))
          (benchmark_profiles benchmark)).

(** [xccdf_policy_filter_selected]. *)
Definition xccdf_policy_filter_selected (policy : xccdf_policy) (sel : xccdf_select)
  : bool :=
  match xccdf_benchmark_get_item (model_benchmark (policy_model policy))
                                 (select_item sel) with
  | None => false
  | Some (XCCDF_RULE _) => select_selected sel
  | Some _ => false
  end.

(** [xccdf_policy_get_selected_rules]: the filtered iterator, as the
    list it yields. *)
Definition xccdf_policy_get_selected_rules (policy : xccdf_policy) : list xccdf_select :=
  List.filter (xccdf_policy_filter_selected policy) (policy_selects policy).

(** [xccdf_policy_get_result_by_id], on the policy's list of results:
    the first TestResult with the id.  [strcmp] on the NULL id of a
    TestResult is outside what is defined. *)
Fixpoint xccdf_policy_get_result_by_id (result_it : list xccdf_result) (id : string)
  : outcome (option xccdf_result) :=
  match result_it with
  | [] => Returns None
  | result :: rest =>
      match result_id result with
      | None => Undefined
      | Some rid =>
          if streq rid id then Returns (Some result)
          else xccdf_policy_get_result_by_id rest id
      end
  end.

End Policies.

(** ** Files a Benchmark refers to *)

Module Files.
Import ResultAlgebra Model.

(** [xccdf_cmp_func]. *)
Definition xccdf_cmp_func (s1 s2 : string) : bool := oscap_strcmp_eq (Some s1) (Some s2).

Section add_new.
Context {A : Type}.
Variable cmp : A -> A -> bool.

(** [oscap_list_contains (list, what, cmp)]. *)
Definition oscap_list_contains (l : list A) (what : A) : bool :=
  existsb (fun item => cmp item what) l.

(** One turn of the loops that copy a list into the result: the entry
    is added at the end unless the result contains it. *)
Definition add_new (l : list A) (what : A) : list A :=
  if negb (oscap_list_contains l what) then l ++ [what] else l.

(** A whole list copied this way. *)
Definition add_all_new (l : list A) (sub : list A) : list A :=
  fold_left add_new sub l.
End add_new.

(** [xccdf_check_get_files]. *)
Fixpoint xccdf_check_get_files (check : xccdf_check) : list string :=
  if check_complex check then
    fold_left (fun names child =>
                 add_all_new xccdf_cmp_func names (xccdf_check_get_files child))
              (check_children check) []
  else
    fold_left (fun names content => add_new xccdf_cmp_func names (content_ref_href content))
              (check_content_refs check) [].

(** Modelled from the spec: [xccdf_rule_get_checks] (defined outside
    this file) enumerates the Rule's ordered checks. *)
Definition xccdf_rule_get_checks (rule : xccdf_rule) : list xccdf_check := rule_checks rule.

(** The loop of [xccdf_item_get_files] over the checks of a Rule, and
    over the lists of files of the children of a Group or Benchmark. *)
Definition rule_get_files (rule : xccdf_rule) : list string :=
  fold_left (fun names check => add_all_new xccdf_cmp_func names (xccdf_check_get_files check))
            (xccdf_rule_get_checks rule) [].

Section children_files.
Variable files_of : xccdf_item -> outcome (option (list string)).

(** A child for which the function returns NULL makes the loop iterate
    over a NULL list, which is outside what is defined. *)
Fixpoint children_get_files (child_it : list xccdf_item) (names : list string)
  : outcome (list string) :=
  match child_it with
  | [] => Returns names
  | child :: rest =>
      sub_names ← files_of child;
      match sub_names with
      | None => Undefined
      | Some sub_names =>
          children_get_files rest (add_all_new xccdf_cmp_func names sub_names)
      end
  end.
End children_files.

(** [xccdf_item_get_files]; [Returns None] is the NULL returned for an
    item that is neither Rule nor Group. *)
Fixpoint xccdf_item_get_files (item : xccdf_item) : outcome (option (list string)) :=
  match item with
  | XCCDF_RULE rule => Returns (Some (rule_get_files rule))
  | XCCDF_GROUP _ content =>
      names ← children_get_files xccdf_item_get_files content [];
      Returns (Some names)
  | XCCDF_VALUE _ => Returns None
  end.

(** [xccdf_policy_model_get_files]: [xccdf_item_get_files] on the
    Benchmark, whose content is iterated like that of a Group. *)
Definition xccdf_policy_model_get_files (model : xccdf_policy_model)
  : outcome (option (list string)) :=
  names ← children_get_files xccdf_item_get_files
             (benchmark_content (model_benchmark model)) [];
  Returns (Some names).

End Files.

(** ** Further reference definitions *)

Module Derived.
Import ResultAlgebra Model Selection Chooser Evaluator Applicability Runner Evaluate
       Reference Registry Policies Files.

(** The selects of an optional Profile. *)
Definition profile_selects_of (profile : option xccdf_profile) : list xccdf_select :=
  match profile with
  | Some p => profile_selects p
  | None => []
  end.

(** The Rules of a list of items, in pre-order. *)
Definition items_rules (items : list xccdf_item) : list xccdf_rule :=
  concat (map item_rules items).

(** Whether an id is among the given ids. *)
Definition mentions (ids : list string) (id : string) : bool := bool_decide (id ∈ ids).

(** A Profile that deselects the Rule r1. *)
Definition profile_deselects_r1 : xccdf_profile :=
  Examples.profile_of "p2" [ {| select_item := "r1"; select_selected := false |} ].

(** The setvalues of a Profile for an id, and its refine-values for an
    id, in Profile order. *)
Definition setvalues_for (profile : xccdf_profile) (id : string) : list xccdf_setvalue :=
  List.filter (fun s_value => streq (setvalue_item s_value) id) (profile_setvalues profile).

Definition refine_values_for (profile : xccdf_profile) (id : string)
  : list xccdf_refine_value :=
  List.filter (fun r_value => streq (refine_value_item r_value) id)
              (profile_refine_values profile).

(** What the binding of one check-export holds: the exported name, the
    type of the Value the export names, the value of the instance under
    the selector of the last refine-value for the Value (the instance
    without selector when there is none), the value of the last
    setvalue for it, and the operator of that refine-value (of the
    Value when there is none). *)
Definition binding_of_export (policy : xccdf_policy) (profile : xccdf_profile)
  (export : xccdf_check_export) (binding : xccdf_value_binding) : Prop :=
  exists value instance,
    xccdf_benchmark_get_item (model_benchmark (policy_model policy))
                             (check_export_value export) = Some (XCCDF_VALUE value) /\
    xccdf_value_get_instance_by_selector value
      (last (refine_values_for profile (value_id value)) ≫= refine_value_selector)
      = Some instance /\
    binding_name binding = check_export_name export /\
    binding_type binding = value_type value /\
    binding_value binding = value_instance_value instance /\
    binding_setvalue binding
      = setvalue_value <$> last (setvalues_for profile (value_id value)) /\
    binding_operator binding
      = from_option refine_value_oper (value_oper value)
                    (last (refine_values_for profile (value_id value))).

(** A Profile with two setvalues for the Value v1, and a policy for it
    over a Benchmark that holds v1. *)
Definition profile_two_setvalues : xccdf_profile :=
  {| profile_id := Some "p"; profile_selects := [];
     profile_setvalues := [ {| setvalue_item := "v1"; setvalue_value := "first" |};
                            {| setvalue_item := "v1"; setvalue_value := "second" |} ];
     profile_refine_rules := []; profile_refine_values := [] |}.

Definition policy_two_setvalues : xccdf_policy :=
  xccdf_policy_new
    (Examples.model_of (Examples.benchmark_of "1.2" [XCCDF_VALUE Examples.value_v1])
                       Examples.engine_pass)
    (Some profile_two_setvalues).

(** The arguments [xccdf_policy_evaluate_cb] hands to an engine. *)
Definition engine_args (content : option string) (href : string) (rule_id : option string)
  (bindings : list xccdf_value_binding) (check_import_it : list xccdf_check_import)
  : callback_args :=
  EngineArgs rule_id content href bindings check_import_it.

(** A model with two engines for the system s1: the first answers by
    href (NotChecked for "a.xml"), the second always Pass. *)
Definition model_two_engines : xccdf_policy_model :=
  xccdf_policy_model_register_engine_callback
    (Examples.model_of (Examples.benchmark_of "1.2" []) Examples.engine_by_href)
    (Some "s1") Examples.engine_pass.

Definition policy_two_engines : xccdf_policy := xccdf_policy_new model_two_engines None.

(** A check with its negate flag cleared. *)
Definition check_without_negate (check : xccdf_check) : xccdf_check :=
  Check (check_complex check) (check_oper check) false
        (check_multicheck check) (check_system check) (check_selector check)
        (check_content_refs check) (check_exports check) (check_imports check)
        (check_children check).

(** The value that decides a complex check whatever its other children
    evaluate to: Fail under And, Pass under Or. *)
Definition absorbing_value (oper : xccdf_bool_operator_t) (v : Z) : Prop :=
  (oper = XCCDF_OPERATOR_AND /\ v = XCCDF_RESULT_FAIL) \/
  (oper = XCCDF_OPERATOR_OR /\ v = XCCDF_RESULT_PASS).

(** The value a check evaluates to, whatever calls were made before. *)
Definition evaluates_to (policy : xccdf_policy) (rule_id : option string)
  (check : xccdf_check) (v : Z) : Prop :=
  forall log,
    returned_value (xccdf_policy_check_evaluate policy check rule_id log) = Returns v.

(** Simple checks of system s1 with one content-ref: "c.xml", "b.xml"
    and "a.xml". *)
Definition check_C : xccdf_check :=
  Examples.simple_check "s1" false
    [ {| content_ref_href := "c.xml"; content_ref_name := None |} ] [].
Definition check_B : xccdf_check := Examples.simple_check "s1" false [Examples.ref_B] [].
Definition check_A : xccdf_check := Examples.simple_check "s1" false [Examples.ref_A] [].

(** And (c, b, c): under [Examples.engine_by_href] the children are
    Pass, Fail, Pass. *)
Definition and_pass_fail_pass : xccdf_check :=
  Examples.complex_check XCCDF_OPERATOR_AND false [check_C; check_B; check_C].

(** An engine that fails to evaluate "a.xml" (-1) and answers Pass
    otherwise, and a policy with it. *)
Definition engine_abort_on_a (args : callback_args) : Z :=
  match args with
  | EngineArgs _ _ href _ _ => if streq href "a.xml" then -1 else XCCDF_RESULT_PASS
  | _ => 0
  end.

Definition policy_abort_on_a : xccdf_policy :=
  xccdf_policy_new (Examples.model_of (Examples.benchmark_of "1.2" []) engine_abort_on_a)
                   None.

(** Or (b, a, b), negated. *)
Definition or_b_a_b : xccdf_check :=
  Examples.complex_check XCCDF_OPERATOR_OR true [check_B; check_A; check_B].

(** The TestResult under construction [after] some steps holds what it
    held [before], followed by rule-results whose Rule id satisfies
    [P]; its id is the same.  A NULL TestResult stays NULL. *)
Definition results_extended (P : string -> Prop) (before after : option xccdf_result)
  : Prop :=
  match before, after with
  | Some r, Some r' =>
      result_id r' = result_id r /\
      exists new,
        result_rule_results r' = result_rule_results r ++ new /\
        Forall (fun rr => P (rule_result_idref rr)) new
  | None, None => True
  | _, _ => False
  end.

(** An id that has a select in the policy and names a Rule of the
    Benchmark. *)
Definition selected_rule_id (policy : xccdf_policy) (id : string) : Prop :=
  id ∈ map select_item (policy_selects policy) /\
  exists rule,
    xccdf_benchmark_get_item (model_benchmark (policy_model policy)) id
      = Some (XCCDF_RULE rule) /\
    rule_id rule = id.

(** A policy over a Benchmark of schema version 1.3 with one Rule. *)
Definition policy_version_1_3 : xccdf_policy :=
  xccdf_policy_new
    (Examples.model_of
       (Examples.benchmark_of "1.3" [XCCDF_RULE (Examples.rule_with "r1" true [])])
       Examples.engine_pass)
    None.

(** The hrefs of the content-refs of the simple checks of a check tree,
    left to right, and those of the checks of the Rules of an item. *)
Fixpoint check_hrefs (check : xccdf_check) : list string :=
  if check_complex check then concat (map check_hrefs (check_children check))
  else map content_ref_href (check_content_refs check).

Fixpoint item_hrefs (item : xccdf_item) : list string :=
  match item with
  | XCCDF_RULE rule => concat (map check_hrefs (xccdf_rule_get_checks rule))
  | XCCDF_GROUP _ content => concat (map item_hrefs content)
  | XCCDF_VALUE _ => []
  end.

(** An item that is no Value and holds none. *)
Fixpoint item_without_value (item : xccdf_item) : bool :=
  match item with
  | XCCDF_RULE _ => true
  | XCCDF_GROUP _ content => forallb item_without_value content
  | XCCDF_VALUE _ => false
  end.

(** The result recorded for a Rule that is not evaluated: NotSelected,
    else NotApplicable, else (no applicable check) NotChecked. *)
Definition skipped_kind (selected applicable : bool) : Z :=
  if negb selected then XCCDF_RESULT_NOT_SELECTED
  else if negb applicable then XCCDF_RESULT_NOT_APPLICABLE
  else XCCDF_RESULT_NOT_CHECKED.

(** The message recorded with it. *)
Definition skipped_message (selected applicable : bool) : option string :=
  if negb selected then None
  else if negb applicable then None
  else Some "No candidate or applicable check found.".

(** [model'] is [model] after one registration of a callback under the
    system name [sys], by any of the four registration functions. *)
Definition registered_for (model model' : xccdf_policy_model) (sys : option string)
  : Prop :=
  (exists func query_fn,
     model' = xccdf_policy_model_register_engine_and_query_callback model sys func query_fn) \/
  (exists func, model' = xccdf_policy_model_register_engine_callback model sys func) \/
  (exists func,
     sys = Some "urn:xccdf:system:callback:start" /\
     model' = xccdf_policy_model_register_start_callback model func) \/
  (exists func,
     sys = Some "urn:xccdf:system:callback:output" /\
     model' = xccdf_policy_model_register_output_callback model func).

(** A Rule whose only check has the content-refs A, B, A, a policy for
    it with the engine [Examples.engine_by_href], and a state of the
    rule runner with an empty TestResult. *)
Definition rule_A_B_A : xccdf_rule := Examples.rule_with "r1" true [Examples.check_A_B_A].

Definition policy_A_B_A : xccdf_policy :=
  xccdf_policy_new
    (Examples.model_of (Examples.benchmark_of "1.2" [XCCDF_RULE rule_A_B_A])
                       Examples.engine_by_href)
    (Some (Examples.profile_of "p" [])).

Definition empty_result : xccdf_result :=
  {| result_id := Some "t"; result_rule_results := [] |}.

Definition start_state : run_state := {| run_result := Some empty_result; run_log := [] |}.

(** A multi-check with the unnamed content-refs "a.xml" and "b.xml", a
    Rule with it, and a policy whose engine for s1 answers by href and
    names the one definition "d1" for every href. *)
Definition check_multi : xccdf_check :=
  Check false XCCDF_OPERATOR_AND false true (Some "s1") None
        [ {| content_ref_href := "a.xml"; content_ref_name := None |};
          {| content_ref_href := "b.xml"; content_ref_name := None |} ] [] [] [].

Definition rule_multi : xccdf_rule := Examples.rule_with "r1" true [check_multi].

Definition policy_multi : xccdf_policy :=
  xccdf_policy_new
    {| model_benchmark := Examples.benchmark_of "1.2" [XCCDF_RULE rule_multi];
       model_callbacks := [ {| callback_system := Some "s1";
                               callback_callback := Examples.engine_by_href;
                               callback_query_fn := Some (fun _ => Some ["d1"]) |} ];
       model_cpe_dicts := []; model_cpe_lang_models := [];
       model_cpe_name_check := fun _ => true |}
    (Some (Examples.profile_of "p" [])).

End Derived.

(** * Properties *)

Module ResultAlgebraFacts.
Import ResultAlgebra Reference.

Lemma resolve_negate_minus_one (negate : bool) : _resolve_negate (-1) negate = -1.
Proof. by destruct negate. Qed.

Lemma resolve_negate_unknown (negate : bool) :
  _resolve_negate XCCDF_RESULT_UNKNOWN negate = XCCDF_RESULT_UNKNOWN.
Proof. by destruct negate. Qed.

Lemma resolve_negate_not_checked (negate : bool) :
  _resolve_negate XCCDF_RESULT_NOT_CHECKED negate = XCCDF_RESULT_NOT_CHECKED.
Proof. by destruct negate. Qed.

(** Negating twice gives the value back. *)
Lemma resolve_negate_involutive (v : Z) (negate : bool) :
  _resolve_negate (_resolve_negate v negate) negate = v.
Proof.
  destruct negate; [|done]. unfold _resolve_negate.
  destruct (v =? XCCDF_RESULT_PASS) eqn:Hp; [apply Z.eqb_eq in Hp; by subst|].
  destruct (v =? XCCDF_RESULT_FAIL) eqn:Hf; [apply Z.eqb_eq in Hf; by subst|].
  by rewrite Hp, Hf.
Qed.

Ltac kind_cases H :=
  let x := match type of H with _ <= ?x <= _ => x end in
  assert (x = 1 \/ x = 2 \/ x = 3 \/ x = 4 \/ x = 5 \/ x = 6 \/ x = 7 \/ x = 8) as Hk
    by (clear - H; lia);
  clear H; destruct Hk as [->|[->|[->|[->|[->|[->|[->| ->]]]]]]].

(** X1.  On inputs that are not negative, [_resolve_operation] reads
    inside its tables: it returns 0 when an input is 0 or above
    Informational or the operator is neither And nor Or, and a kind from
    1 to 8 otherwise. *)
Lemma resolve_operation_nonnegative (A B : Z) (oper : xccdf_bool_operator_t) :
  0 <= A -> 0 <= B ->
  exists v, _resolve_operation A B oper = Some v /\
    ((A = 0 \/ B = 0 \/ A > XCCDF_RESULT_INFORMATIONAL \/ B > XCCDF_RESULT_INFORMATIONAL
      \/ oper = XCCDF_OPERATOR_OTHER) -> v = 0) /\
    (1 <= A <= 8 -> 1 <= B <= 8 -> oper <> XCCDF_OPERATOR_OTHER -> 1 <= v <= 8).
Proof.
  intros HA HB. unfold _resolve_operation, XCCDF_RESULT_INFORMATIONAL.
  destruct (A =? 0) eqn:HA0; [exists 0; split; [done|]; apply Z.eqb_eq in HA0; lia|].
  destruct (B =? 0) eqn:HB0; [exists 0; split; [done|]; apply Z.eqb_eq in HB0; lia|].
  destruct (A >? 8) eqn:HA8; [exists 0; split; [done|]; apply Z.gtb_gt in HA8; lia|].
  destruct (B >? 8) eqn:HB8; [exists 0; split; [done|]; apply Z.gtb_gt in HB8; lia|].
  apply Z.eqb_neq in HA0, HB0. rewrite Z.gtb_ltb in HA8, HB8.
  apply Z.ltb_ge in HA8, HB8. simpl orb. cbv iota.
  assert (1 <= A <= 8) as HA' by lia. assert (1 <= B <= 8) as HB' by lia.
  clear HA HB HA0 HB0 HA8 HB8.
  destruct oper; [| |exists 0; split; [done|split; [done|intros _ _ Hc; done]]];
    kind_cases HA'; kind_cases HB';
    (eexists; split; [vm_compute; reflexivity|];
     split; [intros [?|[?|[?|[?|?]]]]; (lia || discriminate)|intros; lia]).
Qed.

(** With the rows of Error and Unknown exchanged, both tables are
    symmetric. *)
Lemma exchanged_tables_commutative (x y : Z) :
  1 <= x <= 8 -> 1 <= y <= 8 ->
  table_read (exchange_error_unknown RESULT_TABLE_AND) x y
    = table_read (exchange_error_unknown RESULT_TABLE_AND) y x /\
  table_read (exchange_error_unknown RESULT_TABLE_OR) x y
    = table_read (exchange_error_unknown RESULT_TABLE_OR) y x.
Proof. intros Hx Hy. kind_cases Hx; kind_cases Hy; by vm_compute. Qed.

(** With the rows of Error and Unknown exchanged, the tables agree with
    the table documented above [_resolve_operation] on the determinate
    kinds. *)
Lemma exchanged_tables_documented (x y : Z) :
  1 <= x <= 4 -> 1 <= y <= 4 ->
  table_read (exchange_error_unknown RESULT_TABLE_AND) x y = Some (documented_and x y) /\
  table_read (exchange_error_unknown RESULT_TABLE_OR) x y = Some (documented_or x y).
Proof.
  intros Hx Hy.
  assert (x = 1 \/ x = 2 \/ x = 3 \/ x = 4) as [->|[->|[->| ->]]] by lia;
  assert (y = 1 \/ y = 2 \/ y = 3 \/ y = 4) as [->|[->|[->| ->]]] by lia;
  by vm_compute.
Qed.

(** C1 (the code departs from the claim).  [_resolve_operation] is not
    commutative: And (Error, Pass) is Unknown while And (Pass, Error) is
    Error, and Or (Error, Fail) is Unknown while Or (Fail, Error) is
    Error; the table documented above the function gives Error for all
    four. *)
Theorem resolve_operation_not_commutative :
  _resolve_operation XCCDF_RESULT_ERROR XCCDF_RESULT_PASS XCCDF_OPERATOR_AND
    = Some XCCDF_RESULT_UNKNOWN /\
  _resolve_operation XCCDF_RESULT_PASS XCCDF_RESULT_ERROR XCCDF_OPERATOR_AND
    = Some XCCDF_RESULT_ERROR /\
  _resolve_operation XCCDF_RESULT_ERROR XCCDF_RESULT_FAIL XCCDF_OPERATOR_OR
    = Some XCCDF_RESULT_UNKNOWN /\
  _resolve_operation XCCDF_RESULT_FAIL XCCDF_RESULT_ERROR XCCDF_OPERATOR_OR
    = Some XCCDF_RESULT_ERROR /\
  documented_and XCCDF_RESULT_ERROR XCCDF_RESULT_PASS = XCCDF_RESULT_ERROR /\
  documented_or XCCDF_RESULT_ERROR XCCDF_RESULT_FAIL = XCCDF_RESULT_ERROR.
Proof. by vm_compute. Qed.

(** C4 (the code departs from the claim).  Pass is not an identity for
    And, nor Fail for Or, on Error and Unknown: [_resolve_operation]
    turns Error into Unknown and Unknown into Error. *)
Theorem resolve_operation_identity_fails :
  _resolve_operation XCCDF_RESULT_ERROR XCCDF_RESULT_PASS XCCDF_OPERATOR_AND
    = Some XCCDF_RESULT_UNKNOWN /\
  _resolve_operation XCCDF_RESULT_UNKNOWN XCCDF_RESULT_PASS XCCDF_OPERATOR_AND
    = Some XCCDF_RESULT_ERROR /\
  _resolve_operation XCCDF_RESULT_ERROR XCCDF_RESULT_FAIL XCCDF_OPERATOR_OR
    = Some XCCDF_RESULT_UNKNOWN /\
  _resolve_operation XCCDF_RESULT_UNKNOWN XCCDF_RESULT_FAIL XCCDF_OPERATOR_OR
    = Some XCCDF_RESULT_ERROR.
Proof. by vm_compute. Qed.

(** Pass is an identity for And, and Fail for Or, on Pass and Fail. *)
Lemma resolve_operation_identity_pass_fail (x : Z) :
  x = XCCDF_RESULT_PASS \/ x = XCCDF_RESULT_FAIL ->
  _resolve_operation x XCCDF_RESULT_PASS XCCDF_OPERATOR_AND = Some x /\
  _resolve_operation x XCCDF_RESULT_FAIL XCCDF_OPERATOR_OR = Some x.
Proof. by intros [-> | ->]; vm_compute. Qed.

(** X2.  Every negative first input paired with a kind, under And or
    Or, is read out of bounds. *)
Lemma resolve_operation_negative (A B : Z) (oper : xccdf_bool_operator_t) :
  A < 0 -> 1 <= B <= 8 -> oper <> XCCDF_OPERATOR_OTHER ->
  _resolve_operation A B oper = None.
Proof.
  intros HA HB Hop. unfold _resolve_operation, XCCDF_RESULT_INFORMATIONAL.
  assert ((A =? 0) = false) as -> by (apply Z.eqb_neq; lia).
  assert ((B =? 0) = false) as -> by (apply Z.eqb_neq; lia).
  assert ((A >? 8) = false) as -> by (rewrite Z.gtb_ltb; apply Z.ltb_ge; lia).
  assert ((B >? 8) = false) as -> by (rewrite Z.gtb_ltb; apply Z.ltb_ge; lia).
  simpl. unfold table_read.
  assert ((A <? 0) = true) as -> by (apply Z.ltb_lt; lia).
  by destruct oper.
Qed.

End ResultAlgebraFacts.

Module EvaluatorFacts.
Import ResultAlgebra Model Selection Chooser Evaluator Reference Examples Derived
       ResultAlgebraFacts.

(** Induction over a check tree: a property holds of a check as soon as
    it holds of its children. *)
Lemma xccdf_check_tree_ind (P : xccdf_check -> Prop) :
  (forall check, Forall P (check_children check) -> P check) ->
  forall check, P check.
Proof.
  intros step. fix rec 1. intros check. apply step.
  destruct check as [? ? ? ? ? ? ? ? ? children]. simpl.
  revert children. fix children_rec 1. intros [|child rest].
  - constructor.
  - constructor; [apply rec | apply children_rec].
Qed.

(** *** Engine dispatch *)

Lemma evaluate_cb_loop_spec (cb_it : list callback) (sysname : option string)
  (args : callback_args) (log : call_log) :
  evaluate_cb_loop cb_it sysname args XCCDF_RESULT_NOT_CHECKED log =
    (default XCCDF_RESULT_NOT_CHECKED
       (head (List.filter (fun r => negb (r =? XCCDF_RESULT_NOT_CHECKED))
                (map (fun cb => callback_callback cb args) cb_it))),
     log ++ dispatch_calls_of cb_it sysname args).
Proof.
  revert log. induction cb_it as [|cb rest IH]; intros log; simpl.
  - by rewrite app_nil_r.
  - destruct (callback_callback cb args =? XCCDF_RESULT_NOT_CHECKED) eqn:E; simpl.
    + apply Z.eqb_eq in E. rewrite E, IH. by rewrite <- app_assoc.
    + reflexivity.
Qed.

Lemma evaluate_cb_spec (policy : xccdf_policy) (check : xccdf_check)
  (rule_id : option string) (bindings : list xccdf_value_binding)
  (content : xccdf_check_content_ref) (log : call_log) :
  xccdf_policy_evaluate_cb policy (check_system check) (content_ref_name content)
    (content_ref_href content) rule_id bindings (check_imports check) log =
    (content_ref_value policy check rule_id bindings content,
     log ++ content_ref_calls policy check rule_id bindings content).
Proof. apply evaluate_cb_loop_spec. Qed.

(** *** The loop over the content-refs of a simple check *)

Section content_refs.
Variables (policy : xccdf_policy) (check : xccdf_check) (rule_id : option string)
          (bindings : list xccdf_value_binding).

Let value := content_ref_value policy check rule_id bindings.
Let calls := content_refs_calls policy check rule_id bindings.

Lemma content_refs_calls_cons content refs :
  calls (content :: refs)
    = content_ref_calls policy check rule_id bindings content ++ calls refs.
Proof. reflexivity. Qed.

Lemma content_ref_loop_terminal pre ref post ret log :
  Forall (fun r => value r = XCCDF_RESULT_NOT_CHECKED) pre ->
  value ref <> XCCDF_RESULT_NOT_CHECKED ->
  content_ref_loop policy check rule_id bindings (pre ++ ref :: post) ret log =
    (value ref, xccdf_check_inject_content_ref check ref None,
     log ++ calls (pre ++ [ref])).
Proof.
  intros Hpre Href. revert ret log.
  induction Hpre as [|r pre Hr Hpre IH]; intros ret log; simpl;
    rewrite evaluate_cb_spec.
  - fold value. apply Z.eqb_neq in Href. rewrite Href. simpl.
    unfold calls, content_refs_calls. simpl. by rewrite app_nil_r.
  - fold value. rewrite Hr. simpl. rewrite IH.
    by rewrite content_refs_calls_cons, app_assoc.
Qed.

Lemma content_ref_loop_not_checked refs ret log :
  Forall (fun r => value r = XCCDF_RESULT_NOT_CHECKED) refs ->
  content_ref_loop policy check rule_id bindings refs ret log =
    (match refs with [] => ret | _ => XCCDF_RESULT_NOT_CHECKED end,
     check, log ++ calls refs).
Proof.
  intros Hrefs. revert ret log.
  induction Hrefs as [|r refs Hr Hrefs IH]; intros ret log; simpl.
  - unfold calls, content_refs_calls. simpl. by rewrite app_nil_r.
  - rewrite evaluate_cb_spec. fold value. rewrite Hr. simpl. rewrite IH.
    rewrite content_refs_calls_cons, app_assoc. by destruct refs.
Qed.

Lemma content_ref_loop_value refs ret log :
  (content_ref_loop policy check rule_id bindings refs ret log).1.1 =
    match List.filter (fun v => negb (v =? XCCDF_RESULT_NOT_CHECKED)) (map value refs) with
    | v :: _ => v
    | [] => match refs with [] => ret | _ => XCCDF_RESULT_NOT_CHECKED end
    end.
Proof.
  revert ret log. induction refs as [|r refs IH]; intros ret log; simpl; [done|].
  rewrite evaluate_cb_spec. fold value.
  destruct (value r =? XCCDF_RESULT_NOT_CHECKED) eqn:E; simpl; [|done].
  rewrite IH. apply Z.eqb_eq in E.
  destruct (List.filter _ (map value refs)); [|done]. by destruct refs.
Qed.
End content_refs.

(** *** Unfolding [xccdf_policy_check_evaluate] *)

Lemma check_evaluate_simple policy check rule_id log :
  check_complex check = false ->
  xccdf_policy_check_evaluate policy check rule_id log =
    bindings ← xccdf_policy_check_get_value_bindings policy (check_exports check) [];
    match bindings with
    | None => Returns (XCCDF_RESULT_UNKNOWN, check, log)
    | Some bindings =>
        let '(ret, check', log) :=
          content_ref_loop policy check rule_id bindings (check_content_refs check) 0 log in
        Returns (_resolve_negate ret (check_negate check), check', log)
    end.
Proof. destruct check; simpl; by intros ->. Qed.

Lemma check_evaluate_complex policy check rule_id log :
  check_complex check = true ->
  xccdf_policy_check_evaluate policy check rule_id log =
    st ← children_loop
           (fun child log => xccdf_policy_check_evaluate policy child rule_id log)
           (check_oper check) (check_children check) 0 log;
    if children_aborted st
    then Returns (-1, check_set_children check (children_checks st), children_log st)
    else Returns (_resolve_negate (children_ret st) (check_negate check),
                  check_set_children check (children_checks st), children_log st).
Proof. destruct check; simpl; by intros ->. Qed.

Lemma check_value_unfold applies depth policy check rule_id :
  check_value applies depth policy check rule_id =
    v ← (if check_complex check then
           children_value (fun child => check_value applies (S depth) policy child rule_id)
                          (check_oper check) (check_children check) 0
         else simple_check_value policy check rule_id);
    Returns (if applies depth then _resolve_negate v (check_negate check) else v).
Proof. by destruct check. Qed.

(** *** Negation *)

(** The accumulated value of the loop over the children of a complex
    check when each child's value is its value with negation applied at
    every check. *)
Lemma children_loop_value policy rule_id oper depth children :
  Forall (fun child => forall depth log,
            returned_value (xccdf_policy_check_evaluate policy child rule_id log)
              = check_value negate_at_every_check depth policy child rule_id) children ->
  forall ret log,
    (st ← children_loop
            (fun child log => xccdf_policy_check_evaluate policy child rule_id log)
            oper children ret log;
     Returns (if children_aborted st then -1 else children_ret st))
    = children_value
        (fun child => check_value negate_at_every_check depth policy child rule_id)
        oper children ret.
Proof.
  induction 1 as [|child rest Hchild _ IH]; intros ret log; simpl; [done|].
  rewrite <- (Hchild depth log).
  destruct (xccdf_policy_check_evaluate policy child rule_id log)
    as [[[ret2 child'] log']|]; simpl; [|done].
  destruct (ret2 =? -1); [done|].
  destruct (if ret =? 0 then Returns ret2
            else outcome_of_option (_resolve_operation ret ret2 oper))
    as [ret'|]; simpl; [|done].
  rewrite <- (IH ret' log').
  by destruct (children_loop _ oper rest ret' log').
Qed.

(** The flag of the evaluated check flips what the same check evaluates
    to with its flag cleared: the root's negation is applied once. *)
Lemma check_value_root_negation policy check rule_id :
  check_value negate_at_every_check 0 policy check rule_id =
    v ← check_value negate_at_every_check 0 policy
          (Check (check_complex check) (check_oper check) false
                 (check_multicheck check) (check_system check) (check_selector check)
                 (check_content_refs check) (check_exports check) (check_imports check)
                 (check_children check)) rule_id;
    Returns (_resolve_negate v (check_negate check)).
Proof.
  destruct check as [cx op ng mc sy se refs ex im children]. simpl.
  destruct cx.
  - by destruct (children_value _ op children 0).
  - unfold simple_check_value. simpl.
    by destruct (xccdf_policy_check_get_value_bindings policy ex []) as [[bs|]|];
      simpl; [destruct (List.filter _ _)| |].
Qed.

(** C2 (as amended).  The value [xccdf_policy_check_evaluate] returns
    for a check is the value of the tree in which negation is applied
    once at every check: at the evaluated root, and for each child
    nested in a complex check on the child's own result before it is
    combined into its parent. *)
Theorem check_evaluate_negates_every_check policy check rule_id log :
  returned_value (xccdf_policy_check_evaluate policy check rule_id log)
    = check_value negate_at_every_check 0 policy check rule_id.
Proof.
  generalize 0%nat as depth. intros depth. revert depth log.
  induction check as [check IH] using xccdf_check_tree_ind; intros depth log.
  rewrite check_value_unfold. unfold negate_at_every_check at 1.
  destruct (check_complex check) eqn:Hcx.
  - rewrite check_evaluate_complex by done.
    rewrite <- (children_loop_value policy rule_id (check_oper check) (S depth)
                  (check_children check) IH 0 log).
    destruct (children_loop _ (check_oper check) (check_children check) 0 log)
      as [st|]; simpl; [|done].
    destruct (children_aborted st); simpl; [|done].
    by rewrite resolve_negate_minus_one.
  - rewrite check_evaluate_simple by done. unfold simple_check_value.
    destruct (xccdf_policy_check_get_value_bindings policy (check_exports check) [])
      as [[bindings|]|]; simpl; [| |done].
    + pose proof (content_ref_loop_value policy check rule_id bindings
                    (check_content_refs check) 0 log) as Hv.
      destruct (content_ref_loop policy check rule_id bindings
                  (check_content_refs check) 0 log) as [[ret check'] log'].
      simpl in Hv. subst ret. simpl.
      by destruct (List.filter _ _).
    + by rewrite resolve_negate_unknown.
Qed.

(** C2 (counterexample).  In a complex check And with a single child
    whose negate flag is set and whose engine answers Pass, the value
    returned is Fail: the child's flag has been applied inside the tree.
    Applying negation at the root only would give Pass. *)
Lemma check_evaluate_applies_child_negate :
  returned_value (xccdf_policy_check_evaluate policy_by_href and_of_negated_child None [])
    = Returns XCCDF_RESULT_FAIL /\
  check_value negate_at_root_only 0 policy_by_href and_of_negated_child None
    = Returns XCCDF_RESULT_PASS.
Proof. by vm_compute. Qed.

(** C10 (the code departs from the claim).  A negative input passes
    the guard of [_resolve_operation] and indexes the table out of
    bounds: the function does not return a value there.  The evaluation
    of a complex check gets there when an engine answers -2. *)
Theorem resolve_operation_negative_out_of_bounds :
  _resolve_operation (-2) XCCDF_RESULT_PASS XCCDF_OPERATOR_AND = None /\
  _resolve_operation XCCDF_RESULT_PASS (-2) XCCDF_OPERATOR_OR = None /\
  xccdf_policy_check_evaluate policy_minus_two and_of_two None [] = Undefined.
Proof. by vm_compute. Qed.

(** *** Content-refs *)

(** *** Reporters *)

Lemma report_cb_loop_spec cbs sysname args log :
  Runner.report_cb_loop cbs sysname args 0 log =
    (default 0 (reporters_stop cbs args),
     log ++ replicate (reporters_asked cbs args) (sysname, args)).
Proof.
  revert log. induction cbs as [|cb rest IH]; intros log; simpl.
  - by rewrite app_nil_r.
  - unfold reporters_stop. simpl.
    destruct (callback_callback cb args =? 0) eqn:E; simpl.
    + apply Z.eqb_eq in E. rewrite E, IH. by rewrite <- app_assoc.
    + reflexivity.
Qed.

(** A report returns the value of the first reporter of the system that
    does not return 0, and calls the reporters up to that one. *)
Lemma report_cb_spec policy sysname args log :
  Runner.xccdf_policy_report_cb policy sysname args log =
    (report_value policy sysname args, log ++ report_calls policy sysname args).
Proof. apply report_cb_loop_spec. Qed.

Lemma reporters_stop_nonzero cbs args stop :
  reporters_stop cbs args = Some stop -> (stop =? 0) = false.
Proof.
  unfold reporters_stop.
  destruct (List.filter _ _) as [|ret rets] eqn:Hfilter; [done|].
  intros [= <-].
  assert (In ret (List.filter (fun ret => negb (ret =? 0))
                    (map (fun cb => callback_callback cb args) cbs))) as Hin
    by (rewrite Hfilter; by left).
  apply filter_In in Hin as [_ Hin]. by apply negb_true_iff.
Qed.

(** A result other than -1 is recorded in the TestResult and reported to
    the output reporters. *)
Lemma report_rule_result_spec policy st rule check res message result :
  res <> -1 ->
  Runner.run_result st = Some result ->
  Runner._xccdf_policy_report_rule_result policy st rule check res message =
    (report_value policy output_system
       (OutputArgs (Some (Runner._xccdf_rule_result_new_from_rule rule check res message))),
     {| Runner.run_result :=
          Some (Runner.xccdf_result_add_rule_result result
                  (Runner._xccdf_rule_result_new_from_rule rule check res message));
        Runner.run_log :=
          Runner.run_log st
          ++ report_calls policy output_system
               (OutputArgs
                  (Some (Runner._xccdf_rule_result_new_from_rule rule check res message))) |}).
Proof.
  intros Hres Hresult. unfold Runner._xccdf_policy_report_rule_result.
  rewrite (proj2 (Z.eqb_neq res (-1)) Hres), Hresult.
  change "urn:xccdf:system:callback:output"%string with output_system.
  by rewrite report_cb_spec.
Qed.

(** The loop of the rule runner over the content-refs, for a check
    without multi-check. *)
Section rule_content_refs.
Import Runner.
Variables (policy : xccdf_policy) (rule : xccdf_rule) (check : xccdf_check)
          (bindings : list xccdf_value_binding).
Hypothesis no_multicheck : check_multicheck check = false.

Let value := content_ref_value policy check None bindings.
Let calls := content_refs_calls policy check None bindings.

Lemma rule_content_ref_loop_step content rest ret message st :
  rule_content_ref_loop policy rule check bindings (content :: rest) ret message st =
    if negb (value content =? XCCDF_RESULT_NOT_CHECKED)
    then Returns (LoopDone (Some (value content)) None
                    (xccdf_check_inject_content_ref check content None)
                    {| run_result := run_result st;
                       run_log := run_log st
                                  ++ content_ref_calls policy check None bindings content |})
    else rule_content_ref_loop policy rule check bindings rest (Some (value content)) None
           {| run_result := run_result st;
              run_log := run_log st
                         ++ content_ref_calls policy check None bindings content |}.
Proof.
  simpl. rewrite no_multicheck, andb_false_r.
  by rewrite evaluate_cb_spec.
Qed.

Lemma rule_content_ref_loop_terminal pre ref post ret message st :
  Forall (fun r => value r = XCCDF_RESULT_NOT_CHECKED) pre ->
  value ref <> XCCDF_RESULT_NOT_CHECKED ->
  rule_content_ref_loop policy rule check bindings (pre ++ ref :: post) ret message st =
    Returns (LoopDone (Some (value ref)) None
               (xccdf_check_inject_content_ref check ref None)
               {| run_result := run_result st;
                  run_log := run_log st ++ calls (pre ++ [ref]) |}).
Proof.
  intros Hpre Href. revert ret message st.
  induction Hpre as [|r pre Hr Hpre IH]; intros ret message st;
    cbn [app]; rewrite rule_content_ref_loop_step.
  - apply Z.eqb_neq in Href. rewrite Href. simpl.
    unfold calls, content_refs_calls. simpl. by rewrite app_nil_r.
  - rewrite Hr. simpl. rewrite IH. simpl.
    unfold calls, content_refs_calls. simpl. by rewrite app_assoc.
Qed.

Lemma rule_content_ref_loop_not_checked refs ret message st :
  refs <> [] ->
  Forall (fun r => value r = XCCDF_RESULT_NOT_CHECKED) refs ->
  rule_content_ref_loop policy rule check bindings refs ret message st =
    Returns (LoopDone (Some XCCDF_RESULT_NOT_CHECKED) None check
               {| run_result := run_result st; run_log := run_log st ++ calls refs |}).
Proof.
  intros Hne Hrefs. revert ret message st Hne.
  induction Hrefs as [|r refs Hr Hrefs IH]; intros ret message st Hne; [done|].
  rewrite rule_content_ref_loop_step, Hr. simpl.
  destruct refs as [|r' refs].
  - simpl. unfold calls, content_refs_calls. simpl. by rewrite app_nil_r.
  - rewrite IH by done. simpl.
    unfold calls, content_refs_calls. simpl. by rewrite !app_assoc.
Qed.
End rule_content_refs.

(** A value other than -1 is not -1 after negation. *)
Lemma resolve_negate_not_minus_one (v : Z) (negate : bool) :
  v <> -1 -> _resolve_negate v negate <> -1.
Proof.
  intros Hv. destruct negate; [|done]. unfold _resolve_negate.
  destruct (v =? XCCDF_RESULT_PASS); [done|]. by destruct (v =? XCCDF_RESULT_FAIL).
Qed.

(** The rule runner for a Rule whose chosen check is a simple check:
    what is left after the selection, the start report, the
    applicability and the choice of the check. *)
Lemma rule_evaluate_simple_check policy rule check st result :
  runs_check policy rule check st result ->
  check_complex check = false ->
  Runner._xccdf_policy_rule_evaluate policy rule st =
    bindings ← xccdf_policy_check_get_value_bindings policy (check_exports check) [];
    match bindings with
    | None =>
        Returns (Runner._xccdf_policy_report_rule_result policy
                   {| Runner.run_result := Some result;
                      Runner.run_log :=
                        Runner.run_log st
                        ++ report_calls policy start_system (StartArgs rule) |}
                   rule (Some check) XCCDF_RESULT_UNKNOWN
                   (Some "Value bindings not found."))
    | Some bindings =>
        exit ← Runner.rule_content_ref_loop policy rule check bindings
                 (check_content_refs check) None None
                 {| Runner.run_result := Some result;
                    Runner.run_log :=
                      Runner.run_log st
                      ++ report_calls policy start_system (StartArgs rule) |};
        match exit with
        | Runner.LoopReturned report st => Returns (report, st)
        | Runner.LoopDone None _ _ _ => Undefined
        | Runner.LoopDone (Some ret) message check st =>
            Returns (Runner._xccdf_policy_report_rule_result policy st rule (Some check)
                       (_resolve_negate ret (check_negate check))
                       (if ret =? XCCDF_RESULT_NOT_CHECKED
                        then Some "None of the check-content-ref elements was resolvable."
                        else message))
        end
    end.
Proof.
  intros (Hsel & Happ & Hcheck & Hstart & Hresult) Hcx.
  unfold Runner._xccdf_policy_rule_evaluate.
  rewrite Hsel. cbn [mbind outcome_bind].
  change "urn:xccdf:system:callback:start"%string with start_system.
  rewrite report_cb_spec. cbv beta iota zeta.
  assert (report_value policy start_system (StartArgs rule) = 0) as ->
    by (unfold report_value; by rewrite Hstart).
  change (0 =? 0) with true. cbn [negb].
  by rewrite Happ, Hcheck, Hcx, Hresult.
Qed.

(** C7 (as amended).  When a simple check whose value bindings resolve
    is evaluated, by [xccdf_policy_check_evaluate] or, if its
    multi-check flag is not set, by the rule runner for the Rule it is
    chosen for, its content-refs are dispatched in declaration order;
    the first one whose dispatch is not NotChecked is pinned into the
    check, gives the value (negated once), and no later content-ref is
    dispatched; when the check has a content-ref and all of them yield
    NotChecked, the value is NotChecked and nothing is pinned.  When the
    value bindings do not resolve, the value is Unknown and no
    content-ref is dispatched.  The rule runner records that value and
    that check in the one rule-result it adds. *)
Theorem check_evaluate_content_refs policy check :
  check_complex check = false ->
  (forall bindings rule_id log pre ref post,
     xccdf_policy_check_get_value_bindings policy (check_exports check) []
       = Returns (Some bindings) ->
     check_content_refs check = pre ++ ref :: post ->
     Forall (fun r => content_ref_value policy check rule_id bindings r
                      = XCCDF_RESULT_NOT_CHECKED) pre ->
     content_ref_value policy check rule_id bindings ref <> XCCDF_RESULT_NOT_CHECKED ->
     xccdf_policy_check_evaluate policy check rule_id log =
       Returns (_resolve_negate (content_ref_value policy check rule_id bindings ref)
                                (check_negate check),
                xccdf_check_inject_content_ref check ref None,
                log ++ content_refs_calls policy check rule_id bindings (pre ++ [ref]))) /\
  (forall bindings rule_id log,
     xccdf_policy_check_get_value_bindings policy (check_exports check) []
       = Returns (Some bindings) ->
     check_content_refs check <> [] ->
     Forall (fun r => content_ref_value policy check rule_id bindings r
                      = XCCDF_RESULT_NOT_CHECKED) (check_content_refs check) ->
     xccdf_policy_check_evaluate policy check rule_id log =
       Returns (XCCDF_RESULT_NOT_CHECKED, check,
                log ++ content_refs_calls policy check rule_id bindings
                         (check_content_refs check))) /\
  (forall rule_id log,
     xccdf_policy_check_get_value_bindings policy (check_exports check) [] = Returns None ->
     xccdf_policy_check_evaluate policy check rule_id log =
       Returns (XCCDF_RESULT_UNKNOWN, check, log)) /\
  (forall rule st result bindings pre ref post,
     runs_check policy rule check st result ->
     check_multicheck check = false ->
     xccdf_policy_check_get_value_bindings policy (check_exports check) []
       = Returns (Some bindings) ->
     check_content_refs check = pre ++ ref :: post ->
     Forall (fun r => content_ref_value policy check None bindings r
                      = XCCDF_RESULT_NOT_CHECKED) pre ->
     content_ref_value policy check None bindings ref <> XCCDF_RESULT_NOT_CHECKED ->
     content_ref_value policy check None bindings ref <> -1 ->
     let rule_result :=
       Runner._xccdf_rule_result_new_from_rule rule
         (Some (xccdf_check_inject_content_ref check ref None))
         (_resolve_negate (content_ref_value policy check None bindings ref)
                          (check_negate check))
         None in
     Runner._xccdf_policy_rule_evaluate policy rule st =
       Returns (report_value policy output_system (OutputArgs (Some rule_result)),
                {| Runner.run_result :=
                     Some (Runner.xccdf_result_add_rule_result result rule_result);
                   Runner.run_log :=
                     Runner.run_log st
                     ++ report_calls policy start_system (StartArgs rule)
                     ++ content_refs_calls policy check None bindings (pre ++ [ref])
                     ++ report_calls policy output_system
                          (OutputArgs (Some rule_result)) |})) /\
  (forall rule st result bindings,
     runs_check policy rule check st result ->
     check_multicheck check = false ->
     xccdf_policy_check_get_value_bindings policy (check_exports check) []
       = Returns (Some bindings) ->
     check_content_refs check <> [] ->
     Forall (fun r => content_ref_value policy check None bindings r
                      = XCCDF_RESULT_NOT_CHECKED) (check_content_refs check) ->
     let rule_result :=
       Runner._xccdf_rule_result_new_from_rule rule (Some check) XCCDF_RESULT_NOT_CHECKED
         (Some "None of the check-content-ref elements was resolvable.") in
     Runner._xccdf_policy_rule_evaluate policy rule st =
       Returns (report_value policy output_system (OutputArgs (Some rule_result)),
                {| Runner.run_result :=
                     Some (Runner.xccdf_result_add_rule_result result rule_result);
                   Runner.run_log :=
                     Runner.run_log st
                     ++ report_calls policy start_system (StartArgs rule)
                     ++ content_refs_calls policy check None bindings
                          (check_content_refs check)
                     ++ report_calls policy output_system
                          (OutputArgs (Some rule_result)) |})) /\
  (forall rule st result,
     runs_check policy rule check st result ->
     xccdf_policy_check_get_value_bindings policy (check_exports check) [] = Returns None ->
     let rule_result :=
       Runner._xccdf_rule_result_new_from_rule rule (Some check) XCCDF_RESULT_UNKNOWN
         (Some "Value bindings not found.") in
     Runner._xccdf_policy_rule_evaluate policy rule st =
       Returns (report_value policy output_system (OutputArgs (Some rule_result)),
                {| Runner.run_result :=
                     Some (Runner.xccdf_result_add_rule_result result rule_result);
                   Runner.run_log :=
                     Runner.run_log st
                     ++ report_calls policy start_system (StartArgs rule)
                     ++ report_calls policy output_system
                          (OutputArgs (Some rule_result)) |})).
Proof.
  intros Hcx. split; [|split; [|split; [|split; [|split]]]].
  - intros bindings rule_id log pre ref post Hb Hrefs Hpre Href.
    rewrite check_evaluate_simple, Hb by done. simpl. rewrite Hrefs.
    by rewrite content_ref_loop_terminal.
  - intros bindings rule_id log Hb Hne Hall.
    rewrite check_evaluate_simple, Hb by done. simpl.
    rewrite content_ref_loop_not_checked by done.
    destruct (check_content_refs check); [done|].
    by rewrite resolve_negate_not_checked.
  - intros rule_id log Hb. by rewrite check_evaluate_simple, Hb by done.
  - intros rule st result bindings pre ref post Hruns Hmc Hb Hrefs Hpre Href Hok.
    rewrite (rule_evaluate_simple_check policy rule check st result Hruns Hcx), Hb.
    cbn [mbind outcome_bind]. rewrite Hrefs.
    rewrite (rule_content_ref_loop_terminal policy rule check bindings Hmc pre ref post)
      by done.
    cbn [mbind outcome_bind Runner.run_result Runner.run_log].
    rewrite (proj2 (Z.eqb_neq _ _) Href).
    rewrite report_rule_result_spec with (result := result);
      [|by apply resolve_negate_not_minus_one|done].
    cbn [Runner.run_log]. by rewrite <- !app_assoc.
  - intros rule st result bindings Hruns Hmc Hb Hne Hall.
    rewrite (rule_evaluate_simple_check policy rule check st result Hruns Hcx), Hb.
    cbn [mbind outcome_bind].
    rewrite (rule_content_ref_loop_not_checked policy rule check bindings Hmc) by done.
    cbn [mbind outcome_bind Runner.run_result Runner.run_log].
    change (XCCDF_RESULT_NOT_CHECKED =? XCCDF_RESULT_NOT_CHECKED) with true.
    rewrite resolve_negate_not_checked.
    rewrite report_rule_result_spec with (result := result); [|done|done].
    cbn [Runner.run_log]. by rewrite <- !app_assoc.
  - intros rule st result Hruns Hb.
    rewrite (rule_evaluate_simple_check policy rule check st result Hruns Hcx), Hb.
    cbn [mbind outcome_bind].
    rewrite report_rule_result_spec with (result := result); [|done|done].
    cbn [Runner.run_log]. by rewrite <- !app_assoc.
Qed.

(** C7 (witness).  With content-refs A, B, A, where the engine answers
    NotChecked for A and Fail for B, B is pinned, the value is Fail
    negated once and the second A is never dispatched, in
    [xccdf_policy_check_evaluate] and in the rule runner, which adds one
    rule-result with that value and check; with content-refs A, A the
    value is NotChecked. *)
Lemma check_evaluate_content_refs_witness :
  xccdf_policy_check_evaluate policy_by_href check_A_B_A None [] =
    Returns (XCCDF_RESULT_PASS,
             xccdf_check_inject_content_ref check_A_B_A ref_B None,
             [ (Some "s1", EngineArgs None (Some "def-a") "a.xml" [] []);
               (Some "s1", EngineArgs None (Some "def-b") "b.xml" [] []) ]) /\
  Runner._xccdf_policy_rule_evaluate policy_A_B_A rule_A_B_A start_state =
    Returns (0,
             {| Runner.run_result :=
                  Some {| result_id := Some "t";
                          result_rule_results :=
                            [ Runner._xccdf_rule_result_new_from_rule rule_A_B_A
                                (Some (xccdf_check_inject_content_ref check_A_B_A ref_B None))
                                XCCDF_RESULT_PASS None ] |};
                Runner.run_log :=
                  [ (Some "s1", EngineArgs None (Some "def-a") "a.xml" [] []);
                    (Some "s1", EngineArgs None (Some "def-b") "b.xml" [] []) ] |}) /\
  xccdf_policy_check_evaluate policy_by_href check_only_A None [] =
    Returns (XCCDF_RESULT_NOT_CHECKED, check_only_A,
             [ (Some "s1", EngineArgs None (Some "def-a") "a.xml" [] []);
               (Some "s1", EngineArgs None (Some "def-a") "a.xml" [] []) ]).
Proof.
  destruct (check_evaluate_content_refs policy_by_href check_A_B_A eq_refl)
    as (Hfirst & _).
  destruct (check_evaluate_content_refs policy_A_B_A check_A_B_A eq_refl)
    as (_ & _ & _ & Hrule & _).
  destruct (check_evaluate_content_refs policy_by_href check_only_A eq_refl)
    as (_ & Hall & _).
  split; [|split].
  - apply (Hfirst [] None [] [ref_A] ref_B [ref_A]);
      [reflexivity | reflexivity | repeat constructor | vm_compute; discriminate].
  - apply (Hrule rule_A_B_A start_state empty_result [] [ref_A] ref_B [ref_A]);
      [repeat split; reflexivity | reflexivity | reflexivity | reflexivity
      | repeat constructor | vm_compute; discriminate | vm_compute; discriminate].
  - apply (Hall [] None []); [reflexivity | discriminate | repeat constructor].
Defined.

(** For a Rule whose check has no content-ref, the rule runner reads
    its local [ret] before anything was assigned to it. *)
Lemma rule_evaluate_without_content_refs :
  Runner._xccdf_policy_rule_evaluate policy_rule_no_refs rule_no_refs empty_run_state
    = Undefined.
Proof. by vm_compute. Qed.

(** C7 (counterexample).  A check with no content-ref evaluates to 0,
    not to NotChecked, although every content-ref it has yields
    NotChecked; a check whose export names a Value the Benchmark lacks
    evaluates to Unknown with nothing dispatched or pinned, although the
    dispatch of its content-ref would yield Fail; and for a multi-check
    the rule runner evaluates the first content-ref once per name the
    engine gives for it and records NotChecked, never trying the second
    content-ref, whose dispatch would yield Fail. *)
Lemma check_evaluate_not_checked_fails :
  (Forall (fun r => content_ref_value policy_by_href check_no_refs None [] r
                    = XCCDF_RESULT_NOT_CHECKED) (check_content_refs check_no_refs) /\
   xccdf_policy_check_evaluate policy_by_href check_no_refs None []
     = Returns (0, check_no_refs, []) /\
   0 <> XCCDF_RESULT_NOT_CHECKED) /\
  (content_ref_value policy_by_href check_missing_value None [] ref_B = XCCDF_RESULT_FAIL /\
   xccdf_policy_check_evaluate policy_by_href check_missing_value None []
     = Returns (XCCDF_RESULT_UNKNOWN, check_missing_value, [])) /\
  (content_ref_value policy_multi check_multi None []
     {| content_ref_href := "b.xml"; content_ref_name := None |} = XCCDF_RESULT_FAIL /\
   Runner._xccdf_policy_rule_evaluate policy_multi rule_multi start_state =
     Returns (0,
              {| Runner.run_result :=
                   Some {| result_id := Some "t";
                           result_rule_results :=
                             [ Runner._xccdf_rule_result_new_from_rule rule_multi
                                 (Some (xccdf_check_inject_content_ref check_multi
                                          {| content_ref_href := "a.xml";
                                             content_ref_name := None |} (Some "d1")))
                                 XCCDF_RESULT_NOT_CHECKED None ] |};
                 Runner.run_log :=
                   [ (Some "s1", EngineArgs None (Some "d1") "a.xml" [] []) ] |})).
Proof. repeat split; try constructor; by vm_compute. Qed.

End EvaluatorFacts.

Module ChooserFacts.
Import ResultAlgebra Model Selection Chooser Reference Examples.

(** The loop "Check.System" leaves in [result] the last candidate with a
    registered engine, and what it held before when there is none. *)
Lemma check_system_loop_last policy candidates result :
  check_system_loop policy candidates result =
    match last (List.filter (engine_registered policy) candidates) with
    | Some check => Some check
    | None => result
    end.
Proof.
  revert result. induction candidates as [|check rest IH]; intros result; simpl; [done|].
  change (_xccdf_policy_is_engine_registered policy (check_system check))
    with (engine_registered policy check).
  destruct (engine_registered policy check); rewrite IH; [|done].
  rewrite last_cons. by destruct (last (List.filter _ rest)).
Qed.

Lemma filter_nil_Forall {A} (f : A -> bool) (l : list A) :
  List.filter f l = [] <-> Forall (fun x => f x = false) l.
Proof.
  induction l as [|x l IH]; simpl; [by split; [constructor|]|].
  destruct (f x) eqn:E.
  - split; [done|]. intros H. inversion H; congruence.
  - rewrite IH. split; [by constructor|]. by inversion 1.
Qed.

(** The loop over the refine-rules stops at the first one for the id. *)
Lemma refine_rule_scan_first r_rules id :
  refine_rule_scan r_rules id
    = head (List.filter (fun r_rule => bool_decide (refine_rule_item r_rule = id)) r_rules).
Proof.
  induction r_rules as [|r_rule rest IH]; simpl; [done|].
  change (streq (refine_rule_item r_rule) id)
    with (bool_decide (refine_rule_item r_rule = id)).
  by destruct (bool_decide (refine_rule_item r_rule = id)).
Qed.

Lemma get_refine_rules_by_rule_first policy id :
  xccdf_policy_get_refine_rules_by_rule policy id = profile_refine_rule policy id.
Proof.
  unfold xccdf_policy_get_refine_rules_by_rule, profile_refine_rule.
  destruct (policy_profile policy) as [profile|]; [|done].
  apply refine_rule_scan_first.
Qed.

(** The candidates the code enumerates are those of the chooser's
    description. *)
Lemma candidates_spec policy rule :
  (let selector := match xccdf_policy_get_refine_rules_by_rule policy (rule_id rule) with
                   | None => None
                   | Some rr => refine_rule_selector rr
                   end in
   let candidate_it := xccdf_rule_get_checks_filtered rule selector in
   if bool_decide (selector <> None) && bool_decide (candidate_it = [])
   then xccdf_rule_get_checks_filtered rule None
   else candidate_it)
  = check_candidates policy rule.
Proof.
  unfold check_candidates, refined_selector, xccdf_rule_get_checks_filtered.
  change (fun check => bool_decide (check_selector check = ?s)) with (under_selector s).
  rewrite get_refine_rules_by_rule_first.
  change (profile_refine_rule policy (rule_id rule) ≫= refine_rule_selector)
    with (match profile_refine_rule policy (rule_id rule) with
          | Some rr => refine_rule_selector rr
          | None => None
          end).
  cbv zeta.
  destruct (match profile_refine_rule policy (rule_id rule) with
            | Some rr => refine_rule_selector rr
            | None => None
            end) as [sel|];
    [|by rewrite bool_decide_eq_false_2 by (by intros H)].
  rewrite bool_decide_eq_true_2 by done. simpl.
  destruct (List.filter _ (rule_checks rule)) as [|check rest].
  - by case_bool_decide.
  - by case_bool_decide.
Qed.

(** C6.  The check chooser returns the first complex-check when the
    Rule has one; otherwise the last candidate whose system URI has a
    registered engine, the candidates being the simple checks under the
    selector of the Profile's refine-rule for the Rule (the first
    refine-rule of the Profile whose item is the Rule's id), or those
    with no selector when a non-null selector matches no check; and no
    check exactly when no candidate's system URI is registered. *)
Theorem applicable_check_chosen policy rule :
  (forall check rest,
     rule_complex_checks rule = check :: rest ->
     _xccdf_policy_rule_get_applicable_check policy rule = Some check) /\
  (rule_complex_checks rule = [] ->
   _xccdf_policy_rule_get_applicable_check policy rule
     = last (List.filter (engine_registered policy) (check_candidates policy rule))) /\
  (rule_complex_checks rule = [] ->
   (_xccdf_policy_rule_get_applicable_check policy rule = None <->
    Forall (fun check => engine_registered policy check = false)
           (check_candidates policy rule))).
Proof.
  unfold _xccdf_policy_rule_get_applicable_check.
  split; [by intros check rest ->|].
  assert (rule_complex_checks rule = [] ->
          _xccdf_policy_rule_get_applicable_check policy rule
            = last (List.filter (engine_registered policy) (check_candidates policy rule)))
    as Hlast.
  { unfold _xccdf_policy_rule_get_applicable_check. intros ->.
    rewrite candidates_spec, check_system_loop_last.
    by destruct (last _). }
  split; [exact Hlast|].
  intros Hnil. fold (_xccdf_policy_rule_get_applicable_check policy rule).
  by rewrite Hlast, last_None, filter_nil_Forall.
Qed.

(** C6 (witness).  The Profile refines another item first and r1 twice;
    the first refine-rule for r1 counts.  Of the three checks under its
    selector "strict" the chooser takes the third, the last with a
    registered engine; under a selector no check has it falls back to
    the check without selector; a complex-check wins over the simple
    checks; and with no registered system there is no check. *)
Lemma applicable_check_chosen_witness :
  _xccdf_policy_rule_get_applicable_check (policy_refining "strict") rule_four_checks
    = Some (selected_check (Some "strict") "s1" "strict-3.xml") /\
  _xccdf_policy_rule_get_applicable_check (policy_refining "lax") rule_four_checks
    = Some (selected_check None "s1" "plain.xml") /\
  _xccdf_policy_rule_get_applicable_check (policy_refining "strict") rule_with_complex_check
    = Some (complex_check XCCDF_OPERATOR_OR false [ selected_check None "s1" "x.xml" ]) /\
  _xccdf_policy_rule_get_applicable_check (policy_refining "strict") rule_unregistered_checks
    = None.
Proof.
  destruct (applicable_check_chosen (policy_refining "strict") rule_four_checks)
    as (_ & Hstrict & _).
  destruct (applicable_check_chosen (policy_refining "lax") rule_four_checks)
    as (_ & Hlax & _).
  destruct (applicable_check_chosen (policy_refining "strict") rule_with_complex_check)
    as (Hcomplex & _ & _).
  destruct (applicable_check_chosen (policy_refining "strict") rule_unregistered_checks)
    as (_ & _ & Hnone).
  split; [rewrite Hstrict by reflexivity; reflexivity|].
  split; [rewrite Hlax by reflexivity; reflexivity|].
  split; [apply (Hcomplex _ _ eq_refl)|].
  apply (proj2 (Hnone eq_refl)). repeat constructor.
Defined.

End ChooserFacts.

Module EvaluateFacts.
Import ResultAlgebra Model Selection Chooser Evaluator Runner Evaluate Reference Examples.

Lemma strlen_append (a b : string) : strlen (a ++ b)%string = strlen a + strlen b.
Proof.
  unfold strlen. induction a as [|c a IH]; simpl String.length; [done|]. simpl in IH. lia.
Qed.

(** X23.  The XCCDF 1.2 form of the id is taken when "1.2" compares
    greater than or equal to the schema version, that is for the schema
    versions up to 1.2: the id is "xccdf_org.open-scap_testresult_"
    followed by the Profile id, or by "default-profile" when the policy
    has no Profile or the Profile no id, and it fits its buffer. *)
Lemma testresult_id_up_to_1_2 policy :
  strverscmp "1.2" (benchmark_schema_version (model_benchmark (policy_model policy))) >= 0 ->
  testresult_id policy
    = Returns ("xccdf_org.open-scap_testresult_" ++ profile_or_default policy)%string.
Proof.
  intros Hcmp. unfold testresult_id.
  destruct (Z.geb_spec (strverscmp "1.2"
              (benchmark_schema_version (model_benchmark (policy_model policy)))) 0)
    as [_|Hlt]; [|lia].
  unfold sprintf_into, profile_or_default.
  destruct (policy_profile policy) as [[[pid|] ? ? ? ?]|]; cbn [profile_id default];
    rewrite strlen_append;
    match goal with
    | |- (if ?a <=? ?b then _ else _) = _ => destruct (Z.leb_spec a b) as [_|Hlen]
    end;
    first [reflexivity
          | exfalso; revert Hlen;
            change (strlen "xccdf_org.open-scap_testresult_") with 31; lia].
Qed.

(** For a schema version above 1.2 the "OSCAP-Test-" form is written
    into a buffer one byte too short for it. *)
Lemma testresult_id_above_1_2 policy :
  strverscmp "1.2" (benchmark_schema_version (model_benchmark (policy_model policy))) < 0 ->
  testresult_id policy = Undefined.
Proof.
  intros Hcmp. unfold testresult_id.
  destruct (Z.geb_spec (strverscmp "1.2"
              (benchmark_schema_version (model_benchmark (policy_model policy)))) 0)
    as [Hge|_]; [lia|].
  unfold sprintf_into. rewrite strlen_append.
  match goal with
  | |- (if ?a <=? ?b then _ else _) = _ => destruct (Z.leb_spec a b) as [Hlen|_]
  end; [|done].
  exfalso. revert Hlen. change (strlen "OSCAP-Test-") with 11. lia.
Qed.

(** C3 (the code departs from the claim).  For the schema version 1.1,
    which is lower than 1.2, the TestResult id has the XCCDF 1.2 form
    and not the "OSCAP-Test-" form. *)
Theorem testresult_id_of_version_1_1 :
  testresult_id (policy_of_version "1.1" (Some (profile_of "p" [])))
    = Returns "xccdf_org.open-scap_testresult_p" /\
  testresult_id (policy_of_version "1.1" None)
    = Returns "xccdf_org.open-scap_testresult_default-profile" /\
  strverscmp "1.1" "1.2" < 0.
Proof. by vm_compute. Qed.

(** C9 (the code departs from the claim).  For a Benchmark with the
    Rules r1, r2 in this order and a Profile that selects r2 before r1,
    the rule results of the TestResult are those of r2, then r1. *)
Theorem evaluate_follows_profile_order :
  exists result policy' log,
    xccdf_policy_evaluate policy_r2_r1 = Returns (Some result, policy', log) /\
    result_rule_ids result = ["r2"; "r1"] /\
    benchmark_rule_ids (model_benchmark (policy_model policy_r2_r1)) = ["r1"; "r2"].
Proof.
  destruct (xccdf_policy_evaluate policy_r2_r1) as [[[[result|] policy'] log]|] eqn:E;
    try (exfalso; vm_compute in E; congruence).
  exists result, policy', log. split; [done|].
  split; [|reflexivity].
  vm_compute in E. by injection E as <- _ _.
Qed.

End EvaluateFacts.

Module TailoringFacts.
Import ResultAlgebra Model Selection Chooser Evaluator Tailoring Reference Examples
       ChooserFacts.



Lemma setvalue_first_head s_values id :
  setvalue_first s_values id
    = head (List.filter (fun s_value => streq (setvalue_item s_value) id) s_values).
Proof.
  induction s_values as [|s rest IH]; simpl; [done|].
  by destruct (streq (setvalue_item s) id).
Qed.









End TailoringFacts.

Module SelectionFacts.
Import ResultAlgebra Model Selection Reference Examples.

(** Induction over a tree of items. *)
Lemma xccdf_item_tree_ind (P : xccdf_item -> Prop) :
  (forall r, P (XCCDF_RULE r)) ->
  (forall g content, Forall P content -> P (XCCDF_GROUP g content)) ->
  (forall v, P (XCCDF_VALUE v)) ->
  forall item, P item.
Proof.
  intros Hrule Hgroup Hvalue. fix rec 1. intros [r|g content|v]; [done| |done].
  apply Hgroup. revert content. fix content_rec 1. intros [|child rest].
  - constructor.
  - constructor; [apply rec | apply content_rec].
Qed.

(** *** The selects seen through their first entry per id *)

Lemma streq_true a b : streq a b = true <-> a = b.
Proof. apply bool_decide_eq_true. Qed.

Lemma streq_false a b : streq a b = false <-> a <> b.
Proof. apply bool_decide_eq_false. Qed.

Lemma select_lookup_cons sel rest id :
  select_lookup (sel :: rest) id =
    if streq (select_item sel) id then Some (select_selected sel)
    else select_lookup rest id.
Proof. unfold select_lookup. simpl. by destruct (streq (select_item sel) id). Qed.

Lemma select_lookup_snoc selects sel id :
  select_lookup (selects ++ [sel]) id =
    match select_lookup selects id with
    | Some b => Some b
    | None => if streq (select_item sel) id then Some (select_selected sel) else None
    end.
Proof.
  induction selects as [|s rest IH]; [by rewrite app_nil_l, !select_lookup_cons|].
  rewrite <- app_comm_cons, !select_lookup_cons.
  by destruct (streq (select_item s) id).
Qed.

Lemma has_select_in_lookup selects id :
  has_select_in selects id = bool_decide (is_Some (select_lookup selects id)).
Proof.
  induction selects as [|sel rest IH]; [done|].
  rewrite select_lookup_cons. simpl. destruct (streq (select_item sel) id); [|done].
  symmetry. by apply bool_decide_eq_true.
Qed.

(** The position the linear scan finds holds the looked-up flag; writing
    a flag there changes the lookup of that id only. *)
Lemma scan_select_lookup selects id n pos :
  scan_select selects id n = Some pos ->
  (n <= pos)%nat /\
  select_selected <$> selects !! (pos - n)%nat = select_lookup selects id /\
  forall b id',
    select_lookup
      (alter (fun sel => {| select_item := select_item sel; select_selected := b |})
             (pos - n)%nat selects) id'
    = if streq id id' then Some b else select_lookup selects id'.
Proof.
  revert n. induction selects as [|sel rest IH]; intros n; simpl; [done|].
  rewrite select_lookup_cons.
  destruct (streq (select_item sel) id) eqn:E.
  - intros [= <-]. rewrite Nat.sub_diag. split; [done|]. split; [done|].
    intros b id'. simpl. rewrite !select_lookup_cons. simpl.
    apply streq_true in E. rewrite E. by destruct (streq id id').
  - intros Hscan. destruct (IH _ Hscan) as (Hle & Hget & Halter).
    replace (pos - n)%nat with (S (pos - S n)) by lia.
    split; [lia|]. split; [done|].
    intros b id'. simpl.
    change (list_alter ?f ?k rest) with (alter f k rest).
    rewrite !select_lookup_cons, Halter.
    destruct (streq (select_item sel) id') eqn:E'; [|done].
    apply streq_true in E'. apply streq_false in E.
    rewrite (proj2 (streq_false id id')); [done|congruence].
Qed.

Lemma scan_select_none selects id n :
  scan_select selects id n = None <-> select_lookup selects id = None.
Proof.
  revert n. induction selects as [|sel rest IH]; intros n; simpl; [done|].
  rewrite select_lookup_cons. by destruct (streq (select_item sel) id).
Qed.

(** The hash table of [xccdf_policy_new] gives the position the linear
    scan finds. *)
Lemma htable_fill_scan ht selects n id :
  htable_fill ht selects n !! id =
    match ht !! id with
    | Some pos => Some pos
    | None => scan_select selects id n
    end.
Proof.
  revert ht n. induction selects as [|sel rest IH]; intros ht n; simpl;
    [by destruct (ht !! id)|].
  rewrite IH. destruct (ht !! select_item sel) eqn:Hsel.
  - destruct (ht !! id) eqn:Hid; [done|].
    rewrite (proj2 (streq_false (select_item sel) id)); [done|congruence].
  - destruct (streq (select_item sel) id) eqn:E.
    + apply streq_true in E. subst id. by rewrite lookup_insert_eq, Hsel.
    + apply streq_false in E. by rewrite lookup_insert_ne.
Qed.

(** *** Resolving one item *)

Lemma resolve_rule_ht policy r selected :
  policy_ht_selects (resolve_rule policy r selected) = policy_ht_selects policy.
Proof.
  unfold resolve_rule.
  destruct (negb (xccdf_policy_has_select policy (rule_id r))); [done|].
  destruct (xccdf_policy_get_select_by_id policy (rule_id r)) as [pos|]; [|done].
  by destruct (select_selected_at policy pos).
Qed.

(** Resolving a Rule sets the first select of its id to [selected] and
    the flag that select had, or the Rule's default when there was
    none; the first select of any other id is as before. *)
Lemma resolve_rule_lookup policy r selected id' :
  policy_ht_selects policy = None ->
  select_lookup (policy_selects (resolve_rule policy r selected)) id' =
    if streq (rule_id r) id'
    then Some (selected && default (rule_selected r)
                             (select_lookup (policy_selects policy) (rule_id r)))
    else select_lookup (policy_selects policy) id'.
Proof.
  intros Hht. unfold resolve_rule, xccdf_policy_has_select.
  rewrite has_select_in_lookup.
  destruct (select_lookup (policy_selects policy) (rule_id r)) as [b|] eqn:Hl.
  - rewrite bool_decide_eq_true_2 by eauto. simpl.
    unfold xccdf_policy_get_select_by_id. rewrite Hht.
    destruct (scan_select (policy_selects policy) (rule_id r) 0) as [pos|] eqn:Hscan.
    + destruct (scan_select_lookup _ _ _ _ Hscan) as (_ & Hget & Halter).
      rewrite Nat.sub_0_r in Hget, Halter.
      unfold select_selected_at. rewrite Hget, Hl. simpl. apply Halter.
    + apply scan_select_none in Hscan. congruence.
  - rewrite bool_decide_eq_false_2 by (by intros [? ?]). simpl.
    rewrite select_lookup_snoc. simpl.
    destruct (streq (rule_id r) id') eqn:E.
    + apply streq_true in E. subst id'. by rewrite Hl.
    + by destruct (select_lookup (policy_selects policy) id').
Qed.

(** The value [selected] has below a Group. *)
Lemma resolve_group_selected_lookup policy g selected :
  policy_ht_selects policy = None ->
  resolve_group_selected policy g selected =
    selected && default (group_selected g)
                        (select_lookup (policy_selects policy) (group_id g)).
Proof.
  intros Hht. unfold resolve_group_selected, xccdf_policy_has_select.
  destruct selected; [|done]. rewrite has_select_in_lookup. simpl.
  destruct (select_lookup (policy_selects policy) (group_id g)) as [b|] eqn:Hl.
  - rewrite bool_decide_eq_true_2 by eauto.
    unfold xccdf_policy_get_select_by_id. rewrite Hht.
    destruct (scan_select (policy_selects policy) (group_id g) 0) as [pos|] eqn:Hscan.
    + destruct (scan_select_lookup _ _ _ _ Hscan) as (_ & Hget & _).
      rewrite Nat.sub_0_r in Hget.
      unfold select_selected_at. by rewrite Hget, Hl.
    + apply scan_select_none in Hscan. congruence.
  - rewrite bool_decide_eq_false_2 by (by intros [? ?]). simpl.
    by destruct (group_selected g).
Qed.

(** *** Ids and chains *)

Lemma items_ids_cons item rest : items_ids (item :: rest) = item_ids item ++ items_ids rest.
Proof. reflexivity. Qed.

Lemma items_rule_chains_cons item rest :
  items_rule_chains (item :: rest) = item_rule_chains item ++ items_rule_chains rest.
Proof. reflexivity. Qed.

Lemma items_chain_rule_id content :
  Forall (fun item => forall path r,
            (path, r) ∈ item_rule_chains item -> rule_id r ∈ item_ids item) content ->
  forall path r, (path, r) ∈ items_rule_chains content -> rule_id r ∈ items_ids content.
Proof.
  induction 1 as [|item rest Hitem _ IH]; intros path r.
  - by intros ?%elem_of_nil.
  - rewrite items_rule_chains_cons, items_ids_cons, !elem_of_app.
    intros [Hin|Hin]; [left; by eapply Hitem | right; by eapply IH].
Qed.

(** The id of a Rule of a subtree is among the ids of the subtree. *)
Lemma chain_rule_id item path r :
  (path, r) ∈ item_rule_chains item -> rule_id r ∈ item_ids item.
Proof.
  revert path r. induction item as [r0|g content IH|v] using xccdf_item_tree_ind;
    intros path r; simpl.
  - intros [= _ ->]%list_elem_of_singleton. by apply list_elem_of_singleton.
  - rewrite list_elem_of_In, in_map_iff. intros ([p r1] & [= _ ->] & Hin).
    apply elem_of_cons. right. apply list_elem_of_In in Hin.
    by eapply (items_chain_rule_id content IH).
  - by intros ?%elem_of_nil.
Qed.

(** *** Resolving a subtree *)

Lemma resolve_children_invariant profile content selected :
  Forall (fun item => forall policy selected,
            policy_ht_selects policy = None ->
            resolve_invariant profile policy
              (xccdf_policy_resolve_item policy item selected) selected
              (item_ids item) (item_rule_chains item)) content ->
  forall policy,
    policy_ht_selects policy = None ->
    resolve_invariant profile policy
      (resolve_children (fun policy child => xccdf_policy_resolve_item policy child selected)
                        policy content)
      selected (items_ids content) (items_rule_chains content).
Proof.
  induction 1 as [|child rest Hchild _ IH]; intros policy Hht; simpl.
  - split; [done|]. split; [done|]. by intros _ _ path r ?%elem_of_nil.
  - destruct (Hchild policy selected Hht) as (Hht1 & Hout1 & Hin1).
    destruct (IH _ Hht1) as (Hht' & Hout' & Hin').
    split; [done|]. rewrite items_ids_cons, items_rule_chains_cons. split.
    + intros id [Hc Hr]%not_elem_of_app. by rewrite Hout', Hout1.
    + intros (Hnd1 & Hdisj & Hnd')%NoDup_app Hagree path r [Hin|Hin]%elem_of_app.
      * rewrite Hout' by (apply Hdisj; by eapply chain_rule_id).
        apply Hin1; [done| |done].
        intros id Hid. apply Hagree, elem_of_app. by left.
      * apply Hin'; [done| |done].
        intros id Hid. rewrite Hout1 by (intros Hid1; by apply (Hdisj id)).
        apply Hagree, elem_of_app. by right.
Qed.

Lemma resolve_item_invariant profile item policy selected :
  policy_ht_selects policy = None ->
  resolve_invariant profile policy (xccdf_policy_resolve_item policy item selected)
    selected (item_ids item) (item_rule_chains item).
Proof.
  revert policy selected.
  induction item as [r|g content IH|v] using xccdf_item_tree_ind;
    intros policy selected Hht.
  - (* Rule *)
    simpl. split; [by rewrite resolve_rule_ht|]. split.
    + intros id Hid. rewrite resolve_rule_lookup by done.
      rewrite (proj2 (streq_false (rule_id r) id)); [done|].
      intros <-. by apply Hid, list_elem_of_singleton.
    + intros _ Hagree path r' [= -> ->]%list_elem_of_singleton.
      rewrite resolve_rule_lookup by done.
      rewrite (proj2 (streq_true (rule_id r) (rule_id r))) by done.
      rewrite Hagree by (by apply list_elem_of_singleton).
      unfold effective_selected. by simpl.
  - (* Group *)
    change (xccdf_policy_resolve_item policy (XCCDF_GROUP g content) selected)
      with (resolve_children
              (fun p child =>
                 xccdf_policy_resolve_item p child
                   (resolve_group_selected policy g selected))
              policy content).
    destruct (resolve_children_invariant profile content
                (resolve_group_selected policy g selected) IH policy Hht)
      as (Hht' & Hout & Hin).
    change (item_ids (XCCDF_GROUP g content)) with (group_id g :: items_ids content).
    change (item_rule_chains (XCCDF_GROUP g content))
      with (map (fun chain : list xccdf_item * xccdf_rule =>
                   (XCCDF_GROUP g content :: chain.1, chain.2))
                (items_rule_chains content)).
    split; [done|]. split.
    + intros id [_ Hid]%not_elem_of_cons. by apply Hout.
    + intros [Hg Hnd]%NoDup_cons Hagree path r.
      rewrite list_elem_of_In, in_map_iff. intros ([p r1] & [= <- <-] & Hchain).
      apply list_elem_of_In in Hchain. simpl.
      rewrite (Hin Hnd) with (path := p); [| |done].
      2:{ intros id Hid. apply Hagree, elem_of_cons. by right. }
      rewrite resolve_group_selected_lookup by done.
      rewrite Hagree by (apply elem_of_cons; by left).
      unfold effective_selected. simpl.
      by destruct selected, (default (group_selected g) _), (forallb _ p).
  - (* Value *)
    simpl. split; [done|]. split; [done|]. by intros _ _ path r ?%elem_of_nil.
Qed.

(** C8.  After [xccdf_policy_new], for every Rule of a Benchmark with
    distinct item ids, the Rule's select in the Policy holds the Rule's
    own selection (the Profile's select if present, else the default)
    combined with that of every Group of its chain, starting from
    [selected = true]; so a Rule below a Group the Profile deselects is
    not selected, whatever its own select. *)
Theorem policy_new_effective_selection model profile :
  NoDup (items_ids (benchmark_content (model_benchmark model))) ->
  forall path r,
    (path, r) ∈ items_rule_chains (benchmark_content (model_benchmark model)) ->
    _xccdf_policy_is_rule_selected (xccdf_policy_new model profile) r
      = Returns (effective_selected profile path (XCCDF_RULE r)) /\
    (forall g content,
       XCCDF_GROUP g content ∈ path ->
       profile_select profile (group_id g) = Some false ->
       _xccdf_policy_is_rule_selected (xccdf_policy_new model profile) r = Returns false).
Proof.
  intros Hnd path r Hchain.
  set (policy0 := {| policy_model := model; policy_profile := profile;
                     policy_selects := match profile with
                                       | Some p => profile_selects p
                                       | None => []
                                       end;
                     policy_results := []; policy_ht_selects := None |}).
  assert (resolve_invariant profile policy0
            (resolve_items policy0 (benchmark_content (model_benchmark model)) true) true
            (items_ids (benchmark_content (model_benchmark model)))
            (items_rule_chains (benchmark_content (model_benchmark model))))
    as (_ & _ & Hin).
  { apply resolve_children_invariant; [|done].
    apply Forall_forall. intros item _ policy selected. apply resolve_item_invariant. }
  assert (select_lookup
            (policy_selects
               (resolve_items policy0 (benchmark_content (model_benchmark model)) true))
            (rule_id r)
          = Some (effective_selected profile path (XCCDF_RULE r))) as Hsel.
  { rewrite (Hin Hnd) with (path := path); [done| |done].
    intros id _. by destruct profile. }
  assert (_xccdf_policy_is_rule_selected (xccdf_policy_new model profile) r
          = Returns (effective_selected profile path (XCCDF_RULE r))) as Hres.
  { unfold _xccdf_policy_is_rule_selected, xccdf_policy_get_select_by_id,
      xccdf_policy_new, select_selected_at.
    fold policy0. simpl. rewrite htable_fill_scan, lookup_empty.
    destruct (scan_select _ (rule_id r) 0) as [pos|] eqn:Hscan.
    - destruct (scan_select_lookup _ _ _ _ Hscan) as (_ & Hget & _).
      rewrite Nat.sub_0_r in Hget. by rewrite Hget, Hsel.
    - apply scan_select_none in Hscan. congruence. }
  split; [done|].
  intros g content Hg Hdeselect. rewrite Hres. f_equal.
  unfold effective_selected.
  assert (forallb (own_selected profile) path = false) as ->; [|done].
  apply not_true_is_false. rewrite forallb_forall. intros Hall.
  specialize (Hall (XCCDF_GROUP g content) (proj1 (list_elem_of_In _ _) Hg)).
  simpl in Hall. by rewrite Hdeselect in Hall.
Qed.

(** C8 (witness).  With the Rule r2 in the Group g1, both selected by
    default, and a Profile that selects r2 and deselects g1, r2 is not
    selected in the Policy. *)
Lemma policy_new_effective_selection_witness :
  NoDup (items_ids (benchmark_content (model_benchmark model_group_rule))) /\
  ([group_g1], rule_r2)
    ∈ items_rule_chains (benchmark_content (model_benchmark model_group_rule)) /\
  _xccdf_policy_is_rule_selected
    (xccdf_policy_new model_group_rule (Some profile_deselects_g1)) rule_r2
    = Returns false.
Proof.
  assert (NoDup (items_ids (benchmark_content (model_benchmark model_group_rule))))
    as Hnd by (by apply (bool_decide_unpack _)).
  assert (([group_g1], rule_r2)
            ∈ items_rule_chains (benchmark_content (model_benchmark model_group_rule)))
    as Hchain by (vm_compute; repeat constructor).
  split; [done|]. split; [done|].
  apply (policy_new_effective_selection model_group_rule (Some profile_deselects_g1)
           Hnd [group_g1] rule_r2 Hchain).
Defined.

(** *** Order of the selects *)

Lemma alter_selected_items (selects : list xccdf_select) pos b :
  map select_item
      (alter (fun sel => {| select_item := select_item sel; select_selected := b |})
             pos selects)
    = map select_item selects.
Proof.
  revert pos. induction selects as [|sel rest IH]; intros [|pos]; simpl; [done..|].
  change (list_alter ?f pos rest) with (alter f pos rest). by rewrite IH.
Qed.

Lemma resolve_rule_items policy r selected :
  exists extra,
    map select_item (policy_selects (resolve_rule policy r selected))
      = map select_item (policy_selects policy) ++ extra.
Proof.
  unfold resolve_rule.
  destruct (negb (xccdf_policy_has_select policy (rule_id r))).
  - exists [rule_id r]. simpl. by rewrite map_app.
  - exists []. rewrite app_nil_r.
    destruct (xccdf_policy_get_select_by_id policy (rule_id r)) as [pos|]; [|done].
    destruct (select_selected_at policy pos); [|done].
    simpl. apply alter_selected_items.
Qed.

Lemma resolve_children_items content selected :
  Forall (fun item => forall policy selected, exists extra,
            map select_item (policy_selects (xccdf_policy_resolve_item policy item selected))
              = map select_item (policy_selects policy) ++ extra) content ->
  forall policy, exists extra,
    map select_item
        (policy_selects
           (resolve_children
              (fun policy child => xccdf_policy_resolve_item policy child selected)
              policy content))
      = map select_item (policy_selects policy) ++ extra.
Proof.
  induction 1 as [|child rest Hchild _ IH]; intros policy; simpl.
  - exists []. by rewrite app_nil_r.
  - destruct (IH (xccdf_policy_resolve_item policy child selected)) as [extra' ->].
    destruct (Hchild policy selected) as [extra ->].
    exists (extra ++ extra'). by rewrite app_assoc.
Qed.

Lemma resolve_item_items item policy selected :
  exists extra,
    map select_item (policy_selects (xccdf_policy_resolve_item policy item selected))
      = map select_item (policy_selects policy) ++ extra.
Proof.
  revert policy selected.
  induction item as [r|g content IH|v] using xccdf_item_tree_ind; intros policy selected.
  - apply resolve_rule_items.
  - apply (resolve_children_items content _ IH).
  - exists []. simpl. by rewrite app_nil_r.
Qed.

(** The selects of a Policy start with the selects of its Profile, in
    the order of the Profile; the Rules the Profile has no select for
    follow. *)
Lemma policy_new_selects_profile_first model profile :
  exists extra,
    map select_item (policy_selects (xccdf_policy_new model (Some profile)))
      = map select_item (profile_selects profile) ++ extra.
Proof.
  unfold xccdf_policy_new, resolve_items. simpl.
  match goal with
  | |- context [resolve_children ?f ?p ?c] =>
      destruct (resolve_children_items c true
                  (proj2 (Forall_forall _ _)
                         (fun item _ policy selected =>
                            resolve_item_items item policy selected)) p) as [extra Hextra]
  end.
  by exists extra.
Qed.

End SelectionFacts.

Module ResultAlgebraLaws.
Import ResultAlgebra Reference ResultAlgebraFacts.

(** X1 (witness). *)
Lemma resolve_operation_nonnegative_witness :
  exists v, _resolve_operation 5 9 XCCDF_OPERATOR_OR = Some v /\ v = 0.
Proof.
  destruct (resolve_operation_nonnegative 5 9 XCCDF_OPERATOR_OR) as (v & Hv & Hzero & _);
    [lia | lia |].
  exists v. split; [exact Hv|]. apply Hzero. right; right; right; left.
  unfold XCCDF_RESULT_INFORMATIONAL. lia.
Defined.

(** X2 (witness). *)
Lemma resolve_operation_negative_witness :
  _resolve_operation (-7) XCCDF_RESULT_NOT_CHECKED XCCDF_OPERATOR_OR = None.
Proof.
  apply resolve_operation_negative;
    [lia | unfold XCCDF_RESULT_NOT_CHECKED; lia | discriminate].
Defined.

(** X3.  Fail absorbs under And and Pass absorbs under Or, on either
    side, against every result kind. *)
Theorem resolve_operation_absorbing (x : Z) :
  1 <= x <= 8 ->
  _resolve_operation x XCCDF_RESULT_FAIL XCCDF_OPERATOR_AND = Some XCCDF_RESULT_FAIL /\
  _resolve_operation XCCDF_RESULT_FAIL x XCCDF_OPERATOR_AND = Some XCCDF_RESULT_FAIL /\
  _resolve_operation x XCCDF_RESULT_PASS XCCDF_OPERATOR_OR = Some XCCDF_RESULT_PASS /\
  _resolve_operation XCCDF_RESULT_PASS x XCCDF_OPERATOR_OR = Some XCCDF_RESULT_PASS.
Proof. intros Hx. kind_cases Hx; by vm_compute. Qed.

(** X3 (witness). *)
Lemma resolve_operation_absorbing_witness :
  _resolve_operation XCCDF_RESULT_ERROR XCCDF_RESULT_FAIL XCCDF_OPERATOR_AND
    = Some XCCDF_RESULT_FAIL.
Proof.
  apply (resolve_operation_absorbing XCCDF_RESULT_ERROR).
  unfold XCCDF_RESULT_ERROR. lia.
Defined.

(** X4.  With a kind from NotApplicable upwards as the first operand,
    And and Or both give the operand of lower rank: such a kind gives
    way to every determinate kind after it, and of two such kinds the
    lower one wins. *)
Theorem resolve_operation_skip_first (s x : Z) (oper : xccdf_bool_operator_t) :
  XCCDF_RESULT_NOT_APPLICABLE <= s <= XCCDF_RESULT_INFORMATIONAL ->
  1 <= x <= 8 ->
  oper <> XCCDF_OPERATOR_OTHER ->
  _resolve_operation s x oper = Some (Z.min s x).
Proof.
  unfold XCCDF_RESULT_NOT_APPLICABLE, XCCDF_RESULT_INFORMATIONAL.
  intros Hs Hx Hoper.
  assert (s = 5 \/ s = 6 \/ s = 7 \/ s = 8) as [->|[->|[->| ->]]] by lia;
    kind_cases Hx; destruct oper; try done; by vm_compute.
Qed.

(** X4 (witness). *)
Lemma resolve_operation_skip_first_witness :
  _resolve_operation XCCDF_RESULT_NOT_SELECTED XCCDF_RESULT_ERROR XCCDF_OPERATOR_AND
    = Some XCCDF_RESULT_ERROR.
Proof.
  apply (resolve_operation_skip_first XCCDF_RESULT_NOT_SELECTED XCCDF_RESULT_ERROR);
    [by vm_compute | by vm_compute | discriminate].
Defined.

(** X5.  [_resolve_negate] undoes itself, and leaves every value other
    than Pass and Fail as it is. *)
Theorem resolve_negate_pass_fail_only (v : Z) (negate : bool) :
  _resolve_negate (_resolve_negate v negate) negate = v /\
  (v <> XCCDF_RESULT_PASS -> v <> XCCDF_RESULT_FAIL -> _resolve_negate v negate = v) /\
  _resolve_negate XCCDF_RESULT_PASS true = XCCDF_RESULT_FAIL /\
  _resolve_negate XCCDF_RESULT_FAIL true = XCCDF_RESULT_PASS.
Proof.
  split; [apply resolve_negate_involutive|]. split; [|done].
  intros Hp Hf. destruct negate; [|done]. unfold _resolve_negate.
  by rewrite (proj2 (Z.eqb_neq _ _) Hp), (proj2 (Z.eqb_neq _ _) Hf).
Qed.

(** X5 (witness). *)
Lemma resolve_negate_pass_fail_only_witness :
  _resolve_negate XCCDF_RESULT_NOT_CHECKED true = XCCDF_RESULT_NOT_CHECKED.
Proof.
  apply (resolve_negate_pass_fail_only XCCDF_RESULT_NOT_CHECKED true); discriminate.
Defined.

End ResultAlgebraLaws.

Module SelectionLaws.
Import ResultAlgebra Model Selection Evaluator Reference Examples Policies Derived
       SelectionFacts.

(** *** Ids of the selects *)

Lemma has_select_in_mentions selects id :
  has_select_in selects id = mentions (map select_item selects) id.
Proof.
  unfold mentions. induction selects as [|sel rest IH]; cbn [has_select_in map].
  - symmetry. apply bool_decide_eq_false. by intros ?%elem_of_nil.
  - destruct (streq (select_item sel) id) eqn:E.
    + apply streq_true in E. symmetry. apply bool_decide_eq_true. subst. by left.
    + apply streq_false in E. rewrite IH. apply bool_decide_ext.
      rewrite elem_of_cons. intuition congruence.
Qed.

Lemma select_lookup_mentions selects id :
  is_Some (select_lookup selects id) <-> id ∈ map select_item selects.
Proof.
  pose proof (has_select_in_lookup selects id) as H1.
  rewrite has_select_in_mentions in H1. unfold mentions in H1.
  split; intros H.
  - apply (bool_decide_unpack _). rewrite H1. by apply bool_decide_pack.
  - apply (bool_decide_unpack _). rewrite <- H1. by apply bool_decide_pack.
Qed.

(** Resolving a Rule appends its id unless a select has it already; no
    other id is added, none removed, and the order is kept. *)
Lemma resolve_rule_ids policy r selected :
  map select_item (policy_selects (resolve_rule policy r selected))
    = map select_item (policy_selects policy)
      ++ (if mentions (map select_item (policy_selects policy)) (rule_id r)
          then [] else [rule_id r]).
Proof.
  unfold resolve_rule, xccdf_policy_has_select. rewrite has_select_in_mentions.
  destruct (mentions _ (rule_id r)); simpl.
  - rewrite app_nil_r.
    destruct (xccdf_policy_get_select_by_id policy (rule_id r)) as [pos|]; [|done].
    destruct (select_selected_at policy pos); [|done].
    simpl. apply alter_selected_items.
  - by rewrite map_app.
Qed.

Lemma mentions_app ids extra id :
  mentions (ids ++ extra) id = mentions ids id || mentions extra id.
Proof.
  unfold mentions. destruct (bool_decide (id ∈ ids)) eqn:E1;
    destruct (bool_decide (id ∈ extra)) eqn:E2; simpl;
    [apply bool_decide_eq_true..|apply bool_decide_eq_false];
    rewrite elem_of_app;
    try apply bool_decide_eq_true in E1; try apply bool_decide_eq_true in E2;
    try apply bool_decide_eq_false in E1; try apply bool_decide_eq_false in E2;
    tauto.
Qed.

Lemma items_rules_cons item rest : items_rules (item :: rest) = item_rules item ++ items_rules rest.
Proof. reflexivity. Qed.

Lemma resolve_children_ids content selected :
  Forall (fun item => forall policy selected,
            NoDup (map rule_id (item_rules item)) ->
            map select_item (policy_selects (xccdf_policy_resolve_item policy item selected))
              = map select_item (policy_selects policy)
                ++ List.filter (fun id => negb (mentions (map select_item (policy_selects policy)) id))
                               (map rule_id (item_rules item))) content ->
  forall policy,
    NoDup (map rule_id (items_rules content)) ->
    map select_item
        (policy_selects
           (resolve_children
              (fun policy child => xccdf_policy_resolve_item policy child selected)
              policy content))
      = map select_item (policy_selects policy)
        ++ List.filter (fun id => negb (mentions (map select_item (policy_selects policy)) id))
                       (map rule_id (items_rules content)).
Proof.
  induction 1 as [|child rest Hchild _ IH]; intros policy Hnd; simpl.
  - by rewrite app_nil_r.
  - rewrite items_rules_cons, map_app in Hnd.
    apply NoDup_app in Hnd as (Hnd1 & Hdisj & Hnd2).
    rewrite IH by done. rewrite Hchild by done.
    rewrite items_rules_cons, map_app, List.filter_app, <- app_assoc. do 2 f_equal.
    apply filter_ext_in. intros id Hid%list_elem_of_In.
    rewrite mentions_app. f_equal.
    replace (mentions (List.filter _ (map rule_id (item_rules child))) id) with false;
      [by rewrite orb_false_r|].
    symmetry. apply bool_decide_eq_false. intros Hin%list_elem_of_In.
    apply filter_In in Hin as [Hin%list_elem_of_In _]. by apply (Hdisj id).
Qed.

Lemma resolve_item_ids item policy selected :
  NoDup (map rule_id (item_rules item)) ->
  map select_item (policy_selects (xccdf_policy_resolve_item policy item selected))
    = map select_item (policy_selects policy)
      ++ List.filter (fun id => negb (mentions (map select_item (policy_selects policy)) id))
                     (map rule_id (item_rules item)).
Proof.
  revert policy selected.
  induction item as [r|g content IH|v] using xccdf_item_tree_ind;
    intros policy selected Hnd.
  - simpl. rewrite resolve_rule_ids.
    by destruct (mentions _ (rule_id r)).
  - apply (resolve_children_ids content _ IH policy Hnd).
  - simpl. by rewrite app_nil_r.
Qed.

(** X6.  For a Benchmark whose Rules have distinct ids, the selects of a
    new policy are the selects of its Profile, in Profile order,
    followed by one select for each Rule the Profile has no select for,
    in Benchmark pre-order. *)
Theorem policy_new_selects_order model profile :
  NoDup (benchmark_rule_ids (model_benchmark model)) ->
  map select_item (policy_selects (xccdf_policy_new model profile))
    = map select_item (profile_selects_of profile)
      ++ List.filter
           (fun id => negb (mentions (map select_item (profile_selects_of profile)) id))
           (benchmark_rule_ids (model_benchmark model)).
Proof.
  intros Hnd. unfold xccdf_policy_new, resolve_items. simpl.
  rewrite resolve_children_ids; [done| |done].
  apply Forall_forall. intros item _ policy selected. apply resolve_item_ids.
Qed.

(** X6 (witness).  With the Rules r1, r2 and a Profile with selects for
    r2 and g1, the selects are those for r2, g1 and then r1. *)
Lemma policy_new_selects_order_witness :
  NoDup (benchmark_rule_ids (model_benchmark model_group_rule)) /\
  map select_item
      (policy_selects (xccdf_policy_new model_group_rule (Some profile_deselects_g1)))
    = ["r2"; "g1"; "r1"].
Proof.
  assert (NoDup (benchmark_rule_ids (model_benchmark model_group_rule))) as Hnd
    by (by apply (bool_decide_unpack _)).
  split; [exact Hnd|].
  rewrite (policy_new_selects_order model_group_rule (Some profile_deselects_g1) Hnd).
  reflexivity.
Defined.

(** *** Reading the selects of a new policy *)

(** On a policy [xccdf_policy_new] made, the flag of a Rule is the flag
    of the first select with the Rule's id. *)
Lemma is_rule_selected_new model profile r :
  _xccdf_policy_is_rule_selected (xccdf_policy_new model profile) r
    = outcome_of_option
        (select_lookup (policy_selects (xccdf_policy_new model profile)) (rule_id r)).
Proof.
  unfold _xccdf_policy_is_rule_selected, xccdf_policy_get_select_by_id,
    xccdf_policy_new, select_selected_at.
  cbn [policy_ht_selects policy_selects]. rewrite htable_fill_scan, lookup_empty.
  destruct (scan_select _ (rule_id r) 0) as [pos|] eqn:Hscan.
  - destruct (scan_select_lookup _ _ _ _ Hscan) as (_ & Hget & _).
    rewrite Nat.sub_0_r in Hget. by rewrite Hget.
  - apply scan_select_none in Hscan. by rewrite Hscan.
Qed.

Lemma resolve_item_ht item policy selected :
  policy_ht_selects policy = None ->
  policy_ht_selects (xccdf_policy_resolve_item policy item selected) = None.
Proof. intros Hht. by destruct (resolve_item_invariant None item policy selected Hht). Qed.

(** *** A deselected id stays deselected *)

Lemma resolve_children_keeps_false content selected id :
  Forall (fun item => forall policy selected,
            policy_ht_selects policy = None ->
            select_lookup (policy_selects policy) id = Some false ->
            select_lookup (policy_selects (xccdf_policy_resolve_item policy item selected)) id
              = Some false) content ->
  forall policy,
    policy_ht_selects policy = None ->
    select_lookup (policy_selects policy) id = Some false ->
    policy_ht_selects
      (resolve_children (fun policy child => xccdf_policy_resolve_item policy child selected)
                        policy content) = None /\
    select_lookup
      (policy_selects
         (resolve_children (fun policy child => xccdf_policy_resolve_item policy child selected)
                           policy content)) id = Some false.
Proof.
  induction 1 as [|child rest Hchild _ IH]; intros policy Hht Hid; simpl; [done|].
  apply IH; [by apply resolve_item_ht|by apply Hchild].
Qed.

Lemma resolve_item_keeps_false item policy selected id :
  policy_ht_selects policy = None ->
  select_lookup (policy_selects policy) id = Some false ->
  select_lookup (policy_selects (xccdf_policy_resolve_item policy item selected)) id
    = Some false.
Proof.
  revert policy selected.
  induction item as [r|g content IH|v] using xccdf_item_tree_ind;
    intros policy selected Hht Hid.
  - simpl. rewrite resolve_rule_lookup by done.
    destruct (streq (rule_id r) id) eqn:E; [|done].
    apply streq_true in E. subst id. rewrite Hid. simpl. by rewrite andb_false_r.
  - by apply (resolve_children_keeps_false content _ id IH policy).
  - done.
Qed.

Lemma resolve_items_keeps_false content selected policy id :
  policy_ht_selects policy = None ->
  select_lookup (policy_selects policy) id = Some false ->
  policy_ht_selects
    (resolve_children (fun policy child => xccdf_policy_resolve_item policy child selected)
                      policy content) = None /\
  select_lookup
    (policy_selects
       (resolve_children (fun policy child => xccdf_policy_resolve_item policy child selected)
                         policy content)) id = Some false.
Proof.
  apply resolve_children_keeps_false, Forall_forall.
  intros item _ policy' selected'. apply resolve_item_keeps_false.
Qed.

(** X7.  A Rule the Profile deselects is not selected in the policy,
    whatever the Benchmark holds (its default, its Groups, other items
    with the same id). *)
Theorem policy_new_profile_deselects model profile r :
  profile_select profile (rule_id r) = Some false ->
  _xccdf_policy_is_rule_selected (xccdf_policy_new model profile) r = Returns false.
Proof.
  intros Hsel. rewrite is_rule_selected_new.
  unfold xccdf_policy_new, resolve_items. cbn [policy_selects].
  match goal with
  | |- context [resolve_children ?f ?p ?c] =>
      destruct (resolve_items_keeps_false c true p (rule_id r)) as [_ ->]; try done
  end.
  destruct profile; [done|discriminate].
Qed.

(** X7 (witness).  The Profile deselects r1, a Rule selected by default
    at the top of the Benchmark. *)
Lemma policy_new_profile_deselects_witness :
  profile_select (Some profile_deselects_r1) (rule_id (rule_with "r1" true [])) = Some false /\
  _xccdf_policy_is_rule_selected
    (xccdf_policy_new model_group_rule (Some profile_deselects_r1))
    (rule_with "r1" true []) = Returns false.
Proof.
  split; [reflexivity|].
  apply (policy_new_profile_deselects model_group_rule
           (Some profile_deselects_r1) (rule_with "r1" true [])).
  reflexivity.
Defined.

(** *** Below a deselected Group *)

Lemma resolve_children_below_deselected content selected :
  Forall (fun item => forall policy selected path r,
            policy_ht_selects policy = None ->
            (path, r) ∈ item_rule_chains item ->
            (selected = false \/
             exists g c, XCCDF_GROUP g c ∈ path /\
                         select_lookup (policy_selects policy) (group_id g) = Some false) ->
            select_lookup (policy_selects (xccdf_policy_resolve_item policy item selected))
                          (rule_id r) = Some false) content ->
  forall policy path r,
    policy_ht_selects policy = None ->
    (path, r) ∈ items_rule_chains content ->
    (selected = false \/
     exists g c, XCCDF_GROUP g c ∈ path /\
                 select_lookup (policy_selects policy) (group_id g) = Some false) ->
    select_lookup
      (policy_selects
         (resolve_children (fun policy child => xccdf_policy_resolve_item policy child selected)
                           policy content)) (rule_id r) = Some false.
Proof.
  induction 1 as [|child rest Hchild _ IH]; intros policy path r Hht Hchain Hwhy.
  - by apply elem_of_nil in Hchain.
  - rewrite items_rule_chains_cons in Hchain. simpl.
    apply elem_of_app in Hchain as [Hchain|Hchain].
    + apply resolve_items_keeps_false; [by apply resolve_item_ht|].
      by apply (Hchild policy selected path r).
    + apply (IH _ path r); [by apply resolve_item_ht|done|].
      destruct Hwhy as [->|(g & c & Hg & Hsel)]; [by left|right].
      exists g, c. split; [done|]. by apply resolve_item_keeps_false.
Qed.

Lemma resolve_item_below_deselected item policy selected path r :
  policy_ht_selects policy = None ->
  (path, r) ∈ item_rule_chains item ->
  (selected = false \/
   exists g c, XCCDF_GROUP g c ∈ path /\
               select_lookup (policy_selects policy) (group_id g) = Some false) ->
  select_lookup (policy_selects (xccdf_policy_resolve_item policy item selected))
                (rule_id r) = Some false.
Proof.
  revert policy selected path r.
  induction item as [r0|g content IH|v] using xccdf_item_tree_ind;
    intros policy selected path r Hht Hchain Hwhy.
  - apply list_elem_of_singleton in Hchain as [= -> ->].
    destruct Hwhy as [->|(g & c & Hg & _)]; [|by apply elem_of_nil in Hg].
    simpl. rewrite resolve_rule_lookup by done.
    by rewrite (proj2 (streq_true (rule_id r0) (rule_id r0))).
  - change (xccdf_policy_resolve_item policy (XCCDF_GROUP g content) selected)
      with (resolve_children
              (fun p child =>
                 xccdf_policy_resolve_item p child
                   (resolve_group_selected policy g selected))
              policy content).
    change (item_rule_chains (XCCDF_GROUP g content))
      with (map (fun chain : list xccdf_item * xccdf_rule =>
                   (XCCDF_GROUP g content :: chain.1, chain.2))
                (items_rule_chains content)) in Hchain.
    apply list_elem_of_In, in_map_iff in Hchain as ([p r1] & [= <- <-] & Hchain).
    apply list_elem_of_In in Hchain.
    apply (resolve_children_below_deselected content _ IH policy p r1 Hht Hchain).
    rewrite resolve_group_selected_lookup by done.
    destruct Hwhy as [->|(g' & c' & Hg & Hsel)]; [by left|].
    apply elem_of_cons in Hg as [[= -> ->]|Hg].
    + left. rewrite Hsel. simpl. apply andb_false_r.
    + right. by exists g', c'.
  - by apply elem_of_nil in Hchain.
Qed.

(** X8.  A Rule below a Group the Profile deselects is not selected in
    the policy: neither the Rule's own select nor an item sharing an id
    with the Group or the Rule changes that. *)
Theorem policy_new_group_deselects model profile path r g content :
  (path, r) ∈ items_rule_chains (benchmark_content (model_benchmark model)) ->
  XCCDF_GROUP g content ∈ path ->
  profile_select profile (group_id g) = Some false ->
  _xccdf_policy_is_rule_selected (xccdf_policy_new model profile) r = Returns false.
Proof.
  intros Hchain Hg Hsel. rewrite is_rule_selected_new.
  unfold xccdf_policy_new, resolve_items. cbn [policy_selects].
  rewrite (resolve_children_below_deselected _ true) with (path := path); try done.
  - apply Forall_forall. intros item _ policy selected p r'.
    apply resolve_item_below_deselected.
  - right. exists g, content. split; [done|]. by destruct profile.
Qed.

(** X8 (witness).  The Profile selects r2 and deselects the Group g1
    that holds it. *)
Lemma policy_new_group_deselects_witness :
  _xccdf_policy_is_rule_selected
    (xccdf_policy_new model_group_rule (Some profile_deselects_g1)) rule_r2 = Returns false.
Proof.
  apply (policy_new_group_deselects model_group_rule (Some profile_deselects_g1)
           [group_g1] rule_r2 (group_with "g1" true) [XCCDF_RULE rule_r2]).
  - vm_compute. repeat constructor.
  - apply list_elem_of_singleton. reflexivity.
  - reflexivity.
Defined.

(** *** Every Rule has a select *)

Lemma resolve_children_covers content selected :
  Forall (fun item => forall policy selected r,
            r ∈ item_rules item ->
            rule_id r ∈ map select_item
                          (policy_selects (xccdf_policy_resolve_item policy item selected)))
         content ->
  forall policy r,
    r ∈ items_rules content ->
    rule_id r ∈ map select_item
                  (policy_selects
                     (resolve_children
                        (fun policy child => xccdf_policy_resolve_item policy child selected)
                        policy content)).
Proof.
  induction 1 as [|child rest Hchild _ IH]; intros policy r Hr.
  - by apply elem_of_nil in Hr.
  - rewrite items_rules_cons in Hr. simpl.
    apply elem_of_app in Hr as [Hr|Hr]; [|by apply IH].
    destruct (resolve_children_items rest selected
                (proj2 (Forall_forall _ _)
                       (fun item _ policy selected => resolve_item_items item policy selected))
                (xccdf_policy_resolve_item policy child selected)) as [extra ->].
    apply elem_of_app. left. by apply Hchild.
Qed.

Lemma resolve_item_covers item policy selected r :
  r ∈ item_rules item ->
  rule_id r ∈ map select_item
                (policy_selects (xccdf_policy_resolve_item policy item selected)).
Proof.
  revert policy selected r.
  induction item as [r0|g content IH|v] using xccdf_item_tree_ind;
    intros policy selected r Hr.
  - apply list_elem_of_singleton in Hr as ->. simpl. rewrite resolve_rule_ids.
    apply elem_of_app.
    destruct (mentions _ (rule_id r0)) eqn:E.
    + left. by apply bool_decide_eq_true in E.
    + right. by apply list_elem_of_singleton.
  - by apply (resolve_children_covers content _ IH policy r).
  - by apply elem_of_nil in Hr.
Qed.

(** X9.  After [xccdf_policy_new] every Rule of the Benchmark has a
    select: asking whether it is selected always has an answer. *)
Theorem policy_new_rule_has_select model profile r :
  r ∈ items_rules (benchmark_content (model_benchmark model)) ->
  exists selected,
    _xccdf_policy_is_rule_selected (xccdf_policy_new model profile) r = Returns selected.
Proof.
  intros Hr. rewrite is_rule_selected_new.
  assert (rule_id r ∈ map select_item (policy_selects (xccdf_policy_new model profile)))
    as [selected ->]%select_lookup_mentions; [|by exists selected].
  unfold xccdf_policy_new, resolve_items. cbn [policy_selects].
  apply resolve_children_covers; [|done].
  apply Forall_forall. intros item _ policy selected r'. apply resolve_item_covers.
Qed.

(** X9 (witness).  The Rule r2 inside the Group g1. *)
Lemma policy_new_rule_has_select_witness :
  exists selected,
    _xccdf_policy_is_rule_selected (xccdf_policy_new model_group_rule None) rule_r2
      = Returns selected.
Proof.
  apply (policy_new_rule_has_select model_group_rule None rule_r2).
  vm_compute. repeat constructor.
Defined.

(** *** What resolving leaves alone *)

Lemma resolve_rule_frame policy r selected :
  policy_model (resolve_rule policy r selected) = policy_model policy /\
  policy_profile (resolve_rule policy r selected) = policy_profile policy /\
  policy_results (resolve_rule policy r selected) = policy_results policy.
Proof.
  unfold resolve_rule.
  destruct (negb _); [done|].
  destruct (xccdf_policy_get_select_by_id _ _); [|done].
  by destruct (select_selected_at _ _).
Qed.

Lemma resolve_children_frame content selected :
  Forall (fun item => forall policy selected,
            policy_model (xccdf_policy_resolve_item policy item selected)
              = policy_model policy /\
            policy_profile (xccdf_policy_resolve_item policy item selected)
              = policy_profile policy /\
            policy_results (xccdf_policy_resolve_item policy item selected)
              = policy_results policy) content ->
  forall policy,
    let policy' :=
      resolve_children (fun policy child => xccdf_policy_resolve_item policy child selected)
                       policy content in
    policy_model policy' = policy_model policy /\
    policy_profile policy' = policy_profile policy /\
    policy_results policy' = policy_results policy.
Proof.
  induction 1 as [|child rest Hchild _ IH]; intros policy; simpl; [done|].
  destruct (IH (xccdf_policy_resolve_item policy child selected)) as (-> & -> & ->).
  apply Hchild.
Qed.

(** Resolving changes the selects only. *)
Lemma resolve_item_frame item policy selected :
  policy_model (xccdf_policy_resolve_item policy item selected) = policy_model policy /\
  policy_profile (xccdf_policy_resolve_item policy item selected) = policy_profile policy /\
  policy_results (xccdf_policy_resolve_item policy item selected) = policy_results policy.
Proof.
  revert policy selected.
  induction item as [r|g content IH|v] using xccdf_item_tree_ind; intros policy selected.
  - apply resolve_rule_frame.
  - apply (resolve_children_frame content _ IH policy).
  - done.
Qed.

Lemma policy_new_frame model profile :
  policy_model (xccdf_policy_new model profile) = model /\
  policy_profile (xccdf_policy_new model profile) = profile /\
  policy_results (xccdf_policy_new model profile) = [].
Proof.
  unfold xccdf_policy_new, resolve_items. cbn [policy_model policy_profile policy_results].
  match goal with
  | |- context [resolve_children ?f ?p ?c] =>
      destruct (resolve_children_frame c true
                  (proj2 (Forall_forall _ _)
                         (fun item _ policy selected =>
                            resolve_item_frame item policy selected)) p)
        as (-> & -> & ->)
  end.
  done.
Qed.

(** *** The selected Rules *)

Lemma item_get_item_unfold id item :
  item_get_item id item =
    if streq (xccdf_item_get_id item) id then Some item
    else match item with
         | XCCDF_GROUP _ content => first_found (item_get_item id) content
         | _ => None
         end.
Proof. by destruct item. Qed.

Lemma item_ids_unfold item :
  item_ids item =
    xccdf_item_get_id item ::
    match item with
    | XCCDF_GROUP _ content => items_ids content
    | _ => []
    end.
Proof. by destruct item. Qed.

Lemma first_found_outside id content :
  Forall (fun item => id ∉ item_ids item -> item_get_item id item = None) content ->
  id ∉ items_ids content -> first_found (item_get_item id) content = None.
Proof.
  induction 1 as [|child rest Hchild _ IH]; intros Hid; [done|].
  rewrite items_ids_cons in Hid. apply not_elem_of_app in Hid as [Hid1 Hid2].
  simpl. rewrite Hchild by done. by apply IH.
Qed.

(** The search finds nothing outside the ids of the subtree. *)
Lemma item_get_item_outside id item :
  id ∉ item_ids item -> item_get_item id item = None.
Proof.
  induction item as [r|g content IH|v] using xccdf_item_tree_ind;
    rewrite item_get_item_unfold, item_ids_unfold;
    intros [Hhd Htl]%not_elem_of_cons;
    (rewrite (proj2 (streq_false _ id)) by congruence); [done| |done].
  by apply first_found_outside.
Qed.

Lemma items_chain_id content path r :
  (path, r) ∈ items_rule_chains content -> rule_id r ∈ items_ids content.
Proof.
  apply items_chain_rule_id, Forall_forall. intros item _ p r'. apply chain_rule_id.
Qed.

Lemma first_found_rule content :
  Forall (fun item => forall path r,
            NoDup (item_ids item) -> (path, r) ∈ item_rule_chains item ->
            item_get_item (rule_id r) item = Some (XCCDF_RULE r)) content ->
  forall path r,
    NoDup (items_ids content) -> (path, r) ∈ items_rule_chains content ->
    first_found (item_get_item (rule_id r)) content = Some (XCCDF_RULE r).
Proof.
  induction 1 as [|child rest Hchild _ IH]; intros path r Hnd Hchain.
  - by apply elem_of_nil in Hchain.
  - rewrite items_ids_cons in Hnd. apply NoDup_app in Hnd as (Hnd1 & Hdisj & Hnd2).
    rewrite items_rule_chains_cons in Hchain. simpl.
    apply elem_of_app in Hchain as [Hchain|Hchain].
    + by rewrite (Hchild path r).
    + rewrite item_get_item_outside; [by apply (IH path r)|].
      intros Hin. apply (Hdisj _ Hin). by apply (items_chain_id rest path r).
Qed.

(** With distinct ids, the search by the id of a Rule finds the Rule. *)
Lemma item_get_item_rule item path r :
  NoDup (item_ids item) -> (path, r) ∈ item_rule_chains item ->
  item_get_item (rule_id r) item = Some (XCCDF_RULE r).
Proof.
  revert path r.
  induction item as [r0|g content IH|v] using xccdf_item_tree_ind;
    intros path r Hnd Hchain.
  - apply list_elem_of_singleton in Hchain as [= -> ->].
    rewrite item_get_item_unfold. simpl.
    by rewrite (proj2 (streq_true (rule_id r0) (rule_id r0))).
  - change (item_rule_chains (XCCDF_GROUP g content))
      with (map (fun chain : list xccdf_item * xccdf_rule =>
                   (XCCDF_GROUP g content :: chain.1, chain.2))
                (items_rule_chains content)) in Hchain.
    apply list_elem_of_In, in_map_iff in Hchain as ([p r1] & [= <- <-] & Hchain).
    apply list_elem_of_In in Hchain.
    rewrite item_ids_unfold in Hnd. apply NoDup_cons in Hnd as [Hg Hnd].
    rewrite item_get_item_unfold.
    rewrite (proj2 (streq_false _ (rule_id r1))).
    + by apply (first_found_rule content IH p r1).
    + intros Heq. apply Hg. rewrite Heq. by apply (items_chain_id content p r1).
  - by apply elem_of_nil in Hchain.
Qed.

Lemma filter_sublist {A} (f : A -> bool) (l : list A) : List.filter f l `sublist_of` l.
Proof.
  induction l as [|a l IH]; simpl; [constructor|].
  destruct (f a); by constructor.
Qed.

Lemma items_rule_ids_sublist content :
  Forall (fun item => map rule_id (item_rules item) `sublist_of` item_ids item) content ->
  map rule_id (items_rules content) `sublist_of` items_ids content.
Proof.
  induction 1 as [|child rest Hchild _ IH]; [constructor|].
  rewrite items_rules_cons, items_ids_cons, map_app. by apply sublist_app.
Qed.

(** The ids of the Rules of a subtree, in order, are among its ids. *)
Lemma item_rule_ids_sublist item :
  map rule_id (item_rules item) `sublist_of` item_ids item.
Proof.
  induction item as [r|g content IH|v] using xccdf_item_tree_ind.
  - done.
  - rewrite item_ids_unfold. apply sublist_cons. by apply items_rule_ids_sublist.
  - apply sublist_nil_l.
Qed.

(** With distinct ids, each select is the first of its id. *)
Lemma select_lookup_NoDup selects sel :
  NoDup (map select_item selects) -> sel ∈ selects ->
  select_lookup selects (select_item sel) = Some (select_selected sel).
Proof.
  induction selects as [|s rest IH]; intros Hnd Hin; [by apply elem_of_nil in Hin|].
  simpl in Hnd. apply NoDup_cons in Hnd as [Hs Hnd].
  rewrite select_lookup_cons.
  apply elem_of_cons in Hin as [->|Hin].
  - by rewrite (proj2 (streq_true _ _)).
  - rewrite (proj2 (streq_false _ _)); [by apply IH|].
    intros Heq. apply Hs. rewrite Heq. apply list_elem_of_In, in_map.
    by apply list_elem_of_In.
Qed.

Lemma select_lookup_elem selects id b :
  select_lookup selects id = Some b ->
  {| select_item := id; select_selected := b |} ∈ selects.
Proof.
  induction selects as [|s rest IH]; [done|].
  rewrite select_lookup_cons. destruct (streq (select_item s) id) eqn:E.
  - apply streq_true in E. intros [= <-]. subst id. destruct s. by left.
  - intros H. right. by apply IH.
Qed.

(** X10.  For a Benchmark with distinct item ids and a Profile with at
    most one select per id, [xccdf_policy_get_selected_rules] yields the
    select of a Rule exactly when the Rule is effectively selected: by
    the Profile's select or else its default, and so for every Group
    around it. *)
Theorem selected_rules_effective model profile path r :
  NoDup (items_ids (benchmark_content (model_benchmark model))) ->
  NoDup (map select_item (profile_selects_of profile)) ->
  (path, r) ∈ items_rule_chains (benchmark_content (model_benchmark model)) ->
  (exists sel, sel ∈ xccdf_policy_get_selected_rules (xccdf_policy_new model profile) /\
               select_item sel = rule_id r)
  <-> effective_selected profile path (XCCDF_RULE r) = true.
Proof.
  intros Hnd Hprof Hchain.
  set (policy0 := {| policy_model := model; policy_profile := profile;
                     policy_selects := match profile with
                                       | Some p => profile_selects p
                                       | None => []
                                       end;
                     policy_results := []; policy_ht_selects := None |}).
  assert (resolve_invariant profile policy0
            (resolve_items policy0 (benchmark_content (model_benchmark model)) true) true
            (items_ids (benchmark_content (model_benchmark model)))
            (items_rule_chains (benchmark_content (model_benchmark model))))
    as (_ & _ & Hin).
  { apply resolve_children_invariant; [|done].
    apply Forall_forall. intros item _ policy selected. apply resolve_item_invariant. }
  assert (select_lookup (policy_selects (xccdf_policy_new model profile)) (rule_id r)
          = Some (effective_selected profile path (XCCDF_RULE r))) as Hsel.
  { unfold xccdf_policy_new. cbn [policy_selects]. fold policy0.
    rewrite (Hin Hnd) with (path := path); [done| |done].
    intros id _. by destruct profile. }
  assert (NoDup (benchmark_rule_ids (model_benchmark model))) as Hrules.
  { eapply sublist_NoDup; [exact Hnd|].
    apply (items_rule_ids_sublist (benchmark_content (model_benchmark model))), Forall_forall.
    intros item _. apply item_rule_ids_sublist. }
  assert (NoDup (map select_item (policy_selects (xccdf_policy_new model profile)))) as Hids.
  { unfold xccdf_policy_new, resolve_items. cbn [policy_selects].
    rewrite resolve_children_ids; [| |done].
    2:{ apply Forall_forall. intros item _ policy selected. apply resolve_item_ids. }
    apply NoDup_app. split; [by destruct profile|]. split.
    - intros id Hid Hnew. apply list_elem_of_In, filter_In in Hnew as [_ Hnew].
      apply negb_true_iff, bool_decide_eq_false in Hnew. by apply Hnew.
    - eapply sublist_NoDup; [exact Hrules|]. apply filter_sublist. }
  assert (xccdf_policy_filter_selected (xccdf_policy_new model profile)
            {| select_item := rule_id r;
               select_selected := effective_selected profile path (XCCDF_RULE r) |}
          = effective_selected profile path (XCCDF_RULE r)) as Hfilter.
  { unfold xccdf_policy_filter_selected, xccdf_benchmark_get_item, items_get_item.
    cbn [select_item select_selected].
    rewrite (proj1 (policy_new_frame model profile)).
    by rewrite (first_found_rule _
                  (proj2 (Forall_forall _ _)
                         (fun item _ path r => item_get_item_rule item path r)) path r). }
  unfold xccdf_policy_get_selected_rules. split.
  - intros (sel & Hsel' & Hid).
    apply list_elem_of_In, filter_In in Hsel' as [Hmem Hpass].
    apply list_elem_of_In in Hmem.
    pose proof (select_lookup_NoDup _ sel Hids Hmem) as Hfirst.
    rewrite Hid, Hsel in Hfirst. injection Hfirst as Hfirst.
    destruct sel as [id b]. simpl in Hid, Hfirst. subst id b.
    by rewrite Hfilter in Hpass.
  - intros Heff. rewrite Heff in Hsel, Hfilter.
    exists {| select_item := rule_id r; select_selected := true |}. split; [|done].
    apply list_elem_of_In, filter_In. split; [|done].
    by apply list_elem_of_In, select_lookup_elem.
Qed.

(** X10 (witness).  The Rule r1 at the top of the Benchmark is selected
    under the Profile that deselects the Group g1. *)
Lemma selected_rules_effective_witness :
  exists sel,
    sel ∈ xccdf_policy_get_selected_rules
            (xccdf_policy_new model_group_rule (Some profile_deselects_g1)) /\
    select_item sel = "r1".
Proof.
  apply (selected_rules_effective model_group_rule (Some profile_deselects_g1)
           [] (rule_with "r1" true [])).
  - by apply (bool_decide_unpack _).
  - by apply (bool_decide_unpack _).
  - vm_compute. repeat constructor.
  - reflexivity.
Defined.

End SelectionLaws.

Module ProfileLaws.
Import ResultAlgebra Model Selection Chooser Evaluator Tailoring Reference Examples Derived
       SelectionFacts TailoringFacts.

Lemma streq_sym a b : streq a b = streq b a.
Proof.
  destruct (streq b a) eqn:E.
  - apply streq_true in E. by apply streq_true.
  - apply streq_false in E. by apply streq_false.
Qed.

Lemma setvalue_scan_last s_values id final :
  setvalue_scan s_values id final =
    match last (List.filter (fun s_value => streq (setvalue_item s_value) id) s_values) with
    | Some s_value => Some s_value
    | None => final
    end.
Proof.
  revert final. induction s_values as [|s rest IH]; intros final; simpl; [done|].
  rewrite (streq_sym id). destruct (streq (setvalue_item s) id); rewrite IH; [|done].
  rewrite last_cons. by destruct (last (List.filter _ rest)).
Qed.

Lemma refine_value_scan_last r_values id final :
  refine_value_scan r_values id final =
    match last (List.filter (fun r_value => streq (refine_value_item r_value) id) r_values) with
    | Some r_value => Some r_value
    | None => final
    end.
Proof.
  revert final. induction r_values as [|r rest IH]; intros final; simpl; [done|].
  rewrite (streq_sym id). destruct (streq (refine_value_item r) id); rewrite IH; [|done].
  rewrite last_cons. by destruct (last (List.filter _ rest)).
Qed.

Lemma get_setvalue_last policy profile id :
  policy_profile policy = Some profile ->
  xccdf_policy_get_setvalue policy id = last (setvalues_for profile id).
Proof.
  intros Hp. unfold xccdf_policy_get_setvalue, setvalues_for. rewrite Hp, setvalue_scan_last.
  by destruct (last _).
Qed.

Lemma get_refine_value_last policy profile id :
  policy_profile policy = Some profile ->
  xccdf_policy_get_refine_value policy id = last (refine_values_for profile id).
Proof.
  intros Hp. unfold xccdf_policy_get_refine_value, refine_values_for.
  rewrite Hp, refine_value_scan_last. by destruct (last _).
Qed.

(** X11.  When a Profile has several setvalues for a Value, the two
    readers disagree: [xccdf_policy_get_value_of_item] (tailoring)
    returns the value of the first one, [xccdf_policy_get_setvalue]
    (value bindings) returns the last one. *)
Theorem setvalue_first_and_last policy profile value first more :
  policy_profile policy = Some profile ->
  setvalues_for profile (value_id value) = first :: more ->
  xccdf_policy_get_value_of_item policy value = Returns (Some (setvalue_value first)) /\
  xccdf_policy_get_setvalue policy (value_id value) = last (first :: more).
Proof.
  intros Hp Hfor. split.
  - unfold xccdf_policy_get_value_of_item. rewrite Hp, setvalue_first_head.
    unfold setvalues_for in Hfor. by rewrite Hfor.
  - rewrite (get_setvalue_last policy profile) by done. by rewrite Hfor.
Qed.

(** X11 (witness).  Two setvalues for v1: tailoring reads "first", the
    bindings read "second". *)
Lemma setvalue_first_and_last_witness :
  xccdf_policy_get_value_of_item policy_two_setvalues value_v1 = Returns (Some "first") /\
  (setvalue_value <$> xccdf_policy_get_setvalue policy_two_setvalues "v1") = Some "second".
Proof.
  destruct (setvalue_first_and_last policy_two_setvalues profile_two_setvalues value_v1
              {| setvalue_item := "v1"; setvalue_value := "first" |}
              [ {| setvalue_item := "v1"; setvalue_value := "second" |} ]
              eq_refl eq_refl) as [Hfirst Hlast].
  split; [exact Hfirst|]. change (value_id value_v1) with "v1" in Hlast. by rewrite Hlast.
Defined.

(** *** Value bindings *)

(** The bindings of a list of exports are those of its parts in turn;
    a NULL list for the first part is the result. *)
Lemma get_value_bindings_app policy pre post bindings :
  xccdf_policy_check_get_value_bindings policy (pre ++ post) bindings =
    match xccdf_policy_check_get_value_bindings policy pre bindings with
    | Returns (Some bindings') => xccdf_policy_check_get_value_bindings policy post bindings'
    | Returns None => Returns None
    | Undefined => Undefined
    end.
Proof.
  revert bindings. induction pre as [|e pre IH]; intros bindings; simpl; [done|].
  destruct (xccdf_benchmark_get_item _ _) as [[r|g c|v]|]; try done.
  destruct (xccdf_value_get_instance_by_selector _ _); [|done].
  apply IH.
Qed.

(** X12.  When [xccdf_policy_check_get_value_bindings] returns a list,
    it is the given list followed by one binding per check-export, in
    the order of the exports; each binding has the exported name, the
    type of the Value, the value of the instance the last refine-value
    selects, the value of the last setvalue for the Value, and the
    operator of the last refine-value or else of the Value. *)
Theorem get_value_bindings_shape policy profile exports bindings result :
  policy_profile policy = Some profile ->
  xccdf_policy_check_get_value_bindings policy exports bindings = Returns (Some result) ->
  exists new,
    result = bindings ++ new /\
    Forall2 (binding_of_export policy profile) exports new.
Proof.
  intros Hp. revert bindings.
  induction exports as [|e exports IH]; intros bindings; simpl.
  - intros [= <-]. exists []. by rewrite app_nil_r.
  - destruct (xccdf_benchmark_get_item _ _) as [[r|g c|v]|] eqn:Hitem; try done.
    rewrite (get_setvalue_last policy profile), (get_refine_value_last policy profile) by done.
    destruct (xccdf_value_get_instance_by_selector _ _) as [inst|] eqn:Hinst; [|done].
    intros (new & -> & Hnew)%IH. eexists (_ :: new). split.
    + by rewrite <- app_assoc.
    + constructor; [|done]. exists v, inst. split; [done|]. split; [exact Hinst|].
      by destruct (last (refine_values_for profile (value_id v))).
Qed.

(** X12 (witness).  One export of v1 under the Profile with two
    setvalues. *)
Lemma get_value_bindings_shape_witness :
  exists new,
    [ {| binding_name := "var"; binding_type := 1; binding_value := Some "low";
         binding_setvalue := Some "second"; binding_operator := 0 |} ] = [] ++ new /\
    Forall2 (binding_of_export policy_two_setvalues profile_two_setvalues)
            [ {| check_export_value := "v1"; check_export_name := "var" |} ] new.
Proof.
  apply (get_value_bindings_shape policy_two_setvalues profile_two_setvalues
           [ {| check_export_value := "v1"; check_export_name := "var" |} ] []);
    reflexivity.
Defined.

(** X13.  One check-export that names an id absent from the Benchmark,
    or a Value without an instance under the refined selector, makes
    the whole list of bindings NULL, whatever the exports after it are,
    once the exports before it have given their bindings. *)
Theorem get_value_bindings_missing policy pre export post bindings bindings' :
  xccdf_policy_check_get_value_bindings policy pre bindings = Returns (Some bindings') ->
  (xccdf_benchmark_get_item (model_benchmark (policy_model policy))
                            (check_export_value export) = None \/
   exists value,
     xccdf_benchmark_get_item (model_benchmark (policy_model policy))
                              (check_export_value export) = Some (XCCDF_VALUE value) /\
     xccdf_value_get_instance_by_selector value
       (xccdf_policy_get_refine_value policy (value_id value) ≫= refine_value_selector)
       = None) ->
  xccdf_policy_check_get_value_bindings policy (pre ++ export :: post) bindings
    = Returns None.
Proof.
  intros Hpre Hmiss. rewrite get_value_bindings_app, Hpre. simpl.
  destruct Hmiss as [->|(value & -> & Hinst)]; [done|].
  destruct (xccdf_policy_get_refine_value policy (value_id value));
    simpl in Hinst; by rewrite Hinst.
Qed.

(** X13 (witness).  The second export names a Value the Benchmark does
    not hold. *)
Lemma get_value_bindings_missing_witness :
  xccdf_policy_check_get_value_bindings policy_two_setvalues
    ([ {| check_export_value := "v1"; check_export_name := "var" |} ]
     ++ {| check_export_value := "v-missing"; check_export_name := "other" |}
     :: [ {| check_export_value := "v1"; check_export_name := "again" |} ]) []
  = Returns None.
Proof.
  eapply (get_value_bindings_missing policy_two_setvalues).
  - reflexivity.
  - left. reflexivity.
Defined.

End ProfileLaws.

Module DispatchLaws.
Import ResultAlgebra Model Selection Chooser Evaluator Runner Reference Examples Registry
       Derived.

Lemma evaluate_cb_loop_first pre cb post sysname args log :
  Forall (fun c => callback_callback c args = XCCDF_RESULT_NOT_CHECKED) pre ->
  callback_callback cb args <> XCCDF_RESULT_NOT_CHECKED ->
  evaluate_cb_loop (pre ++ cb :: post) sysname args XCCDF_RESULT_NOT_CHECKED log
    = (callback_callback cb args, log ++ replicate (S (length pre)) (sysname, args)).
Proof.
  intros Hpre Hcb. revert log. induction Hpre as [|c pre Hc _ IH]; intros log; simpl.
  - by rewrite (proj2 (Z.eqb_neq _ _) Hcb).
  - rewrite Hc. simpl. rewrite IH. by rewrite <- app_assoc.
Qed.

Lemma evaluate_cb_loop_none cbs sysname args log :
  Forall (fun c => callback_callback c args = XCCDF_RESULT_NOT_CHECKED) cbs ->
  evaluate_cb_loop cbs sysname args XCCDF_RESULT_NOT_CHECKED log
    = (XCCDF_RESULT_NOT_CHECKED, log ++ replicate (length cbs) (sysname, args)).
Proof.
  intros Hcbs. revert log. induction Hcbs as [|c cbs Hc _ IH]; intros log; simpl.
  - by rewrite app_nil_r.
  - rewrite Hc. simpl. rewrite IH. by rewrite <- app_assoc.
Qed.

Lemma evaluate_cb_loop_app l1 l2 sysname args log :
  evaluate_cb_loop (l1 ++ l2) sysname args XCCDF_RESULT_NOT_CHECKED log =
    let '(ret, log') := evaluate_cb_loop l1 sysname args XCCDF_RESULT_NOT_CHECKED log in
    if ret =? XCCDF_RESULT_NOT_CHECKED
    then evaluate_cb_loop l2 sysname args XCCDF_RESULT_NOT_CHECKED log'
    else (ret, log').
Proof.
  revert log. induction l1 as [|c l1 IH]; intros log; [done|].
  cbn [app evaluate_cb_loop].
  destruct (callback_callback c args =? XCCDF_RESULT_NOT_CHECKED) eqn:E.
  - apply Z.eqb_eq in E. rewrite E. apply IH.
  - cbn [negb]. by rewrite E.
Qed.

(** X14.  [xccdf_policy_evaluate_cb] calls the engines registered for
    the system in registration order and returns the answer of the
    first one that is not NotChecked; the engines after it are not
    called. *)
Theorem evaluate_cb_first_answer policy sysname content href rule_id bindings imports log
    pre cb post :
  _xccdf_policy_get_callbacks_by_sysname policy sysname = pre ++ cb :: post ->
  Forall (fun c => callback_callback c (engine_args content href rule_id bindings imports)
                   = XCCDF_RESULT_NOT_CHECKED) pre ->
  callback_callback cb (engine_args content href rule_id bindings imports)
    <> XCCDF_RESULT_NOT_CHECKED ->
  xccdf_policy_evaluate_cb policy sysname content href rule_id bindings imports log
    = (callback_callback cb (engine_args content href rule_id bindings imports),
       log ++ replicate (S (length pre))
                (sysname, engine_args content href rule_id bindings imports)).
Proof.
  intros Hcbs Hpre Hcb. unfold xccdf_policy_evaluate_cb. rewrite Hcbs.
  by apply evaluate_cb_loop_first.
Qed.

(** X14 (witness).  For "a.xml" the first engine of s1 answers
    NotChecked and the second Pass: two calls, result Pass. *)
Lemma evaluate_cb_first_answer_witness :
  xccdf_policy_evaluate_cb policy_two_engines (Some "s1") None "a.xml" None [] [] []
    = (XCCDF_RESULT_PASS,
       [] ++ replicate 2 (Some "s1", engine_args None "a.xml" None [] [])).
Proof.
  apply (evaluate_cb_first_answer policy_two_engines (Some "s1") None "a.xml" None [] [] []
           [ {| callback_system := Some "s1"; callback_callback := engine_by_href;
                callback_query_fn := None |} ]
           {| callback_system := Some "s1"; callback_callback := engine_pass;
              callback_query_fn := None |} []).
  - reflexivity.
  - by repeat constructor.
  - discriminate.
Defined.

(** X15.  When every engine of the system answers NotChecked,
    [xccdf_policy_evaluate_cb] returns NotChecked after calling each of
    them once; for a system without engine it returns NotChecked and
    calls nothing. *)
Theorem evaluate_cb_no_answer policy sysname content href rule_id bindings imports log :
  Forall (fun c => callback_callback c (engine_args content href rule_id bindings imports)
                   = XCCDF_RESULT_NOT_CHECKED)
         (_xccdf_policy_get_callbacks_by_sysname policy sysname) ->
  xccdf_policy_evaluate_cb policy sysname content href rule_id bindings imports log
    = (XCCDF_RESULT_NOT_CHECKED,
       log ++ replicate (length (_xccdf_policy_get_callbacks_by_sysname policy sysname))
                (sysname, engine_args content href rule_id bindings imports)) /\
  (_xccdf_policy_is_engine_registered policy sysname = false ->
   xccdf_policy_evaluate_cb policy sysname content href rule_id bindings imports log
     = (XCCDF_RESULT_NOT_CHECKED, log)).
Proof.
  intros Hcbs.
  assert (xccdf_policy_evaluate_cb policy sysname content href rule_id bindings imports log
          = (XCCDF_RESULT_NOT_CHECKED,
             log ++ replicate (length (_xccdf_policy_get_callbacks_by_sysname policy sysname))
                      (sysname, engine_args content href rule_id bindings imports))) as Hall
    by (by apply evaluate_cb_loop_none).
  split; [done|]. intros Hreg. rewrite Hall.
  unfold _xccdf_policy_is_engine_registered in Hreg.
  unfold _xccdf_policy_get_callbacks_by_sysname.
  replace (List.filter _ _) with (@nil callback); [by rewrite app_nil_r|].
  symmetry. revert Hreg. clear.
  induction (model_callbacks (policy_model policy)) as [|c cbs IH]; simpl; [done|].
  destruct (_xccdf_policy_filter_callback c sysname); [done|]. apply IH.
Qed.

(** X15 (witness).  No engine is registered for the system s2. *)
Lemma evaluate_cb_no_answer_witness :
  xccdf_policy_evaluate_cb policy_two_engines (Some "s2") None "a.xml" None [] [] []
    = (XCCDF_RESULT_NOT_CHECKED, []).
Proof.
  apply (evaluate_cb_no_answer policy_two_engines (Some "s2") None "a.xml" None [] [] []).
  - constructor.
  - reflexivity.
Defined.

(** *** Registration *)

Lemma callbacks_by_sysname_add policy cb sysname :
  _xccdf_policy_get_callbacks_by_sysname
    (policy_over policy (add_callback (policy_model policy) cb)) sysname
  = _xccdf_policy_get_callbacks_by_sysname policy sysname
    ++ (if _xccdf_policy_filter_callback cb sysname then [cb] else []).
Proof.
  unfold _xccdf_policy_get_callbacks_by_sysname. simpl. by rewrite List.filter_app.
Qed.

Lemma oscap_strcmp_eq_refl s : oscap_strcmp_eq s s = true.
Proof. by apply bool_decide_eq_true. Qed.

(** X16.  After an engine is registered for a system, the system has an
    engine, and a dispatch to that system goes as before except that
    the new engine is asked, last, when all earlier engines of the
    system answer NotChecked. *)
Theorem register_engine_dispatch policy sys func content href rule_id bindings imports log :
  let policy' :=
    policy_over policy
      (xccdf_policy_model_register_engine_callback (policy_model policy) sys func) in
  _xccdf_policy_is_engine_registered policy' sys = true /\
  xccdf_policy_evaluate_cb policy' sys content href rule_id bindings imports log =
    (let '(ret, log') :=
       xccdf_policy_evaluate_cb policy sys content href rule_id bindings imports log in
     if ret =? XCCDF_RESULT_NOT_CHECKED
     then (func (engine_args content href rule_id bindings imports),
           log' ++ [(sys, engine_args content href rule_id bindings imports)])
     else (ret, log')).
Proof.
  intros policy'. split.
  - unfold _xccdf_policy_is_engine_registered, policy'. simpl.
    rewrite existsb_app. simpl.
    unfold _xccdf_policy_filter_callback at 2. simpl.
    rewrite oscap_strcmp_eq_refl. apply orb_true_r.
  - unfold xccdf_policy_evaluate_cb, policy', xccdf_policy_model_register_engine_callback,
      xccdf_policy_model_register_engine_and_query_callback.
    rewrite callbacks_by_sysname_add.
    unfold _xccdf_policy_filter_callback at 1. simpl callback_system.
    rewrite oscap_strcmp_eq_refl, evaluate_cb_loop_app.
    destruct (evaluate_cb_loop _ sys _ XCCDF_RESULT_NOT_CHECKED log) as [ret log'].
    destruct (ret =? XCCDF_RESULT_NOT_CHECKED); [|done].
    simpl. unfold engine_args.
    by destruct (func _ =? XCCDF_RESULT_NOT_CHECKED) eqn:E; [apply Z.eqb_eq in E; rewrite E|].
Qed.

Lemma add_callback_other_system policy cb sysname :
  _xccdf_policy_filter_callback cb sysname = false ->
  let policy' := policy_over policy (add_callback (policy_model policy) cb) in
  _xccdf_policy_get_callbacks_by_sysname policy' sysname
    = _xccdf_policy_get_callbacks_by_sysname policy sysname /\
  _xccdf_policy_is_engine_registered policy' sysname
    = _xccdf_policy_is_engine_registered policy sysname /\
  forall content href rule_id bindings imports log,
    xccdf_policy_evaluate_cb policy' sysname content href rule_id bindings imports log
      = xccdf_policy_evaluate_cb policy sysname content href rule_id bindings imports log.
Proof.
  intros Hother policy'.
  assert (_xccdf_policy_get_callbacks_by_sysname policy' sysname
          = _xccdf_policy_get_callbacks_by_sysname policy sysname) as Hsame.
  { unfold policy'. rewrite callbacks_by_sysname_add, Hother. apply app_nil_r. }
  split; [done|]. split.
  - unfold _xccdf_policy_is_engine_registered, policy'. simpl.
    rewrite existsb_app. simpl. rewrite Hother. by rewrite !orb_false_r.
  - intros. unfold xccdf_policy_evaluate_cb. by rewrite Hsame.
Qed.

(** X17.  Registering an engine, a start callback or an output callback
    changes nothing for a system with another name: the engines found
    for it, whether it has an engine, and the dispatch to it are as
    before. *)
Theorem register_other_system policy model' sys sysname :
  registered_for (policy_model policy) model' sys ->
  oscap_strcmp_eq sys sysname = false ->
  let policy' := policy_over policy model' in
  _xccdf_policy_get_callbacks_by_sysname policy' sysname
    = _xccdf_policy_get_callbacks_by_sysname policy sysname /\
  _xccdf_policy_is_engine_registered policy' sysname
    = _xccdf_policy_is_engine_registered policy sysname /\
  forall content href rule_id bindings imports log,
    xccdf_policy_evaluate_cb policy' sysname content href rule_id bindings imports log
      = xccdf_policy_evaluate_cb policy sysname content href rule_id bindings imports log.
Proof.
  intros [(func & query_fn & ->)|[(func & ->)|[(func & -> & ->)|(func & -> & ->)]]] Hother;
    by apply add_callback_other_system.
Qed.

(** X17 (witness).  An output callback is registered; the system s1 is
    as before. *)
Lemma register_other_system_witness :
  _xccdf_policy_get_callbacks_by_sysname
    (policy_over policy_two_engines
       (xccdf_policy_model_register_output_callback (policy_model policy_two_engines)
                                                   (fun _ => 0)))
    (Some "s1")
  = _xccdf_policy_get_callbacks_by_sysname policy_two_engines (Some "s1").
Proof.
  apply (register_other_system policy_two_engines
           (xccdf_policy_model_register_output_callback (policy_model policy_two_engines)
                                                        (fun _ => 0))
           (Some "urn:xccdf:system:callback:output") (Some "s1")).
  - right; right; right. by exists (fun _ => 0).
  - reflexivity.
Defined.

End DispatchLaws.

Module CheckLaws.
Import ResultAlgebra Model Selection Chooser Evaluator Reference Examples Derived
       ResultAlgebraFacts EvaluatorFacts.

(** The value of an evaluation is that of the check tree with every
    negate flag applied, whatever the depth counted from and the calls
    made before. *)
Lemma check_evaluate_value policy check rule_id depth log :
  returned_value (xccdf_policy_check_evaluate policy check rule_id log)
    = check_value negate_at_every_check depth policy check rule_id.
Proof.
  revert depth log.
  induction check as [check IH] using xccdf_check_tree_ind; intros depth log.
  rewrite check_value_unfold. unfold negate_at_every_check at 1.
  destruct (check_complex check) eqn:Hcx.
  - rewrite check_evaluate_complex by done.
    rewrite <- (children_loop_value policy rule_id (check_oper check) (S depth)
                  (check_children check) IH 0 log).
    destruct (children_loop _ (check_oper check) (check_children check) 0 log)
      as [st|]; simpl; [|done].
    destruct (children_aborted st); simpl; [|done].
    by rewrite resolve_negate_minus_one.
  - rewrite check_evaluate_simple by done. unfold simple_check_value.
    destruct (xccdf_policy_check_get_value_bindings policy (check_exports check) [])
      as [[bindings|]|]; simpl; [| |done].
    + pose proof (content_ref_loop_value policy check rule_id bindings
                    (check_content_refs check) 0 log) as Hv.
      destruct (content_ref_loop policy check rule_id bindings
                  (check_content_refs check) 0 log) as [[ret check'] log'].
      simpl in Hv. subst ret. simpl.
      by destruct (List.filter _ _).
    + by rewrite resolve_negate_unknown.
Qed.

Lemma evaluates_to_value policy rule_id check v depth :
  evaluates_to policy rule_id check v ->
  check_value negate_at_every_check depth policy check rule_id = Returns v.
Proof. intros H. rewrite <- (check_evaluate_value policy check rule_id depth []). apply H. Qed.

Lemma complex_check_value policy check rule_id log :
  check_complex check = true ->
  returned_value (xccdf_policy_check_evaluate policy check rule_id log) =
    v ← children_value (fun child => check_value negate_at_every_check 1 policy child rule_id)
                       (check_oper check) (check_children check) 0;
    Returns (_resolve_negate v (check_negate check)).
Proof.
  intros Hcx. rewrite (check_evaluate_value policy check rule_id 0 log), check_value_unfold.
  by rewrite Hcx.
Qed.

(** *** The accumulation over the children *)

Lemma resolve_operation_defined (A B : Z) (oper : xccdf_bool_operator_t) :
  0 <= A -> 0 <= B ->
  exists v, _resolve_operation A B oper = Some v /\ 0 <= v.
Proof.
  intros HA HB. unfold _resolve_operation, XCCDF_RESULT_INFORMATIONAL.
  destruct (A =? 0) eqn:HA0; [by exists 0|].
  destruct (B =? 0) eqn:HB0; [by exists 0|].
  destruct (A >? 8) eqn:HA8; [by exists 0|].
  destruct (B >? 8) eqn:HB8; [by exists 0|].
  apply Z.eqb_neq in HA0, HB0. rewrite Z.gtb_ltb in HA8, HB8.
  apply Z.ltb_ge in HA8, HB8. simpl orb. cbv iota.
  assert (1 <= A <= 8) as HA' by lia. assert (1 <= B <= 8) as HB' by lia.
  clear HA HB HA0 HB0 HA8 HB8.
  destruct oper; [| |by exists 0];
    kind_cases HA'; kind_cases HB'; (eexists; split; [vm_compute; reflexivity|lia]).
Qed.

Lemma resolve_operation_kind (A B : Z) (oper : xccdf_bool_operator_t) :
  1 <= A <= 8 -> 1 <= B <= 8 -> oper <> XCCDF_OPERATOR_OTHER ->
  exists v, _resolve_operation A B oper = Some v /\ 1 <= v <= 8.
Proof.
  intros HA HB Hop.
  destruct oper; [| |done];
    kind_cases HA; kind_cases HB; (eexists; split; [vm_compute; reflexivity|lia]).
Qed.

Lemma resolve_operation_absorbs (oper : xccdf_bool_operator_t) (a x : Z) :
  absorbing_value oper a -> 1 <= x <= 8 ->
  _resolve_operation a x oper = Some a /\ _resolve_operation x a oper = Some a.
Proof. intros [[-> ->]|[-> ->]] Hx; kind_cases Hx; by vm_compute. Qed.

Section accumulation.
Variable value : xccdf_check -> outcome Z.
Variable oper : xccdf_bool_operator_t.

Lemma children_value_abort pre child post ret :
  Forall (fun c => exists v, 0 <= v /\ value c = Returns v) pre ->
  value child = Returns (-1) ->
  0 <= ret ->
  children_value value oper (pre ++ child :: post) ret = Returns (-1).
Proof.
  intros Hpre Hchild. revert ret.
  induction Hpre as [|c pre (v & Hv & Hc) _ IH]; intros ret Hret; simpl.
  - by rewrite Hchild.
  - rewrite Hc. simpl.
    rewrite (proj2 (Z.eqb_neq v (-1))) by lia.
    destruct (ret =? 0); simpl; [by apply IH|].
    destruct (resolve_operation_defined ret v oper Hret Hv) as (r & -> & Hr).
    simpl. by apply IH.
Qed.

Lemma children_value_absorbed a children :
  absorbing_value oper a ->
  Forall (fun c => exists v, 1 <= v <= 8 /\ value c = Returns v) children ->
  children_value value oper children a = Returns a.
Proof.
  intros Ha Hkinds.
  assert (a <> 0 /\ 1 <= a <= 8) as [Ha0 Hak]
    by (by destruct Ha as [[_ ->]|[_ ->]]; vm_compute).
  induction Hkinds as [|c rest (v & Hv & Hc) _ IH]; simpl; [done|].
  rewrite Hc. simpl. rewrite (proj2 (Z.eqb_neq v (-1))) by lia.
  rewrite (proj2 (Z.eqb_neq a 0)) by done.
  destruct (resolve_operation_absorbs oper a v Ha Hv) as [-> _]. simpl. apply IH.
Qed.

Lemma children_value_absorbing a children ret :
  absorbing_value oper a ->
  Forall (fun c => exists v, 1 <= v <= 8 /\ value c = Returns v) children ->
  Exists (fun c => value c = Returns a) children ->
  ret = 0 \/ 1 <= ret <= 8 ->
  children_value value oper children ret = Returns a.
Proof.
  intros Ha Hkinds Hex. revert ret.
  assert (oper <> XCCDF_OPERATOR_OTHER) as Hop by (by destruct Ha as [[-> _]|[-> _]]).
  induction Hkinds as [|c rest (v & Hv & Hc) Hrest IH]; intros ret Hret;
    [by apply Exists_nil in Hex|].
  simpl. rewrite Hc. simpl. rewrite (proj2 (Z.eqb_neq v (-1))) by lia.
  apply Exists_cons in Hex as [Hhd|Htl].
  - rewrite Hc in Hhd. injection Hhd as ->.
    destruct Hret as [->|Hret]; simpl.
    + by apply children_value_absorbed.
    + rewrite (proj2 (Z.eqb_neq ret 0)) by lia.
      destruct (resolve_operation_absorbs oper a ret Ha Hret) as [_ ->]. simpl.
      by apply children_value_absorbed.
  - destruct Hret as [->|Hret]; simpl.
    + apply IH; [done|by right].
    + rewrite (proj2 (Z.eqb_neq ret 0)) by lia.
      destruct (resolve_operation_kind ret v oper Hret Hv Hop) as (r & -> & Hr).
      simpl. apply IH; [done|by right].
Qed.
End accumulation.

(** X18.  A complex check one of whose children evaluates to -1
    evaluates to -1, whatever its operator, its negate flag and the
    children after that one, when the children before it evaluate to
    values that are not negative. *)
Theorem complex_check_aborts policy rule_id check pre child post :
  check_complex check = true ->
  check_children check = pre ++ child :: post ->
  Forall (fun c => exists v, 0 <= v /\ evaluates_to policy rule_id c v) pre ->
  evaluates_to policy rule_id child (-1) ->
  evaluates_to policy rule_id check (-1).
Proof.
  intros Hcx Hchildren Hpre Hchild log.
  rewrite complex_check_value by done. rewrite Hchildren.
  rewrite children_value_abort; [by destruct (check_negate check)| | |done].
  - eapply Forall_impl; [exact Hpre|]. intros c (v & Hv & Hc). exists v. split; [done|].
    by apply evaluates_to_value.
  - by apply evaluates_to_value.
Qed.

(** X18 (witness).  The second child of Or (b, a, b) is not evaluated
    by the engine (-1); the first evaluates to Pass. *)
Lemma complex_check_aborts_witness :
  evaluates_to policy_abort_on_a None or_b_a_b (-1).
Proof.
  apply (complex_check_aborts policy_abort_on_a None or_b_a_b [check_B] check_A [check_B]).
  - reflexivity.
  - reflexivity.
  - constructor; [|constructor]. exists XCCDF_RESULT_PASS. split; [by vm_compute|].
    intros log. reflexivity.
  - intros log. reflexivity.
Defined.

(** X19.  A complex And check with a child that evaluates to Fail, or a
    complex Or check with a child that evaluates to Pass, evaluates to
    that value (exchanged with the other when the check's negate flag
    is set), provided every child evaluates to a kind from Pass to
    Informational. *)
Theorem complex_check_absorbing policy rule_id check a :
  check_complex check = true ->
  absorbing_value (check_oper check) a ->
  Forall (fun c => exists v, 1 <= v <= 8 /\ evaluates_to policy rule_id c v)
         (check_children check) ->
  Exists (fun c => evaluates_to policy rule_id c a) (check_children check) ->
  evaluates_to policy rule_id check (_resolve_negate a (check_negate check)).
Proof.
  intros Hcx Ha Hkinds Hex log.
  rewrite complex_check_value by done.
  rewrite (children_value_absorbing _ _ a); [done|done| | |by left].
  - eapply Forall_impl; [exact Hkinds|]. intros c (v & Hv & Hc). exists v. split; [done|].
    by apply evaluates_to_value.
  - eapply Exists_impl; [exact Hex|]. intros c Hc. by apply evaluates_to_value.
Qed.

(** X19 (witness).  And (c, b, c) with children Pass, Fail, Pass
    evaluates to Fail. *)
Lemma complex_check_absorbing_witness :
  evaluates_to policy_by_href None and_pass_fail_pass XCCDF_RESULT_FAIL.
Proof.
  apply (complex_check_absorbing policy_by_href None and_pass_fail_pass XCCDF_RESULT_FAIL).
  - reflexivity.
  - left. split; reflexivity.
  - repeat constructor.
    + exists XCCDF_RESULT_PASS. split; [by vm_compute|]. intros log. reflexivity.
    + exists XCCDF_RESULT_FAIL. split; [by vm_compute|]. intros log. reflexivity.
    + exists XCCDF_RESULT_PASS. split; [by vm_compute|]. intros log. reflexivity.
  - apply Exists_cons_tl, Exists_cons_hd. intros log. reflexivity.
Defined.

(** X20.  A complex check with a single child evaluates to what the
    child evaluates to, with Pass and Fail exchanged when the check's
    negate flag is set; its operator plays no part. *)
Theorem complex_check_single_child policy rule_id check child log :
  check_complex check = true ->
  check_children check = [child] ->
  returned_value (xccdf_policy_check_evaluate policy check rule_id log) =
    v ← returned_value (xccdf_policy_check_evaluate policy child rule_id log);
    Returns (_resolve_negate v (check_negate check)).
Proof.
  intros Hcx Hchildren.
  rewrite complex_check_value by done. rewrite Hchildren.
  rewrite (check_evaluate_value policy child rule_id 1 log). simpl.
  destruct (check_value negate_at_every_check 1 policy child rule_id) as [v|]; simpl; [|done].
  destruct (v =? -1) eqn:E; [|done].
  apply Z.eqb_eq in E. by subst v.
Qed.

(** X20 (witness).  And of one child: a negated simple check that the
    engine passes. *)
Lemma complex_check_single_child_witness :
  returned_value (xccdf_policy_check_evaluate policy_by_href and_of_negated_child None [])
    = Returns XCCDF_RESULT_FAIL.
Proof.
  rewrite (complex_check_single_child policy_by_href None and_of_negated_child
             (simple_check "s1" true
                [ {| content_ref_href := "c.xml"; content_ref_name := None |} ] []) []);
    reflexivity.
Defined.

(** X21.  The negate flag of the evaluated check exchanges Pass and
    Fail in what the same check evaluates to without the flag, and
    changes no other value. *)
Theorem check_negate_flips policy rule_id check log :
  returned_value (xccdf_policy_check_evaluate policy check rule_id log) =
    v ← returned_value
          (xccdf_policy_check_evaluate policy (check_without_negate check) rule_id log);
    Returns (_resolve_negate v (check_negate check)).
Proof.
  rewrite (check_evaluate_value policy check rule_id 0 log).
  rewrite (check_evaluate_value policy (check_without_negate check) rule_id 0 log).
  apply check_value_root_negation.
Qed.

End CheckLaws.

Module RunnerLaws.
Import ResultAlgebra Model Selection Chooser Evaluator Applicability Runner Evaluate
       Reference Examples Policies Derived EvaluatorFacts SelectionFacts.

(** *** The TestResult only grows *)

Lemma results_extended_refl P result : results_extended P result result.
Proof.
  destruct result as [r|]; [|done]. split; [done|]. exists []. by rewrite app_nil_r.
Qed.

Lemma results_extended_trans P r1 r2 r3 :
  results_extended P r1 r2 -> results_extended P r2 r3 -> results_extended P r1 r3.
Proof.
  destruct r1 as [r1|], r2 as [r2|], r3 as [r3|]; try done.
  intros (Hid1 & new1 & Hnew1 & HP1) (Hid2 & new2 & Hnew2 & HP2).
  split; [congruence|]. exists (new1 ++ new2). split.
  - by rewrite Hnew2, Hnew1, <- app_assoc.
  - by apply Forall_app.
Qed.

Lemma results_extended_impl (P Q : string -> Prop) r1 r2 :
  (forall id, P id -> Q id) -> results_extended P r1 r2 -> results_extended Q r1 r2.
Proof.
  intros HPQ. destruct r1 as [r1|], r2 as [r2|]; try done.
  intros (Hid & new & Hnew & HP). split; [done|]. exists new. split; [done|].
  eapply Forall_impl; [exact HP|]. intros rr. apply HPQ.
Qed.

Lemma report_rule_result_extends policy st rule check res message ret st' :
  _xccdf_policy_report_rule_result policy st rule check res message = (ret, st') ->
  results_extended (fun id => id = rule_id rule) (run_result st) (run_result st').
Proof.
  unfold _xccdf_policy_report_rule_result.
  destruct (res =? -1); [intros [= _ <-]; apply results_extended_refl|].
  destruct (xccdf_policy_report_cb _ _ _ _) as [ret' log]. intros [= _ <-]. simpl.
  destruct (run_result st) as [result|]; [|done].
  split; [done|]. eexists [_]. split; [done|]. by constructor.
Qed.

Lemma multicheck_loop_extends policy rule check content names report st ret st' :
  multicheck_loop policy rule check content names report st = Returns (ret, st') ->
  results_extended (fun id => id = rule_id rule) (run_result st) (run_result st').
Proof.
  revert report st. induction names as [|name rest IH]; intros report st;
    cbn [multicheck_loop].
  - intros [= _ <-]. apply results_extended_refl.
  - destruct (xccdf_policy_check_evaluate _ _ _ _) as [[[inner_ret cloned] log]|];
      cbn [mbind outcome_bind]; [|done].
    destruct (inner_ret =? -1); [intros [= _ <-]; apply results_extended_refl|].
    destruct (_xccdf_policy_report_rule_result _ _ _ _ _ _) as [report1 st1] eqn:Hone.
    apply report_rule_result_extends in Hone. simpl in Hone.
    destruct (negb (report1 =? 0)); [by intros [= _ <-]|].
    destruct rest as [|name' rest']; [by intros [= _ <-]|].
    destruct (xccdf_policy_report_cb _ _ _ _) as [report2 log2].
    destruct (negb (report2 =? 0)); [by intros [= _ <-]|].
    intros Hrest%IH. simpl in Hrest.
    by apply (results_extended_trans _ _ (run_result st1)).
Qed.

Lemma rule_content_ref_loop_extends policy rule check bindings contents ret message st exit :
  rule_content_ref_loop policy rule check bindings contents ret message st = Returns exit ->
  results_extended (fun id => id = rule_id rule) (run_result st)
    (run_result match exit with
                | LoopReturned _ st' => st'
                | LoopDone _ _ _ st' => st'
                end).
Proof.
  revert ret message st. induction contents as [|content rest IH]; intros ret message st.
  - intros [= <-]. apply results_extended_refl.
  - cbn [rule_content_ref_loop].
    assert (forall message',
              (let '(ret, log) :=
                 xccdf_policy_evaluate_cb policy (check_system check)
                   (content_ref_name content) (content_ref_href content) None bindings
                   (check_imports check) (run_log st) in
               let st := {| run_result := run_result st; run_log := log |} in
               if negb (ret =? XCCDF_RESULT_NOT_CHECKED)
               then Returns (LoopDone (Some ret) message'
                               (xccdf_check_inject_content_ref check content None) st)
               else rule_content_ref_loop policy rule check bindings rest (Some ret)
                      message' st) = Returns exit ->
              results_extended (fun id => id = rule_id rule) (run_result st)
                (run_result match exit with
                            | LoopReturned _ st' => st'
                            | LoopDone _ _ _ st' => st'
                            end)) as Hevaluate.
    { intros message'. destruct (xccdf_policy_evaluate_cb _ _ _ _ _ _ _ _) as [r log].
      destruct (negb (r =? XCCDF_RESULT_NOT_CHECKED)).
      - intros [= <-]. apply results_extended_refl.
      - intros Hrest%IH. exact Hrest. }
    destruct (bool_decide (content_ref_name content = None) && check_multicheck check);
      [|apply Hevaluate].
    destruct (_xccdf_policy_get_namesfor_href _ _ _) as [[|name names]|];
      [| |apply Hevaluate].
    + destruct (_xccdf_policy_report_rule_result _ _ _ _ _ _) as [report st1] eqn:Hone.
      apply report_rule_result_extends in Hone. by intros [= <-].
    + destruct (multicheck_loop policy rule check content (name :: names) 0 st)
        as [[report st1]|] eqn:Hloop; cbn [mbind outcome_bind]; [|done].
      intros [= <-]. by apply multicheck_loop_extends in Hloop.
Qed.

(** Evaluating a Rule keeps what the TestResult holds and its id, and
    adds only rule-results for this Rule. *)
Lemma rule_evaluate_extends policy rule st ret st' :
  _xccdf_policy_rule_evaluate policy rule st = Returns (ret, st') ->
  results_extended (fun id => id = rule_id rule) (run_result st) (run_result st').
Proof.
  unfold _xccdf_policy_rule_evaluate.
  destruct (_xccdf_policy_is_rule_selected policy rule) as [is_selected|];
    cbn [mbind outcome_bind]; [|done].
  destruct (xccdf_policy_report_cb _ _ _ _) as [report log].
  destruct (negb (report =? 0)); [intros [= _ <-]; apply results_extended_refl|].
  assert (forall check res message,
            Returns (_xccdf_policy_report_rule_result policy
                       {| run_result := run_result st; run_log := log |}
                       rule check res message)
              = Returns (ret, st') ->
            results_extended (fun id => id = rule_id rule) (run_result st) (run_result st'))
    as Hreport.
  { intros check res message [= Heq]. by apply report_rule_result_extends in Heq. }
  destruct (negb is_selected); [apply Hreport|].
  destruct (negb (xccdf_policy_model_item_is_applicable _ _)); [apply Hreport|].
  destruct (_xccdf_policy_rule_get_applicable_check policy rule) as [check|];
    [|apply Hreport].
  destruct (check_complex check).
  - destruct (xccdf_policy_check_evaluate _ _ _ _) as [[[res check'] log']|];
      cbn [mbind outcome_bind]; [|done].
    intros [= Heq]. by apply report_rule_result_extends in Heq.
  - destruct (xccdf_policy_check_get_value_bindings _ _ _) as [[bindings|]|];
      cbn [mbind outcome_bind]; [| apply Hreport | done].
    destruct (rule_content_ref_loop _ _ _ _ _ _ _ _) as [exit|] eqn:Hloop;
      cbn [mbind outcome_bind]; [|done].
    apply rule_content_ref_loop_extends in Hloop.
    destruct exit as [report' st1|[ret'|] message check' st1]; [by intros [= _ <-]| |done].
    intros [= Heq]. apply report_rule_result_extends in Heq.
    by apply (results_extended_trans _ _ (run_result st1)).
Qed.

(** *** Rules that are not evaluated *)

(** X29.  A Rule that is not selected, or not applicable, or has no
    applicable check is handed to no checking engine.  When a start
    reporter returns a value other than 0 the evaluation stops there:
    that value is returned and the TestResult is as before.  Otherwise
    exactly one rule-result is added, of kind NotSelected, NotApplicable
    or NotChecked in this order of precedence, it is reported to the
    output reporters, and their value is returned.  The calls made are
    those of the start report and then those of the output report. *)
Theorem rule_evaluate_without_check policy rule st result selected :
  _xccdf_policy_is_rule_selected policy rule = Returns selected ->
  run_result st = Some result ->
  selected = false \/
  xccdf_policy_model_item_is_applicable (policy_model policy) rule = false \/
  _xccdf_policy_rule_get_applicable_check policy rule = None ->
  match reporters_stop (reporters policy start_system) (StartArgs rule) with
  | Some stop =>
      _xccdf_policy_rule_evaluate policy rule st =
        Returns (stop,
                 {| run_result := Some result;
                    run_log := run_log st
                               ++ report_calls policy start_system (StartArgs rule) |})
  | None =>
      let applicable :=
        xccdf_policy_model_item_is_applicable (policy_model policy) rule in
      let rule_result :=
        _xccdf_rule_result_new_from_rule rule None (skipped_kind selected applicable)
                                         (skipped_message selected applicable) in
      _xccdf_policy_rule_evaluate policy rule st =
        Returns (report_value policy output_system (OutputArgs (Some rule_result)),
                 {| run_result := Some (xccdf_result_add_rule_result result rule_result);
                    run_log := run_log st
                               ++ report_calls policy start_system (StartArgs rule)
                               ++ report_calls policy output_system
                                    (OutputArgs (Some rule_result)) |})
  end.
Proof.
  intros Hsel Hresult Hwhy. unfold _xccdf_policy_rule_evaluate.
  rewrite Hsel. cbn [mbind outcome_bind].
  change "urn:xccdf:system:callback:start"%string with start_system.
  rewrite report_cb_spec. cbv beta iota zeta.
  destruct (reporters_stop (reporters policy start_system) (StartArgs rule))
    as [stop|] eqn:Hstop.
  { assert (report_value policy start_system (StartArgs rule) = stop) as ->
      by (unfold report_value; by rewrite Hstop).
    rewrite (reporters_stop_nonzero _ _ _ Hstop). cbn [negb]. by rewrite Hresult. }
  assert (report_value policy start_system (StartArgs rule) = 0) as ->
    by (unfold report_value; by rewrite Hstop).
  change (0 =? 0) with true. cbn [negb].
  assert (forall res message,
            res <> -1 ->
            Returns (_xccdf_policy_report_rule_result policy
                       {| run_result := run_result st;
                          run_log := run_log st
                                     ++ report_calls policy start_system (StartArgs rule) |}
                       rule None res message)
            = Returns
                (report_value policy output_system
                   (OutputArgs (Some (_xccdf_rule_result_new_from_rule rule None res message))),
                 {| run_result :=
                      Some (xccdf_result_add_rule_result result
                              (_xccdf_rule_result_new_from_rule rule None res message));
                    run_log :=
                      run_log st
                      ++ report_calls policy start_system (StartArgs rule)
                      ++ report_calls policy output_system
                           (OutputArgs
                              (Some (_xccdf_rule_result_new_from_rule rule None res
                                       message))) |})) as Hskip.
  { intros res message Hres.
    rewrite (report_rule_result_spec policy
               {| run_result := run_result st;
                  run_log := run_log st
                             ++ report_calls policy start_system (StartArgs rule) |}
               rule None res message result Hres Hresult).
    cbn [run_log]. by rewrite <- app_assoc. }
  unfold skipped_kind, skipped_message.
  destruct selected; cbn [negb]; [|by apply Hskip].
  destruct (xccdf_policy_model_item_is_applicable (policy_model policy) rule);
    cbn [negb]; [|by apply Hskip].
  destruct Hwhy as [?|[?|Hcheck]]; [done|done|].
  rewrite Hcheck. by apply Hskip.
Qed.

(** X29 (witness).  The Rule r2 below the deselected Group g1: no
    reporter is registered, so one rule-result NotSelected is added and
    nothing is called. *)
Lemma rule_evaluate_without_check_witness :
  _xccdf_policy_rule_evaluate
    (xccdf_policy_new model_group_rule (Some profile_deselects_g1)) rule_r2
    {| run_result := Some {| result_id := Some "t"; result_rule_results := [] |};
       run_log := [] |}
  = Returns (0,
             {| run_result :=
                  Some {| result_id := Some "t";
                          result_rule_results :=
                            [ _xccdf_rule_result_new_from_rule rule_r2 None
                                XCCDF_RESULT_NOT_SELECTED None ] |};
                run_log := [] |}).
Proof.
  exact (rule_evaluate_without_check
           (xccdf_policy_new model_group_rule (Some profile_deselects_g1)) rule_r2
           {| run_result := Some {| result_id := Some "t"; result_rule_results := [] |};
              run_log := [] |}
           {| result_id := Some "t"; result_rule_results := [] |} false
           eq_refl eq_refl (or_introl eq_refl)).
Defined.

(** *** Evaluation of a whole policy *)

Lemma first_found_id id content found :
  Forall (fun item => forall found,
            item_get_item id item = Some found -> xccdf_item_get_id found = id) content ->
  first_found (item_get_item id) content = Some found -> xccdf_item_get_id found = id.
Proof.
  induction 1 as [|child rest Hchild _ IH]; simpl; [done|].
  destruct (item_get_item id child) as [found'|] eqn:E; [|done].
  intros [= <-]. by apply Hchild.
Qed.

(** What the search by id finds has the id. *)
Lemma item_get_item_id id item found :
  item_get_item id item = Some found -> xccdf_item_get_id found = id.
Proof.
  revert found.
  induction item as [r|g content IH|v] using xccdf_item_tree_ind; intros found;
    simpl; (destruct (streq _ id) eqn:E; [apply streq_true in E; by intros [= <-]|]);
    [done| |done].
  by apply first_found_id.
Qed.

Lemma benchmark_get_item_id benchmark id found :
  xccdf_benchmark_get_item benchmark id = Some found -> xccdf_item_get_id found = id.
Proof.
  apply first_found_id, Forall_forall. intros item _ found'. apply item_get_item_id.
Qed.

Lemma evaluate_selects_extends policy sels st failed st' :
  evaluate_selects policy sels st = Returns (failed, st') ->
  results_extended
    (fun id => id ∈ map select_item sels /\
               exists rule,
                 xccdf_benchmark_get_item (model_benchmark (policy_model policy)) id
                   = Some (XCCDF_RULE rule) /\ rule_id rule = id)
    (run_result st) (run_result st').
Proof.
  revert st. induction sels as [|sel rest IH]; intros st; cbn [evaluate_selects].
  - intros [= _ <-]. apply results_extended_refl.
  - assert (forall st1,
              evaluate_selects policy rest st1 = Returns (failed, st') ->
              results_extended
                (fun id => id ∈ map select_item (sel :: rest) /\
                           exists rule,
                             xccdf_benchmark_get_item
                               (model_benchmark (policy_model policy)) id
                               = Some (XCCDF_RULE rule) /\ rule_id rule = id)
                (run_result st1) (run_result st')) as Hrest.
    { intros st1 H%IH. eapply results_extended_impl; [|exact H].
      intros id [Hin Hrule]. split; [|done]. simpl. by right. }
    destruct (xccdf_benchmark_get_item _ (select_item sel)) as [[rule|g content|v]|] eqn:Hitem;
      [| apply Hrest | | apply Hrest].
    + cbn [xccdf_policy_item_evaluate].
      destruct (_xccdf_policy_rule_evaluate policy rule st) as [[ret st1]|] eqn:Hrule;
        cbn [mbind outcome_bind]; [|done].
      apply rule_evaluate_extends in Hrule.
      assert (results_extended
                (fun id => id ∈ map select_item (sel :: rest) /\
                           exists rule,
                             xccdf_benchmark_get_item
                               (model_benchmark (policy_model policy)) id
                               = Some (XCCDF_RULE rule) /\ rule_id rule = id)
                (run_result st) (run_result st1)) as Hone.
      { eapply results_extended_impl; [|exact Hrule].
        intros id ->. pose proof (benchmark_get_item_id _ _ _ Hitem) as Hid. simpl in Hid.
        rewrite Hid. split; [simpl; by left|]. by exists rule. }
      destruct (ret =? -1); [by intros [= _ <-]|].
      destruct (negb (ret =? 0)); [by intros [= _ <-]|].
      intros H%Hrest. by apply (results_extended_trans _ _ (run_result st1)).
    + cbn [xccdf_policy_item_evaluate mbind outcome_bind mret outcome_ret].
      change (0 =? -1) with false. cbn [negb]. change (0 =? 0) with true. cbn [negb].
      apply Hrest.
Qed.

(** X22.  The TestResult [xccdf_policy_evaluate] returns has the id made
    from the policy's Profile id and is appended to the results of the
    policy, which is otherwise unchanged; each of its rule-results
    refers to an id that has a select in the policy and names a Rule of
    the Benchmark.  When NULL is returned, the policy is as before. *)
Theorem evaluate_result policy result policy' log :
  xccdf_policy_evaluate policy = Returns (result, policy', log) ->
  match result with
  | Some result =>
      (exists rid, testresult_id policy = Returns rid /\ result_id result = Some rid) /\
      policy' = xccdf_policy_add_result policy result /\
      Forall (fun rr => selected_rule_id policy (rule_result_idref rr))
             (result_rule_results result)
  | None => policy' = policy
  end.
Proof.
  unfold xccdf_policy_evaluate.
  destruct (testresult_id policy) as [rid|]; cbn [mbind outcome_bind]; [|done].
  destruct (evaluate_selects _ _ _) as [[failed st]|] eqn:Hloop;
    cbn [mbind outcome_bind]; [|done].
  apply evaluate_selects_extends in Hloop. cbn [run_result] in Hloop.
  destruct failed; [by intros [= <- <- _]|].
  destruct (run_result st) as [result'|]; [|done].
  intros [= <- <- _]. destruct Hloop as (Hid & new & Hnew & Hrules).
  simpl in Hid, Hnew. split; [by exists rid|]. split; [done|]. by rewrite Hnew.
Qed.

(** X22 (witness).  The policy for the Profile that selects r2 before
    r1. *)
Lemma evaluate_result_witness :
  exists result policy' log,
    xccdf_policy_evaluate policy_r2_r1 = Returns (Some result, policy', log) /\
    policy' = xccdf_policy_add_result policy_r2_r1 result.
Proof.
  destruct (xccdf_policy_evaluate policy_r2_r1) as [[[[result|] policy'] log]|] eqn:E;
    try (exfalso; vm_compute in E; congruence).
  exists result, policy', log. split; [reflexivity|].
  exact (proj1 (proj2 (evaluate_result policy_r2_r1 (Some result) policy' log E))).
Defined.

(** X23 (witness).  Schema version 1.2, no Profile. *)
Lemma testresult_id_up_to_1_2_witness :
  testresult_id (policy_of_version "1.2" None)
    = Returns "xccdf_org.open-scap_testresult_default-profile".
Proof.
  apply (EvaluateFacts.testresult_id_up_to_1_2 (policy_of_version "1.2" None)).
  by vm_compute.
Defined.

(** X24.  For a schema version that compares above "1.2" the id
    "OSCAP-Test-..." is written into a buffer one byte too short for its
    terminating NUL: [xccdf_policy_evaluate] has no defined result. *)
Theorem evaluate_above_1_2_overflows policy :
  strverscmp "1.2" (benchmark_schema_version (model_benchmark (policy_model policy))) < 0 ->
  testresult_id policy = Undefined /\ xccdf_policy_evaluate policy = Undefined.
Proof.
  intros Hcmp. pose proof (EvaluateFacts.testresult_id_above_1_2 policy Hcmp) as Hid.
  split; [done|]. unfold xccdf_policy_evaluate. by rewrite Hid.
Qed.

(** X24 (witness).  Schema version 1.3. *)
Lemma evaluate_above_1_2_overflows_witness :
  xccdf_policy_evaluate policy_version_1_3 = Undefined.
Proof.
  apply (evaluate_above_1_2_overflows policy_version_1_3). by vm_compute.
Defined.

Lemma evaluate_returns policy result policy' log :
  xccdf_policy_evaluate policy = Returns (Some result, policy', log) ->
  (exists rid, testresult_id policy = Returns rid /\ result_id result = Some rid) /\
  policy' = xccdf_policy_add_result policy result.
Proof.
  unfold xccdf_policy_evaluate.
  destruct (testresult_id policy) as [rid|]; cbn [mbind outcome_bind]; [|done].
  destruct (evaluate_selects _ _ _) as [[failed st]|] eqn:Hloop;
    cbn [mbind outcome_bind]; [|done].
  apply evaluate_selects_extends in Hloop. cbn [run_result] in Hloop.
  destruct failed; [done|].
  destruct (run_result st) as [result'|]; [|done].
  intros [= <- <- _]. destruct Hloop as (Hid & _). simpl in Hid. split; [|done].
  by exists rid.
Qed.

(** X25.  Evaluating a policy twice gives two TestResults with the same
    id, both kept in the policy; [xccdf_policy_get_result_by_id] with
    that id returns the first of them, not the latest. *)
Theorem evaluate_twice_same_id policy r1 policy1 log1 r2 policy2 log2 :
  policy_results policy = [] ->
  xccdf_policy_evaluate policy = Returns (Some r1, policy1, log1) ->
  xccdf_policy_evaluate policy1 = Returns (Some r2, policy2, log2) ->
  exists rid,
    result_id r1 = Some rid /\ result_id r2 = Some rid /\
    policy_results policy2 = [r1; r2] /\
    xccdf_policy_get_result_by_id (policy_results policy2) rid = Returns (Some r1).
Proof.
  intros Hnone [(rid & Hid1 & E1) ->]%evaluate_returns
    [(rid2 & Hid2 & E2) ->]%evaluate_returns.
  change (testresult_id (xccdf_policy_add_result policy r1)) with (testresult_id policy)
    in Hid2.
  rewrite Hid1 in Hid2. injection Hid2 as <-.
  exists rid. split; [done|]. split; [done|]. simpl. rewrite Hnone. split; [done|].
  simpl. rewrite E1. by rewrite (proj2 (streq_true rid rid)).
Qed.

(** X25 (witness).  The policy over the two Rules r1 and r2, evaluated
    twice. *)
Lemma evaluate_twice_same_id_witness :
  exists r1 policy1 log1 r2 policy2 log2,
    xccdf_policy_evaluate policy_r2_r1 = Returns (Some r1, policy1, log1) /\
    xccdf_policy_evaluate policy1 = Returns (Some r2, policy2, log2) /\
    xccdf_policy_get_result_by_id (policy_results policy2)
      "xccdf_org.open-scap_testresult_p" = Returns (Some r1).
Proof.
  destruct (xccdf_policy_evaluate policy_r2_r1) as [[[[r1|] policy1] log1]|] eqn:E1;
    try (exfalso; vm_compute in E1; congruence).
  destruct (xccdf_policy_evaluate policy1) as [[[[r2|] policy2] log2]|] eqn:E2;
    try (exfalso; apply evaluate_returns in E1 as [_ ->]; vm_compute in E2; congruence).
  exists r1, policy1, log1, r2, policy2, log2. split; [reflexivity|]. split; [exact E2|].
  destruct (evaluate_twice_same_id policy_r2_r1 r1 policy1 log1 r2 policy2 log2
              eq_refl E1 E2) as (rid & Hr1 & _ & _ & Hget).
  assert (rid = "xccdf_org.open-scap_testresult_p") as <-; [|exact Hget].
  apply evaluate_returns in E1 as [(rid' & Hid & Hr1') _].
  rewrite Hr1 in Hr1'. injection Hr1' as <-.
  vm_compute in Hid. by injection Hid as <-.
Defined.

End RunnerLaws.

Module PoliciesLaws.
Import ResultAlgebra Model Selection Evaluator Reference Examples Policies Derived
       SelectionFacts SelectionLaws.

Lemma policy_new_id model profile :
  xccdf_policy_get_id (xccdf_policy_new model (Some profile)) = profile_id profile.
Proof.
  unfold xccdf_policy_get_id.
  by rewrite (proj1 (proj2 (policy_new_frame model (Some profile)))).
Qed.

Lemma policy_scan_id_found policies id policy :
  policy_scan_id policies id = Some policy ->
  policy ∈ policies /\ xccdf_policy_get_id policy = Some id.
Proof.
  induction policies as [|p rest IH]; simpl; [done|].
  destruct (xccdf_policy_get_id p) as [pid|] eqn:Hpid.
  - destruct (streq pid id) eqn:E.
    + apply streq_true in E. subst pid. intros [= <-]. split; [by left|done].
    + intros [Hin Hid]%IH. split; [by right|done].
  - intros [Hin Hid]%IH. split; [by right|done].
Qed.

Lemma policy_scan_id_none policies id :
  policy_scan_id policies id = None ->
  Forall (fun policy => xccdf_policy_get_id policy <> Some id) policies.
Proof.
  induction policies as [|p rest IH]; simpl; [by constructor|].
  destruct (xccdf_policy_get_id p) as [pid|] eqn:Hpid.
  - destruct (streq pid id) eqn:E; [done|]. apply streq_false in E.
    intros H%IH. constructor; [|done]. rewrite Hpid. congruence.
  - intros H%IH. constructor; [|done]. by rewrite Hpid.
Qed.

Lemma policy_scan_null_found policies policy :
  policy_scan_null policies = Some policy ->
  policy ∈ policies /\ xccdf_policy_get_id policy = None.
Proof.
  induction policies as [|p rest IH]; simpl; [done|].
  destruct (xccdf_policy_get_id p) as [pid|] eqn:Hpid.
  - intros [Hin Hid]%IH. split; [by right|done].
  - intros [= <-]. split; [by left|done].
Qed.

Lemma policy_scan_null_none policies :
  policy_scan_null policies = None ->
  Forall (fun policy => xccdf_policy_get_id policy <> None) policies.
Proof.
  induction policies as [|p rest IH]; simpl; [by constructor|].
  destruct (xccdf_policy_get_id p) as [pid|] eqn:Hpid; [|done].
  intros H%IH. constructor; [|done]. by rewrite Hpid.
Qed.

(** X26.  [xccdf_policy_model_get_policy_by_id] returns a policy of the
    list whose id is the one asked for, a NULL id asking for a policy
    without id; it returns NULL only when the list holds no policy with
    that id. *)
Theorem get_policy_by_id_sound policies id :
  match xccdf_policy_model_get_policy_by_id policies id with
  | Some policy => policy ∈ policies /\ xccdf_policy_get_id policy = id
  | None => Forall (fun policy => xccdf_policy_get_id policy <> id) policies
  end.
Proof.
  destruct id as [id|]; simpl.
  - destruct (policy_scan_id policies id) as [policy|] eqn:E.
    + by apply policy_scan_id_found.
    + by apply policy_scan_id_none.
  - destruct (policy_scan_null policies) as [policy|] eqn:E.
    + by apply policy_scan_null_found.
    + by apply policy_scan_null_none.
Qed.

Lemma policy_scan_id_new model profiles id :
  policy_scan_id (map (fun profile => xccdf_policy_new model (Some profile)) profiles) id
    = (fun profile => xccdf_policy_new model (Some profile))
        <$> List.find (fun profile => bool_decide (profile_id profile = Some id)) profiles.
Proof.
  induction profiles as [|p rest IH]; [done|].
  cbn [map policy_scan_id List.find]. rewrite policy_new_id.
  destruct (profile_id p) as [pid|] eqn:Hpid.
  - destruct (streq pid id) eqn:E.
    + apply streq_true in E. subst pid. by rewrite bool_decide_eq_true_2.
    + apply streq_false in E. rewrite bool_decide_eq_false_2 by congruence. apply IH.
  - rewrite bool_decide_eq_false_2 by done. apply IH.
Qed.

(** X27.  In the policies [xccdf_policy_model_new] makes, the NULL id
    finds the policy of the Benchmark without Profile, made first, and
    an id finds the policy of the first Profile of the Benchmark with
    that id, or nothing when no Profile has it. *)
Theorem model_new_policy_by_id benchmark cpe_name_check id :
  let '(model, policies) := xccdf_policy_model_new benchmark cpe_name_check in
  xccdf_policy_model_get_policy_by_id policies None
    = Some (xccdf_policy_new model (Some default_profile)) /\
  xccdf_policy_model_get_policy_by_id policies (Some id)
    = (fun profile => xccdf_policy_new model (Some profile))
        <$> List.find (fun profile => bool_decide (profile_id profile = Some id))
                      (benchmark_profiles benchmark).
Proof.
  unfold xccdf_policy_model_new, xccdf_policy_model_get_policy_by_id.
  cbn [policy_scan_null policy_scan_id]. rewrite policy_new_id. cbn [default_profile profile_id].
  split; [done|]. apply policy_scan_id_new.
Qed.

End PoliciesLaws.

Module FilesLaws.
Import ResultAlgebra Model Selection Evaluator Reference Examples Files Derived
       EvaluatorFacts SelectionFacts.

Lemma list_contains_elem (names : list string) (href : string) :
  oscap_list_contains xccdf_cmp_func names href = true <-> href ∈ names.
Proof.
  unfold oscap_list_contains. rewrite existsb_exists. split.
  - intros (x & Hx & Heq). apply bool_decide_eq_true in Heq. simpl in Heq. subst x.
    by apply list_elem_of_In.
  - intros Hin. exists href. split; [by apply list_elem_of_In|].
    by apply bool_decide_eq_true.
Qed.

(** One name added unless it is there: the names are the old ones and
    the new one, and stay distinct. *)
Lemma add_new_spec (names : list string) (href : string) :
  (forall h, h ∈ add_new xccdf_cmp_func names href <-> h ∈ names \/ h = href) /\
  (NoDup names -> NoDup (add_new xccdf_cmp_func names href)).
Proof.
  unfold add_new.
  destruct (oscap_list_contains xccdf_cmp_func names href) eqn:E; simpl.
  - apply list_contains_elem in E. split; [|done].
    intros h. split; [by left|]. by intros [?| ->].
  - assert (href ∉ names) as Hnew.
    { intros Hin%list_contains_elem. congruence. }
    split.
    + intros h. rewrite elem_of_app, list_elem_of_singleton. tauto.
    + intros Hnd. apply NoDup_app. split; [done|]. split; [|apply NoDup_singleton].
      intros h Hh ->%list_elem_of_singleton. done.
Qed.

Lemma add_all_new_spec (sub names : list string) :
  (forall h, h ∈ add_all_new xccdf_cmp_func names sub <-> h ∈ names \/ h ∈ sub) /\
  (NoDup names -> NoDup (add_all_new xccdf_cmp_func names sub)).
Proof.
  unfold add_all_new. revert names. induction sub as [|x sub IH]; intros names; simpl.
  - split; [|done]. intros h. rewrite elem_of_nil. tauto.
  - destruct (IH (add_new xccdf_cmp_func names x)) as [Hmem Hnd].
    destruct (add_new_spec names x) as [Hmem1 Hnd1]. split.
    + intros h. rewrite Hmem, Hmem1, elem_of_cons. tauto.
    + intros H. by apply Hnd, Hnd1.
Qed.

Lemma fold_add_all_spec {B} (f : B -> list string) (bs : list B) (names : list string) :
  (forall h, h ∈ fold_left (fun names b => add_all_new xccdf_cmp_func names (f b)) bs names
             <-> h ∈ names \/ h ∈ concat (map f bs)) /\
  (NoDup names ->
   NoDup (fold_left (fun names b => add_all_new xccdf_cmp_func names (f b)) bs names)).
Proof.
  revert names. induction bs as [|b bs IH]; intros names; simpl.
  - split; [|done]. intros h. rewrite elem_of_nil. tauto.
  - destruct (IH (add_all_new xccdf_cmp_func names (f b))) as [Hmem Hnd].
    destruct (add_all_new_spec (f b) names) as [Hmem1 Hnd1]. split.
    + intros h. rewrite Hmem, Hmem1, elem_of_app. tauto.
    + intros H. by apply Hnd, Hnd1.
Qed.

Lemma fold_add_new_spec {B} (f : B -> string) (bs : list B) (names : list string) :
  (forall h, h ∈ fold_left (fun names b => add_new xccdf_cmp_func names (f b)) bs names
             <-> h ∈ names \/ h ∈ map f bs) /\
  (NoDup names ->
   NoDup (fold_left (fun names b => add_new xccdf_cmp_func names (f b)) bs names)).
Proof.
  revert names. induction bs as [|b bs IH]; intros names; simpl.
  - split; [|done]. intros h. rewrite elem_of_nil. tauto.
  - destruct (IH (add_new xccdf_cmp_func names (f b))) as [Hmem Hnd].
    destruct (add_new_spec names (f b)) as [Hmem1 Hnd1]. split.
    + intros h. rewrite Hmem, Hmem1, elem_of_cons. tauto.
    + intros H. by apply Hnd, Hnd1.
Qed.

Lemma elem_concat_map_ext {B} (f g : B -> list string) (bs : list B) :
  Forall (fun b => forall h, h ∈ f b <-> h ∈ g b) bs ->
  forall h, h ∈ concat (map f bs) <-> h ∈ concat (map g bs).
Proof.
  induction 1 as [|b bs Hb _ IH]; intros h; simpl; [done|].
  by rewrite !elem_of_app, Hb, IH.
Qed.

Lemma check_get_files_unfold check :
  xccdf_check_get_files check =
    if check_complex check then
      fold_left (fun names child =>
                   add_all_new xccdf_cmp_func names (xccdf_check_get_files child))
                (check_children check) []
    else
      fold_left (fun names content => add_new xccdf_cmp_func names (content_ref_href content))
                (check_content_refs check) [].
Proof. by destruct check. Qed.

Lemma check_hrefs_unfold check :
  check_hrefs check =
    if check_complex check then concat (map check_hrefs (check_children check))
    else map content_ref_href (check_content_refs check).
Proof. by destruct check. Qed.

(** [xccdf_check_get_files] lists each href once, and lists exactly the
    hrefs of the content-refs of the simple checks of the check tree. *)
Lemma check_get_files_hrefs check :
  NoDup (xccdf_check_get_files check) /\
  forall href, href ∈ xccdf_check_get_files check <-> href ∈ check_hrefs check.
Proof.
  induction check as [check IH] using xccdf_check_tree_ind.
  rewrite check_get_files_unfold, check_hrefs_unfold.
  destruct (check_complex check).
  - destruct (fold_add_all_spec xccdf_check_get_files (check_children check) [])
      as [Hmem Hnd].
    split; [apply Hnd, NoDup_nil_2|].
    intros href. rewrite Hmem, elem_of_nil.
    rewrite (elem_concat_map_ext xccdf_check_get_files check_hrefs (check_children check));
      [tauto|].
    eapply Forall_impl; [exact IH|]. by intros child [_ Hchild].
  - destruct (fold_add_new_spec content_ref_href (check_content_refs check) [])
      as [Hmem Hnd].
    split; [apply Hnd, NoDup_nil_2|].
    intros href. rewrite Hmem, elem_of_nil. tauto.
Qed.

(** *** Files of items *)

Lemma rule_get_files_hrefs rule :
  NoDup (rule_get_files rule) /\
  forall href, href ∈ rule_get_files rule <-> href ∈ item_hrefs (XCCDF_RULE rule).
Proof.
  unfold rule_get_files.
  destruct (fold_add_all_spec xccdf_check_get_files (xccdf_rule_get_checks rule) [])
    as [Hmem Hnd].
  split; [apply Hnd, NoDup_nil_2|].
  intros href. rewrite Hmem, elem_of_nil. simpl.
  rewrite (elem_concat_map_ext xccdf_check_get_files check_hrefs (xccdf_rule_get_checks rule));
    [tauto|].
  apply Forall_forall. intros check _. apply check_get_files_hrefs.
Qed.

Lemma children_get_files_hrefs content :
  Forall (fun item => item_without_value item = true ->
            exists names,
              xccdf_item_get_files item = Returns (Some names) /\
              NoDup names /\
              forall href, href ∈ names <-> href ∈ item_hrefs item) content ->
  forallb item_without_value content = true ->
  forall acc, NoDup acc ->
    exists names,
      children_get_files xccdf_item_get_files content acc = Returns names /\
      NoDup names /\
      forall href, href ∈ names <-> href ∈ acc \/ href ∈ concat (map item_hrefs content).
Proof.
  induction 1 as [|child rest Hchild _ IH]; intros Hall acc Hacc.
  - exists acc. split; [done|]. split; [done|]. intros href. simpl. rewrite elem_of_nil. tauto.
  - simpl in Hall. apply andb_true_iff in Hall as [Hhd Htl].
    destruct (Hchild Hhd) as (sub & Hsub & _ & Hmem).
    destruct (add_all_new_spec sub acc) as [Hmem1 Hnd1].
    destruct (IH Htl (add_all_new xccdf_cmp_func acc sub) (Hnd1 Hacc))
      as (names & Hnames & Hnd & Hmem2).
    exists names. cbn [children_get_files]. rewrite Hsub. cbn [mbind outcome_bind].
    split; [done|]. split; [done|].
    intros href. rewrite Hmem2, Hmem1, Hmem. simpl. rewrite elem_of_app. tauto.
Qed.

Lemma item_get_files_hrefs item :
  item_without_value item = true ->
  exists names,
    xccdf_item_get_files item = Returns (Some names) /\
    NoDup names /\
    forall href, href ∈ names <-> href ∈ item_hrefs item.
Proof.
  induction item as [rule|g content IH|v] using xccdf_item_tree_ind; intros Hall.
  - exists (rule_get_files rule). split; [done|]. apply rule_get_files_hrefs.
  - destruct (children_get_files_hrefs content IH Hall [] (@NoDup_nil_2 string))
      as (names & Hnames & Hnd & Hmem).
    exists names. cbn [xccdf_item_get_files]. rewrite Hnames. split; [done|]. split; [done|].
    intros href. rewrite Hmem, elem_of_nil. simpl. tauto.
  - done.
Qed.

(** X28.  For a Benchmark that holds no Value, [xccdf_policy_model_get_files]
    returns a list that has each href once and holds exactly the hrefs
    of the content-refs of the simple checks of the checks of the Rules
    of the Benchmark. *)
Theorem model_get_files_hrefs model :
  forallb item_without_value (benchmark_content (model_benchmark model)) = true ->
  exists names,
    xccdf_policy_model_get_files model = Returns (Some names) /\
    NoDup names /\
    forall href,
      href ∈ names
      <-> href ∈ concat (map item_hrefs (benchmark_content (model_benchmark model))).
Proof.
  intros Hall.
  destruct (children_get_files_hrefs (benchmark_content (model_benchmark model))
              (proj2 (Forall_forall _ _) (fun item _ => item_get_files_hrefs item))
              Hall [] (@NoDup_nil_2 string)) as (names & Hnames & Hnd & Hmem).
  exists names. unfold xccdf_policy_model_get_files. rewrite Hnames.
  split; [done|]. split; [done|]. intros href. rewrite Hmem, elem_of_nil. tauto.
Qed.

(** X28 (witness).  The Benchmark with r1 and, in the Group g1, r2 whose
    check refers to "b.xml". *)
Lemma model_get_files_hrefs_witness :
  exists names,
    xccdf_policy_model_get_files model_group_rule = Returns (Some names) /\
    NoDup names /\
    forall href, href ∈ names <-> href ∈ ["b.xml"].
Proof.
  apply (model_get_files_hrefs model_group_rule). reflexivity.
Defined.

End FilesLaws.

Module ApplicabilityLaws.
Import ResultAlgebra Model Selection Evaluator Applicability Reference Examples Derived.




End ApplicabilityLaws.
